(** * FoodWasteConnector: donation lifecycle, row-level security, notifications

    A shallow embedding of the parts of the application that decide how a
    donation moves through its lifecycle:

    - the [profiles] and [donations] tables with the row-level security
      policies and the timestamp trigger of
      [supabase/migrations/20250629071101_hidden_term.sql] (the last
      migration that touches the [donations] policies) and the [profiles]
      policies of [20250629072723_steep_meadow.sql];
    - the client calls [acceptDonation] (IncomingRequests), [completeDonation]
      (MyPickups), [handleSubmit] (DonateSurplus), [updateProfile] and
      [createMissingProfile] (AuthContext), [ProtectedRoute];
    - [geocodeAddress] (lib/supabase) and [handleDonationChange]
      (NotificationSystem).

    Tables are finite maps keyed by their primary-key column [id].  Every
    statement sent to the database is atomic on the row it touches, so calls
    made by several clients are modelled as a sequence of calls, in the order
    in which the database serves them. *)

From Stdlib Require Import Ascii String QArith Qround Qabs.
From stdpp Require Import gmap strings list fin_maps sorting pretty.

Local Open Scope string_scope.

(** ** Column types *)

Abbreviation uuid := string.
Abbreviation timestamptz := Z.

(** [user_type text CHECK (user_type IN ('donor','shelter','volunteer'))] *)
Inductive UserType := donor | shelter | volunteer.

(** [status text CHECK (status IN ('pending','accepted','completed','cancelled'))] *)
Inductive Status := pending | accepted | completed | cancelled.

#[global] Instance UserType_eq_dec : EqDecision UserType.
Proof. solve_decision. Defined.

#[global] Instance Status_eq_dec : EqDecision Status.
Proof. solve_decision. Defined.

(** [{ lat: number; lng: number }].  The numbers are decimal literals or
    sensor readings that the code only stores and prints; they are kept as
    rationals. *)
Record LatLng := { lat : Q; lng : Q }.

(** The session user of [supabase.auth]. *)
Module auth.
Record User := { id : uuid; email : option string }.
End auth.

(** ** Tables ([Database.public.Tables] of lib/supabase) *)

Module profiles.
Record Row := {
  id : uuid;
  email : string;
  name : string;
  user_type : UserType;
  phone : option string;
  created_at : timestamptz
}.

(** [Partial<UserProfile>]: every column may be present or absent; a present
    [phone] may be [null]. *)
Record Update := {
  id' : option uuid;
  email' : option string;
  name' : option string;
  user_type' : option UserType;
  phone' : option (option string);
  created_at' : option timestamptz
}.

(** [UPDATE profiles SET <present columns>]. *)
Definition set (u : Update) (r : Row) : Row :=
  {| id := default (id r) (id' u);
     email := default (email r) (email' u);
     name := default (name r) (name' u);
     user_type := default (user_type r) (user_type' u);
     phone := default (phone r) (phone' u);
     created_at := default (created_at r) (created_at' u) |}.
End profiles.

Module donations.
(** [pickup_coordinates] is the text [(lat,lng)] written by [handleSubmit];
    the model keeps the pair that the text prints. *)
Record Row := {
  id : uuid;
  donor_name : string;
  food_type : string;
  quantity : string;
  pickup_location : string;
  pickup_coordinates : option LatLng;
  status : Status;
  shelter_id : option uuid;
  donor_id : uuid;
  volunteer_id : option uuid;
  created_at : timestamptz;
  accepted_at : option timestamptz;
  completed_at : option timestamptz;
  notes : option string
}.

(** The columns that the client's update payloads mention:
    [{ status, shelter_id }] and [{ status, volunteer_id }].  An absent
    ([undefined]) property is not sent. *)
Record Update := {
  status' : option Status;
  shelter_id' : option uuid;
  volunteer_id' : option uuid
}.

(** [UPDATE donations SET <present columns>]. *)
Definition set (u : Update) (r : Row) : Row :=
  {| id := id r;
     donor_name := donor_name r;
     food_type := food_type r;
     quantity := quantity r;
     pickup_location := pickup_location r;
     pickup_coordinates := pickup_coordinates r;
     status := default (status r) (status' u);
     shelter_id := match shelter_id' u with Some s => Some s | None => shelter_id r end;
     donor_id := donor_id r;
     volunteer_id := match volunteer_id' u with Some v => Some v | None => volunteer_id r end;
     created_at := created_at r;
     accepted_at := accepted_at r;
     completed_at := completed_at r;
     notes := notes r |}.

Definition with_accepted_at (t : timestamptz) (r : Row) : Row :=
  {| id := id r;
     donor_name := donor_name r;
     food_type := food_type r;
     quantity := quantity r;
     pickup_location := pickup_location r;
     pickup_coordinates := pickup_coordinates r;
     status := status r;
     shelter_id := shelter_id r;
     donor_id := donor_id r;
     volunteer_id := volunteer_id r;
     created_at := created_at r;
     accepted_at := Some t;
     completed_at := completed_at r;
     notes := notes r |}.

Definition with_completed_at (t : timestamptz) (r : Row) : Row :=
  {| id := id r;
     donor_name := donor_name r;
     food_type := food_type r;
     quantity := quantity r;
     pickup_location := pickup_location r;
     pickup_coordinates := pickup_coordinates r;
     status := status r;
     shelter_id := shelter_id r;
     donor_id := donor_id r;
     volunteer_id := volunteer_id r;
     created_at := created_at r;
     accepted_at := accepted_at r;
     completed_at := Some t;
     notes := notes r |}.
End donations.

Record Database := {
  profiles_table : gmap uuid profiles.Row;
  donations_table : gmap uuid donations.Row
}.

Definition empty_database : Database :=
  {| profiles_table := ∅; donations_table := ∅ |}.

Definition with_donations (db : Database) (t : gmap uuid donations.Row) : Database :=
  {| profiles_table := profiles_table db; donations_table := t |}.

Definition with_profiles (db : Database) (t : gmap uuid profiles.Row) : Database :=
  {| profiles_table := t; donations_table := donations_table db |}.

(** What a request gets back in [error]. *)
Inductive PostgrestError :=
  | rls_violation      (* new row violates row-level security policy *)
  | unique_violation.  (* duplicate key value violates unique constraint *)

(** ** The trigger [donation_status_timestamps]

    [BEFORE UPDATE ON donations FOR EACH ROW]; [now] is the value of
    [now()], [OLD] the stored row, [NEW] the row about to be written. *)
Definition update_donation_timestamps (now : timestamptz)
    (OLD NEW : donations.Row) : donations.Row :=
  let NEW :=
    if bool_decide (donations.status NEW = accepted)
       && bool_decide (donations.status OLD = pending)
    then donations.with_accepted_at now NEW else NEW in
  let NEW :=
    if bool_decide (donations.status NEW = completed)
       && bool_decide (donations.status OLD = accepted)
    then donations.with_completed_at now NEW else NEW in
  NEW.

(** ** Row-level security policies on [donations]

    [uid] is the value of [uid()], the id of the authenticated caller. *)
Section Policies.
Variable profiles : gmap uuid profiles.Row.
Variable uid : uuid.

(** [uid() IN (SELECT profiles.id FROM profiles WHERE profiles.user_type = t)] *)
Definition uid_in_profiles_of_type (t : UserType) : bool :=
  match profiles !! uid with
  | Some p => bool_decide (profiles.user_type p = t)
  | None => false
  end.

(** "Donors can create donations": [WITH CHECK (uid() = donor_id)] *)
Definition Donors_can_create_donations (r : donations.Row) : bool :=
  bool_decide (uid = donations.donor_id r).

(** "Donors can read own donations": [USING (uid() = donor_id)] *)
Definition Donors_can_read_own_donations (r : donations.Row) : bool :=
  bool_decide (uid = donations.donor_id r).

(** "Shelters can read pending donations":
    [USING (status = 'pending' OR (shelter_id IS NOT NULL AND shelter_id IN
      (SELECT profiles.id FROM profiles
       WHERE profiles.id = uid() AND profiles.user_type = 'shelter')))] *)
Definition Shelters_can_read_pending_donations (r : donations.Row) : bool :=
  bool_decide (donations.status r = pending)
  || match donations.shelter_id r with
     | Some s => bool_decide (s = uid) && uid_in_profiles_of_type shelter
     | None => false
     end.

(** "Volunteers can read accepted donations":
    [USING (status = ANY (ARRAY['accepted','completed']) AND uid() IN
      (SELECT profiles.id FROM profiles WHERE profiles.user_type = 'volunteer'))] *)
Definition Volunteers_can_read_accepted_donations (r : donations.Row) : bool :=
  (bool_decide (donations.status r = accepted)
   || bool_decide (donations.status r = completed))
  && uid_in_profiles_of_type volunteer.

(** "Shelters can update donations to accepted":
    [USING (status = 'pending' AND uid() IN (... user_type = 'shelter'))]
    [WITH CHECK (status = 'accepted' AND shelter_id = uid())] *)
Definition Shelters_can_update_donations_to_accepted_using (r : donations.Row) : bool :=
  bool_decide (donations.status r = pending) && uid_in_profiles_of_type shelter.

Definition Shelters_can_update_donations_to_accepted_check (r : donations.Row) : bool :=
  bool_decide (donations.status r = accepted)
  && bool_decide (donations.shelter_id r = Some uid).

(** "Volunteers can update donations to completed":
    [USING (status = 'accepted' AND uid() IN (... user_type = 'volunteer'))]
    [WITH CHECK (status = 'completed')] *)
Definition Volunteers_can_update_donations_to_completed_using (r : donations.Row) : bool :=
  bool_decide (donations.status r = accepted) && uid_in_profiles_of_type volunteer.

Definition Volunteers_can_update_donations_to_completed_check (r : donations.Row) : bool :=
  bool_decide (donations.status r = completed).

(** All policies are permissive, so the policies of one command are
    combined with OR: a row is visible to [SELECT] when one [SELECT]
    policy accepts it. *)
Definition select_using (r : donations.Row) : bool :=
  Donors_can_read_own_donations r
  || Shelters_can_read_pending_donations r
  || Volunteers_can_read_accepted_donations r.

Definition update_using (r : donations.Row) : bool :=
  Shelters_can_update_donations_to_accepted_using r
  || Volunteers_can_update_donations_to_completed_using r.

Definition update_check (r : donations.Row) : bool :=
  Shelters_can_update_donations_to_accepted_check r
  || Volunteers_can_update_donations_to_completed_check r.

(** What [UPDATE ... WHERE id = ...] does with the one row it finds.  The
    existing row must pass the [UPDATE] policies' [USING] and, because the
    statement reads the column [id], the [SELECT] policies: a row that does
    not pass is not seen and the statement skips it without an error.  The
    new row is built from the payload, handed to the [BEFORE UPDATE]
    trigger and then checked against the [UPDATE] policies' [WITH CHECK]
    and the [SELECT] policies: a new row that fails raises an error. *)
Inductive RowUpdate :=
  | row_skipped
  | row_updated (NEW : donations.Row)
  | row_rejected.

Definition update_row (now : timestamptz) (values : donations.Update)
    (OLD : donations.Row) : RowUpdate :=
  if update_using OLD && select_using OLD then
    let NEW := update_donation_timestamps now OLD (donations.set values OLD) in
    if update_check NEW && select_using NEW
    then row_updated NEW else row_rejected
  else row_skipped.
End Policies.

(** [supabase.from('donations').update(values).eq('id', donationId)], sent
    with the session of [uid]: the new database and the [error] of the
    response.  No row found or no row visible is not an error.  The foreign
    keys of [shelter_id] and [volunteer_id] to [profiles] hold whenever a row
    passes [update_using], which requires the caller to have a profile. *)
Definition update_donations_eq_id (db : Database) (uid : uuid) (now : timestamptz)
    (values : donations.Update) (donationId : uuid)
    : Database * option PostgrestError :=
  match donations_table db !! donationId with
  | None => (db, None)
  | Some OLD =>
      match update_row (profiles_table db) uid now values OLD with
      | row_skipped => (db, None)
      | row_updated NEW =>
          (with_donations db (<[donationId := NEW]> (donations_table db)), None)
      | row_rejected => (db, Some rls_violation)
      end
  end.


(** ** IncomingRequests: [acceptDonation]

    [user] and [profile] come from [useAuth()]; [donation] is the copy of the
    row that the page listed.  The result is the database after the call and
    the text of the [alert], if one is shown. *)
Definition accepted_alert (donation : donations.Row) : string :=
  "Donation accepted! The donor " ++ donations.donor_name donation
  ++ " has been notified that you've accepted their donation of "
  ++ donations.quantity donation ++ " " ++ donations.food_type donation ++ ".".

Definition accept_failed_alert : string :=
  "Failed to accept donation. Please try again.".

(** [{ status: 'accepted', shelter_id: user.id }] *)
Definition accept_values (user : auth.User) : donations.Update :=
  {| donations.status' := Some accepted;
     donations.shelter_id' := Some (auth.id user);
     donations.volunteer_id' := None |}.

Definition acceptDonation (user : option auth.User) (profile : option profiles.Row)
    (db : Database) (now : timestamptz) (donationId : uuid)
    (donation : donations.Row) : Database * option string :=
  match user, profile with
  | Some user, Some _ =>
      let '(db', error) :=
        update_donations_eq_id db (auth.id user) now (accept_values user)
          donationId in
      match error with
      | Some _ => (db', Some accept_failed_alert)
      | None => (db', Some (accepted_alert donation))
      end
  | _, _ => (db, None)
  end.

(** ** MyPickups: [completeDonation]

    Without a session the request is anonymous; every policy is
    [TO authenticated], so no row is visible and none is updated. *)
Definition completed_alert : string :=
  "Donation marked as completed! Thank you for helping reduce food waste.".

Definition complete_failed_alert : string :=
  "Failed to complete donation. Please try again.".

(** [{ status: 'completed', volunteer_id: user?.id }] with a user. *)
Definition complete_values (user : auth.User) : donations.Update :=
  {| donations.status' := Some completed;
     donations.shelter_id' := None;
     donations.volunteer_id' := Some (auth.id user) |}.

Definition completeDonation (user : option auth.User)
    (db : Database) (now : timestamptz) (donationId : uuid)
    : Database * option string :=
  let '(db', error) :=
    match user with
    | Some user =>
        update_donations_eq_id db (auth.id user) now (complete_values user)
          donationId
    | None => (db, None)
    end in
  match error with
  | Some _ => (db', Some complete_failed_alert)
  | None => (db', Some completed_alert)
  end.

(** ** lib/supabase: [geocodeAddress]

    Strings are byte strings; [toLowerCase] is the case mapping of the ASCII
    letters, [includes] the substring test. *)
Definition toLowerCase_char (c : ascii) : ascii :=
  let n := N_of_ascii c in
  if (65 <=? n)%N && (n <=? 90)%N then ascii_of_N (n + 32) else c.

Fixpoint toLowerCase (s : string) : string :=
  match s with
  | EmptyString => EmptyString
  | String c s' => String (toLowerCase_char c) (toLowerCase s')
  end.

Fixpoint includes (s searchString : string) : bool :=
  String.prefix searchString s
  || match s with
     | EmptyString => false
     | String _ s' => includes s' searchString
     end.

(** [Object.entries(mockCoordinates)], in insertion order. *)
Definition mockCoordinates : list (string * LatLng) :=
  [ ("New York",    {| lat := 40.7128; lng := -74.0060 |});
    ("Los Angeles", {| lat := 34.0522; lng := -118.2437 |});
    ("Chicago",     {| lat := 41.8781; lng := -87.6298 |});
    ("Houston",     {| lat := 29.7604; lng := -95.3698 |});
    ("Phoenix",     {| lat := 33.4484; lng := -112.0740 |}) ]%Q.

(** Default coordinates (San Francisco). *)
Definition default_coordinates : LatLng :=
  {| lat := 37.7749; lng := -122.4194 |}%Q.

(** The [for ... of] loop with its early [return], then the default. *)
Fixpoint geocodeAddress_loop (address : string) (entries : list (string * LatLng))
    : option LatLng :=
  match entries with
  | [] => Some default_coordinates
  | (city, coords) :: entries' =>
      if includes (toLowerCase address) (toLowerCase city)
      then Some coords
      else geocodeAddress_loop address entries'
  end.

(** Declared [Promise<{ lat: number; lng: number } | null>]. *)
Definition geocodeAddress (address : string) : option LatLng :=
  geocodeAddress_loop address mockCoordinates.

(** ** DonateSurplus: [handleSubmit] *)
Record FormData := {
  form_donor_name : string;
  form_food_type : string;
  form_quantity : string;
  form_pickup_location : string;
  form_notes : string
}.

(** JavaScript's [s || null] and the truth value of a string. *)
Definition or_null (s : string) : option string :=
  if bool_decide (s = "") then None else Some s.

Definition truthy (s : string) : bool := negb (bool_decide (s = "")).

(** The row that [INSERT INTO donations] builds from [handleSubmit]'s payload;
    the columns that the payload leaves out take their defaults:
    [id DEFAULT gen_random_uuid()], [created_at DEFAULT now()], the others
    [NULL]. *)
Definition inserted_donation (gen_random_uuid : uuid) (now : timestamptz)
    (user : auth.User) (formData : FormData) (finalCoordinates : option LatLng)
    : donations.Row :=
  {| donations.id := gen_random_uuid;
     donations.donor_name := form_donor_name formData;
     donations.food_type := form_food_type formData;
     donations.quantity := form_quantity formData;
     donations.pickup_location := form_pickup_location formData;
     donations.pickup_coordinates := finalCoordinates;
     donations.status := pending;
     donations.shelter_id := None;
     donations.donor_id := auth.id user;
     donations.volunteer_id := None;
     donations.created_at := now;
     donations.accepted_at := None;
     donations.completed_at := None;
     donations.notes := or_null (form_notes formData) |}.

(** [supabase.from('donations').insert(row).select().single()]: the new row
    must pass the [INSERT] policy and, because it is returned, the [SELECT]
    policies; then the primary key must be free.  The [UPDATE] trigger does
    not run.  The response carries either [error] or the row as [data]. *)
Definition insert_donation_select_single (db : Database) (uid : uuid)
    (NEW : donations.Row) : Database * (PostgrestError + donations.Row) :=
  if Donors_can_create_donations uid NEW && select_using (profiles_table db) uid NEW
  then
    match donations_table db !! donations.id NEW with
    | Some _ => (db, inl unique_violation)
    | None =>
        (with_donations db (<[donations.id NEW := NEW]> (donations_table db)),
         inr NEW)
    end
  else (db, inl rls_violation).

(** What the page shows after a submit. *)
Inductive Submitted :=
  | success_modal (submittedDonation : donations.Row)
  | submit_failed_alert.

Definition handleSubmit (user : option auth.User)
    (formData : FormData) (coordinates : option LatLng)
    (db : Database) (gen_random_uuid : uuid) (now : timestamptz)
    : Database * option Submitted :=
  match user with
  | None => (db, None)
  | Some user =>
      let finalCoordinates :=
        match coordinates with
        | Some c => Some c
        | None =>
            if truthy (form_pickup_location formData)
            then geocodeAddress (form_pickup_location formData)
            else None
        end in
      let '(db', response) :=
        insert_donation_select_single db (auth.id user)
          (inserted_donation gen_random_uuid now user formData finalCoordinates) in
      match response with
      | inr data => (db', Some (success_modal data))
      | inl error => (db', Some submit_failed_alert)
      end
  end.

(** A read of one donation by [uid]: [SELECT * FROM donations WHERE id = ...]
    under the [SELECT] policies. *)
Definition select_donation_eq_id (db : Database) (uid : uuid) (donationId : uuid)
    : option donations.Row :=
  match donations_table db !! donationId with
  | Some r => if select_using (profiles_table db) uid r then Some r else None
  | None => None
  end.

(** ** Row-level security policies on [profiles]
    ([20250629072723_steep_meadow.sql]) *)

(** "Users can create own profile": [WITH CHECK (auth.uid() = id)] *)
Definition Users_can_create_own_profile (uid : uuid) (r : profiles.Row) : bool :=
  bool_decide (uid = profiles.id r).

(** "Users can read own profile": [USING (auth.uid() = id)] *)
Definition Users_can_read_own_profile (uid : uuid) (r : profiles.Row) : bool :=
  bool_decide (uid = profiles.id r).

(** "Users can update own profile":
    [USING (auth.uid() = id) WITH CHECK (auth.uid() = id)] *)
Definition Users_can_update_own_profile_using (uid : uuid) (r : profiles.Row) : bool :=
  bool_decide (uid = profiles.id r).

Definition Users_can_update_own_profile_check (uid : uuid) (r : profiles.Row) : bool :=
  bool_decide (uid = profiles.id r).

(** [supabase.from('profiles').update(values).eq('id', id)].  A new row that
    passes the check keeps the id of the caller, so the row stays under its
    key. *)
Definition update_profiles_eq_id (db : Database) (uid : uuid)
    (values : profiles.Update) (id : uuid) : Database * option PostgrestError :=
  match profiles_table db !! id with
  | None => (db, None)
  | Some OLD =>
      if Users_can_update_own_profile_using uid OLD && Users_can_read_own_profile uid OLD
      then
        let NEW := profiles.set values OLD in
        if Users_can_update_own_profile_check uid NEW && Users_can_read_own_profile uid NEW
        then (with_profiles db (<[id := NEW]> (profiles_table db)), None)
        else (db, Some rls_violation)
      else (db, None)
  end.

(** [supabase.from('profiles').insert(row).select().single()] *)
Definition insert_profile_select_single (db : Database) (uid : uuid)
    (NEW : profiles.Row) : Database * (PostgrestError + profiles.Row) :=
  if Users_can_create_own_profile uid NEW && Users_can_read_own_profile uid NEW
  then
    match profiles_table db !! profiles.id NEW with
    | Some _ => (db, inl unique_violation)
    | None =>
        (with_profiles db (<[profiles.id NEW := NEW]> (profiles_table db)),
         inr NEW)
    end
  else (db, inl rls_violation).

(** ** AuthContext *)

(** [fetchProfile(userId)]: the row that
    [select('*').eq('id', userId).maybeSingle()] returns to the session of
    [uid], which becomes the [profile] of the context ([null] when there is
    none).  The retries on a timeout are not modelled. *)
Definition fetchProfile (db : Database) (uid : uuid) (userId : uuid)
    : option profiles.Row :=
  match profiles_table db !! userId with
  | Some p => if Users_can_read_own_profile uid p then Some p else None
  | None => None
  end.

(** What the context functions throw. *)
Inductive Thrown :=
  | No_user_logged_in
  | Failed_to_create_profile (error : PostgrestError)
  | thrown (error : PostgrestError).

(** [createMissingProfile(name, userType, phone?)]; [signUp] inserts the same
    [profileData] for the user it has just created.  The result is the
    [profile] of the context after the call, or what was thrown. *)
Definition createMissingProfile (user : option auth.User) (db : Database)
    (now : timestamptz) (name : string) (userType : UserType)
    (phone : option string) : Database * (Thrown + profiles.Row) :=
  match user with
  | None => (db, inl No_user_logged_in)
  | Some user =>
      let profileData :=
        {| profiles.id := auth.id user;
           profiles.email := default "" (auth.email user);
           profiles.name := name;
           profiles.user_type := userType;
           profiles.phone := from_option or_null None phone;
           profiles.created_at := now |} in
      let '(db', response) :=
        insert_profile_select_single db (auth.id user) profileData in
      match response with
      | inl error => (db', inl (Failed_to_create_profile error))
      | inr data => (db', inr data)
      end
  end.

(** [updateProfile(updates)]: the update, then [fetchProfile(user.id)]. *)
Definition updateProfile (user : option auth.User) (db : Database)
    (updates : profiles.Update) : Database * (Thrown + option profiles.Row) :=
  match user with
  | None => (db, inl No_user_logged_in)
  | Some user =>
      let '(db', error) :=
        update_profiles_eq_id db (auth.id user) updates (auth.id user) in
      match error with
      | Some e => (db', inl (thrown e))
      | None => (db', inr (fetchProfile db' (auth.id user) (auth.id user)))
      end
  end.

(** ** ProtectedRoute *)
Inductive Rendered :=
  | spinner
  | Navigate (to : string)
  | children.

Definition ProtectedRoute (loading : bool) (user : option auth.User)
    (profile : option profiles.Row) (userType : option UserType) : Rendered :=
  if loading then spinner
  else match user with
  | None => Navigate "/auth"
  | Some _ =>
      match userType with
      | Some t =>
          if negb (bool_decide (profiles.user_type <$> profile = Some t))
          then Navigate "/" else children
      | None => children
      end
  end.

(** ** App: the pages behind their routes

    One step of the application is one call made by a signed-in user from
    the page that offers it.  [AppContent] shows [ProfileSetup] to a user
    without a profile and the routes to a user with one; [/donate],
    [/requests] and [/pickups] are wrapped in [ProtectedRoute] for [donor],
    [shelter] and [volunteer].  The [profile] of the context is the user's
    row in [profiles], as [fetchProfile] loads it; no page calls
    [updateProfile], so the row does not change under a session. *)
Inductive Event :=
  | ProfileSetup_submit (user : auth.User) (now : timestamptz)
      (name : string) (userType : UserType) (phone : option string)
  | DonateSurplus_submit (user : auth.User) (formData : FormData)
      (coordinates : option LatLng) (gen_random_uuid : uuid) (now : timestamptz)
  | IncomingRequests_accept (user : auth.User) (now : timestamptz)
      (donationId : uuid) (donation : donations.Row)
  | MyPickups_complete (user : auth.User) (now : timestamptz) (donationId : uuid).

Definition behind_route (db : Database) (user : auth.User) (userType : UserType)
    (page : option profiles.Row → Database) : Database :=
  let profile := fetchProfile db (auth.id user) (auth.id user) in
  match profile with
  | None => db
  | Some _ =>
      match ProtectedRoute false (Some user) profile (Some userType) with
      | children => page profile
      | _ => db
      end
  end.

Definition app_step (db : Database) (e : Event) : Database :=
  match e with
  | ProfileSetup_submit user now name userType phone =>
      match fetchProfile db (auth.id user) (auth.id user) with
      | None => fst (createMissingProfile (Some user) db now name userType phone)
      | Some _ => db
      end
  | DonateSurplus_submit user formData coordinates gen_random_uuid now =>
      behind_route db user donor (λ _,
        fst (handleSubmit (Some user) formData coordinates db gen_random_uuid now))
  | IncomingRequests_accept user now donationId donation =>
      behind_route db user shelter (λ profile,
        fst (acceptDonation (Some user) profile db now donationId donation))
  | MyPickups_complete user now donationId =>
      behind_route db user volunteer (λ _,
        fst (completeDonation (Some user) db now donationId))
  end.

Definition app_run (events : list Event) : Database :=
  foldl app_step empty_database events.

(** ** NotificationSystem *)
Module Notification.
Inductive Type' := success | info | warning | error.

Record t := {
  id : string;
  type : Type';
  title : string;
  message : string;
  timestamp : timestamptz;
  read : bool
}.

Definition mark_read (n : t) : t :=
  {| id := id n; type := type n; title := title n; message := message n;
     timestamp := timestamp n; read := true |}.
End Notification.

(** The payload of a [postgres_changes] event on [donations]: [eventType]
    with the [new] row and, of the [old] row, the status when the event
    carries it ([oldRecord?.status] is [undefined] otherwise). *)
Inductive Payload :=
  | INSERT (new : donations.Row)
  | UPDATE (old_status : option Status) (new : donations.Row)
  | DELETE.

(** The value of the local [notification] of [handleDonationChange] when
    the state is updated; [now] is [new Date()]. *)
Definition rendered_notification (user : option auth.User) (profile : profiles.Row)
    (now : timestamptz) (payload : Payload) : option Notification.t :=
  match payload with
  | INSERT newRecord =>
      if bool_decide (profiles.user_type profile = shelter) then
        Some {| Notification.id := "donation-" ++ donations.id newRecord;
                Notification.type := Notification.info;
                Notification.title := "New Donation Available";
                Notification.message :=
                  donations.donor_name newRecord ++ " has donated "
                  ++ donations.quantity newRecord ++ " of "
                  ++ donations.food_type newRecord;
                Notification.timestamp := now;
                Notification.read := false |}
      else None
  | UPDATE old_status newRecord =>
      if negb (bool_decide (old_status = Some (donations.status newRecord))) then
        if bool_decide (donations.status newRecord = accepted)
           && bool_decide (Some (donations.donor_id newRecord) = auth.id <$> user)
        then
          Some {| Notification.id := "accepted-" ++ donations.id newRecord;
                  Notification.type := Notification.success;
                  Notification.title := "Donation Accepted!";
                  Notification.message :=
                    "Your donation of " ++ donations.quantity newRecord ++ " "
                    ++ donations.food_type newRecord
                    ++ " has been accepted by a shelter.";
                  Notification.timestamp := now;
                  Notification.read := false |}
        else if bool_decide (donations.status newRecord = completed)
                && bool_decide (Some (donations.donor_id newRecord) = auth.id <$> user)
        then
          Some {| Notification.id := "completed-" ++ donations.id newRecord;
                  Notification.type := Notification.success;
                  Notification.title := "Donation Completed!";
                  Notification.message :=
                    "Your donation of " ++ donations.quantity newRecord ++ " "
                    ++ donations.food_type newRecord
                    ++ " has been successfully delivered.";
                  Notification.timestamp := now;
                  Notification.read := false |}
        else if bool_decide (donations.status newRecord = accepted)
                && bool_decide (profiles.user_type profile = volunteer)
        then
          Some {| Notification.id := "pickup-" ++ donations.id newRecord;
                  Notification.type := Notification.info;
                  Notification.title := "New Pickup Available";
                  Notification.message :=
                    "Pickup needed: " ++ donations.quantity newRecord ++ " of "
                    ++ donations.food_type newRecord ++ " from "
                    ++ donations.donor_name newRecord;
                  Notification.timestamp := now;
                  Notification.read := false |}
        else None
      else None
  | DELETE => None
  end.

(** [handleDonationChange(payload)] as a transition of the [notifications]
    state: [prev => [notification, ...prev.slice(0, 9)]]. *)
Definition handleDonationChange (user : option auth.User)
    (profile : option profiles.Row) (now : timestamptz) (payload : Payload)
    (notifications : list Notification.t) : list Notification.t :=
  match profile with
  | None => notifications
  | Some profile =>
      match rendered_notification user profile now payload with
      | Some notification => notification :: take 9 notifications
      | None => notifications
      end
  end.

Definition markAsRead (id : string) (notifications : list Notification.t)
    : list Notification.t :=
  map (λ notif, if bool_decide (Notification.id notif = id)
                then Notification.mark_read notif else notif) notifications.

Definition clearNotification (id : string) (notifications : list Notification.t)
    : list Notification.t :=
  filter (λ notif, Notification.id notif ≠ id) notifications.

(** Everything that sets the [notifications] state of one mounted
    [NotificationSystem]; the state starts as [[]]. *)
Inductive Action :=
  | donation_change (user : option auth.User) (profile : option profiles.Row)
      (now : timestamptz) (payload : Payload)
  | mark_as_read (id : string)
  | clear_notification (id : string)
  | clear_all_notifications.

Definition notifications_step (notifications : list Notification.t) (a : Action)
    : list Notification.t :=
  match a with
  | donation_change user profile now payload =>
      handleDonationChange user profile now payload notifications
  | mark_as_read id => markAsRead id notifications
  | clear_notification id => clearNotification id notifications
  | clear_all_notifications => []
  end.

Definition notifications_run (actions : list Action) : list Notification.t :=
  foldl notifications_step [] actions.

(** ** Vocabulary of the properties *)

(** The caller's role as the pages see it: the [user_type] of the profile
    that [fetchProfile] loads for the signed-in user. *)
Definition has_role (db : Database) (user : auth.User) (t : UserType) : Prop :=
  profiles.user_type <$> fetchProfile db (auth.id user) (auth.id user) = Some t.

(** Several [acceptDonation] calls on one donation, each by a signed-in user
    with the profile of their context, served by the database in the order of
    the list.  The result is the final database and the alert of each call. *)
Fixpoint accept_calls (db : Database) (donationId : uuid) (donation : donations.Row)
    (calls : list (auth.User * timestamptz)) : Database * list (option string) :=
  match calls with
  | [] => (db, [])
  | (user, now) :: calls' =>
      let '(db1, alert) :=
        acceptDonation (Some user) (fetchProfile db (auth.id user) (auth.id user))
          db now donationId donation in
      let '(db2, alerts) := accept_calls db1 donationId donation calls' in
      (db2, alert :: alerts)
  end.

(** One step along [pending → accepted → completed], or no move. *)
Definition forward (s s' : Status) : Prop :=
  s' = s ∨ (s = pending ∧ s' = accepted) ∨ (s = accepted ∧ s' = completed).

(** The timestamps agree with the status. *)
Definition timestamps_agree (r : donations.Row) : Prop :=
  (is_Some (donations.accepted_at r)
     ↔ donations.status r = accepted ∨ donations.status r = completed)
  ∧ (is_Some (donations.completed_at r) ↔ donations.status r = completed).

(** The read rule in the words of the specification, for an actor given by
    identity and role: the donor; or a pending donation and a shelter; or the
    shelter bound to the donation; or a volunteer and an accepted or
    completed donation. *)
Definition specified_read_rule (actor : uuid) (role : option UserType)
    (r : donations.Row) : Prop :=
  actor = donations.donor_id r
  ∨ (donations.status r = pending ∧ role = Some shelter)
  ∨ (role = Some shelter ∧ donations.shelter_id r = Some actor)
  ∨ (role = Some volunteer
     ∧ (donations.status r = accepted ∨ donations.status r = completed)).

(** What one step of the application can do to the row stored under one id:
    keep it, accept it when pending, complete it when accepted, or insert it
    where there was none. *)
Inductive row_step : option donations.Row → donations.Row → Prop :=
  | row_kept r : row_step (Some r) r
  | row_accepted OLD user now :
      donations.status OLD = pending →
      row_step (Some OLD)
        (donations.with_accepted_at now (donations.set (accept_values user) OLD))
  | row_completed OLD user now :
      donations.status OLD = accepted →
      row_step (Some OLD)
        (donations.with_completed_at now (donations.set (complete_values user) OLD))
  | row_inserted gen_random_uuid now user formData finalCoordinates :
      row_step None
        (inserted_donation gen_random_uuid now user formData finalCoordinates).

(** ** A small run of the application, used to exercise the statements *)
Module Example.
Definition Dora : auth.User := {| auth.id := "u-dora"; auth.email := Some "dora@example.org" |}.
Definition Sam : auth.User := {| auth.id := "u-sam"; auth.email := Some "sam@example.org" |}.
Definition Sue : auth.User := {| auth.id := "u-sue"; auth.email := Some "sue@example.org" |}.
Definition Vic : auth.User := {| auth.id := "u-vic"; auth.email := None |}.

Definition form : FormData :=
  {| form_donor_name := "Dora's Diner";
     form_food_type := "Prepared Meals";
     form_quantity := "10 meals";
     form_pickup_location := "789 Pine Road, Chicago, IL 60601";
     form_notes := "" |}.

Definition sign_ups : list Event :=
  [ ProfileSetup_submit Dora 1 "Dora" donor None;
    ProfileSetup_submit Sam 2 "Sam's Shelter" shelter (Some "555-0100");
    ProfileSetup_submit Sue 3 "Sue's Kitchen" shelter (Some "");
    ProfileSetup_submit Vic 4 "Vic" volunteer None ].

(** Dora has posted a donation, which is pending. *)
Definition posted : Database :=
  app_run (sign_ups ++ [DonateSurplus_submit Dora form None "don-1" 10]).

Definition listed : donations.Row :=
  inserted_donation "don-1" 10 Dora form (geocodeAddress (form_pickup_location form)).

(** [updateProfile({ user_type: 'shelter' })] *)
Definition become_shelter : profiles.Update :=
  {| profiles.id' := None;
     profiles.email' := None;
     profiles.name' := None;
     profiles.user_type' := Some shelter;
     profiles.phone' := None;
     profiles.created_at' := None |}.

(** [updateProfile({ name: 'Dora D.', phone: null })] *)
Definition rename : profiles.Update :=
  {| profiles.id' := None;
     profiles.email' := None;
     profiles.name' := Some "Dora D.";
     profiles.user_type' := None;
     profiles.phone' := Some None;
     profiles.created_at' := None |}.

(** Sam has accepted it. *)
Definition taken : Database :=
  app_step posted (IncomingRequests_accept Sam 20 "don-1" listed).

(** Vic has delivered it. *)
Definition all_events : list Event :=
  sign_ups
  ++ [ DonateSurplus_submit Dora form None "don-1" 10;
       IncomingRequests_accept Sam 20 "don-1" listed;
       MyPickups_complete Vic 30 "don-1" ].

Definition claimed : donations.Row :=
  donations.with_accepted_at 20 (donations.set (accept_values Sam) listed).

Definition delivered : donations.Row :=
  donations.with_completed_at 30 (donations.set (complete_values Vic) claimed).

(** Dora's profile as [ProfileSetup] stored it. *)
Definition Dora_profile : profiles.Row :=
  {| profiles.id := "u-dora";
     profiles.email := "dora@example.org";
     profiles.name := "Dora";
     profiles.user_type := donor;
     profiles.phone := None;
     profiles.created_at := 1 |}.

(** Sam's profile, and ten donations announced to Sam's session. *)
Definition Sam_profile : profiles.Row :=
  {| profiles.id := "u-sam";
     profiles.email := "sam@example.org";
     profiles.name := "Sam's Shelter";
     profiles.user_type := shelter;
     profiles.phone := Some "555-0100";
     profiles.created_at := 2 |}.

Definition Vic_profile : profiles.Row :=
  {| profiles.id := "u-vic";
     profiles.email := "";
     profiles.name := "Vic";
     profiles.user_type := volunteer;
     profiles.phone := None;
     profiles.created_at := 4 |}.

Definition ten_announced : list Action :=
  replicate 10 (donation_change (Some Sam) (Some Sam_profile) 100 (INSERT listed)).
End Example.

(** * More of the application *)

(** ** The lists of the pages *)

(** [.order('created_at', { ascending: false })]: [r1] may stand before
    [r2]. *)
Definition newest_first (r1 r2 : donations.Row) : Prop :=
  (donations.created_at r2 ≤ donations.created_at r1)%Z.

#[global] Instance newest_first_dec : RelDecision newest_first.
Proof. intros r1 r2. unfold newest_first. apply _. Defined.

(** [supabase.from('donations').select('*')] with the session of [uid]: the
    stored rows that pass the [SELECT] policies. *)
Definition select_donations (db : Database) (uid : uuid) : list donations.Row :=
  filter (λ r, select_using (profiles_table db) uid r = true)
    ((map_to_list (donations_table db)).*2).

(** IncomingRequests [fetchPendingDonations]:
    [.eq('status', 'pending').order('created_at', { ascending: false })].
    The result is the [donations] state that the page shows.  Among rows
    with equal [created_at] the database fixes no order; the model leaves
    them as the sort does. *)
Definition fetchPendingDonations (db : Database) (user : auth.User)
    : list donations.Row :=
  merge_sort newest_first
    (filter (λ r, donations.status r = pending)
       (select_donations db (auth.id user))).

(** MyPickups [fetchAcceptedDonations]:
    [.in('status', ['accepted', 'completed']).order('created_at', ...)]. *)
Definition fetchAcceptedDonations (db : Database) (user : auth.User)
    : list donations.Row :=
  merge_sort newest_first
    (filter (λ r, donations.status r = accepted ∨ donations.status r = completed)
       (select_donations db (auth.id user))).

(** The two sections of MyPickups: "Ready for Pickup" and "Recently
    Completed" ([completedDonations.slice(0, 6)]). *)
Definition acceptedDonations (donations : list donations.Row) : list donations.Row :=
  filter (λ d, donations.status d = accepted) donations.

Definition recentlyCompleted (donations : list donations.Row) : list donations.Row :=
  take 6 (filter (λ d, donations.status d = completed) donations).

(** Several [completeDonation] calls on one donation, served in the order of
    the list. *)
Fixpoint complete_calls (db : Database) (donationId : uuid)
    (calls : list (auth.User * timestamptz)) : Database * list (option string) :=
  match calls with
  | [] => (db, [])
  | (user, now) :: calls' =>
      let '(db1, alert) := completeDonation (Some user) db now donationId in
      let '(db2, alerts) := complete_calls db1 donationId calls' in
      (db2, alert :: alerts)
  end.

(** ** MyPickups: [getTimeSinceAccepted]

    [acceptedAt] and [now] are the times in milliseconds that [getTime()]
    gives; [Math.floor] of the quotient is the integer quotient rounded
    down. *)
Definition getTimeSinceAccepted (now : Z) (acceptedAt : option Z) : string :=
  match acceptedAt with
  | None => ""
  | Some accepted' =>
      let diffHours := ((now - accepted') `div` (1000 * 60 * 60))%Z in
      if bool_decide (diffHours < 1)%Z then "Just accepted"
      else if bool_decide (diffHours < 24)%Z then pretty diffHours ++ "h ago"
      else pretty (diffHours `div` 24)%Z ++ "d ago"
  end.

(** ** lib/supabase: [classifyFoodType] *)
Definition classifyFoodType (rawFoodInput : string) : string :=
  let input := toLowerCase rawFoodInput in
  if includes input "sandwich" || includes input "burger" || includes input "pizza"
     || includes input "soup" || includes input "meal" || includes input "cooked"
  then "Prepared Meals"
  else if includes input "bread" || includes input "cake" || includes input "pastry"
          || includes input "donut" || includes input "muffin"
  then "Bakery Items"
  else if includes input "milk" || includes input "cheese" || includes input "yogurt"
          || includes input "dairy"
  then "Dairy Products"
  else if includes input "apple" || includes input "banana"
          || includes input "vegetable" || includes input "fruit"
          || includes input "produce"
  then "Fresh Produce"
  else if includes input "can" || includes input "jar" || includes input "bottle"
          || includes input "packaged" || includes input "box"
  then "Packaged Foods"
  else if includes input "juice" || includes input "soda" || includes input "water"
          || includes input "drink" || includes input "beverage"
  then "Beverages"
  else "Other Food Items".

(** [generateNotificationMessage(donation, shelterName)] *)
Definition generateNotificationMessage (donation : donations.Row)
    (shelterName : string) : string :=
  "Hi " ++ donations.donor_name donation ++ ", your donation of "
  ++ donations.quantity donation ++ " " ++ donations.food_type donation
  ++ " has been accepted by " ++ shelterName
  ++ ". A volunteer will contact you soon for pickup!".

(** ** LocationPicker *)

(** [x.toFixed(digits)] for a number of moderate size: the decimal with
    [digits] fraction digits nearest to [x], the larger one of two equally
    near, with the sign of [x]. *)
Definition pad_zeros (width : nat) (s : string) : string :=
  String.concat "" (replicate (width - String.length s) "0") ++ s.

Definition toFixed (digits : nat) (x : Q) : string :=
  let scale := (10 ^ Z.of_nat digits)%Z in
  let n := Qfloor (Qabs x * inject_Z scale + (1 # 2))%Q in
  (if bool_decide (Qnum x < 0)%Z then "-" else "")
  ++ pretty (n `div` scale)%Z
  ++ (if bool_decide (digits = 0%nat) then ""
      else "." ++ pad_zeros digits (pretty (n `mod` scale)%Z)).

Module LocationPicker.
Definition mockSuggestions : list string :=
  [ "123 Main Street, New York, NY 10001";
    "456 Oak Avenue, Los Angeles, CA 90210";
    "789 Pine Road, Chicago, IL 60601";
    "321 Elm Street, Houston, TX 77001";
    "654 Maple Drive, Phoenix, AZ 85001";
    "987 Cedar Lane, Philadelphia, PA 19101";
    "147 Birch Street, San Antonio, TX 78201";
    "258 Walnut Avenue, San Diego, CA 92101";
    "369 Cherry Road, Dallas, TX 75201";
    "741 Spruce Drive, San Jose, CA 95101" ].

(** The state of the component; [isGettingLocation] only drives the
    spinner. *)
Record State := {
  address : string;
  suggestions : list string;
  showSuggestions : bool
}.

(** [useState(initialLocation)], [useState([])], [useState(false)] *)
Definition initial (initialLocation : string) : State :=
  {| address := initialLocation; suggestions := []; showSuggestions := false |}.

Definition handleAddressChange (value : string) (st : State) : State :=
  if bool_decide (2 < String.length value)%nat then
    {| address := value;
       suggestions :=
         take 5 (filter (λ suggestion,
                           includes (toLowerCase suggestion) (toLowerCase value) = true)
                   mockSuggestions);
       showSuggestions := true |}
  else
    {| address := value; suggestions := suggestions st; showSuggestions := false |}.

(** [selectSuggestion(suggestion)]: the new state and the arguments of
    [onLocationSelect], with the mock coordinates. *)
Definition selectSuggestion (suggestion : string) (st : State)
    : State * (string * option LatLng) :=
  ({| address := suggestion; suggestions := suggestions st; showSuggestions := false |},
   (suggestion, Some {| lat := 40.7128; lng := -74.0060 |}%Q)).

(** The success callback of [getCurrentPosition]. *)
Definition mockAddress (latitude longitude : Q) : string :=
  "Current Location (" ++ toFixed 4 latitude ++ ", " ++ toFixed 4 longitude ++ ")".

Definition getCurrentLocation_success (latitude longitude : Q) (st : State)
    : State * (string * option LatLng) :=
  ({| address := mockAddress latitude longitude;
      suggestions := suggestions st;
      showSuggestions := showSuggestions st |},
   (mockAddress latitude longitude,
    Some {| lat := latitude; lng := longitude |})).

(** [onBlur] (after its delay) and [onFocus] of the input. *)
Definition onBlur (st : State) : State :=
  {| address := address st; suggestions := suggestions st; showSuggestions := false |}.

Definition onFocus (st : State) : State :=
  if bool_decide (2 < String.length (address st))%nat
  then {| address := address st; suggestions := suggestions st; showSuggestions := true |}
  else st.
End LocationPicker.

(** ** DonateSurplus: the page and its form *)
Module DonateSurplus.
Definition foodTypeOptions : list string :=
  [ "Prepared Meals"; "Bakery Items"; "Dairy Products"; "Fresh Produce";
    "Packaged Foods"; "Beverages"; "Canned Goods"; "Frozen Items";
    "Other Food Items" ].

(** The state of the page with that of the [LocationPicker] it mounts;
    [loading] and [classifying] only drive spinners. *)
Record State := {
  formData : FormData;
  coordinates : option LatLng;
  showSuccessModal : bool;
  submittedDonation : option donations.Row;
  picker : LocationPicker.State
}.

(** The form as [useState] first makes it and as a successful submit resets
    it: [donor_name: profile?.name || ''] and the other fields empty. *)
Definition blank_form (profile : option profiles.Row) : FormData :=
  {| form_donor_name := from_option profiles.name "" profile;
     form_food_type := "";
     form_quantity := "";
     form_pickup_location := "";
     form_notes := "" |}.

Definition initial (profile : option profiles.Row) : State :=
  {| formData := blank_form profile;
     coordinates := None;
     showSuccessModal := false;
     submittedDonation := None;
     picker := LocationPicker.initial (form_pickup_location (blank_form profile)) |}.

(** The [name] of the inputs that call [handleInputChange]. *)
Inductive Input := donor_name | food_type | quantity | notes.

Definition with_formData (f : FormData) (st : State) : State :=
  {| formData := f; coordinates := coordinates st;
     showSuccessModal := showSuccessModal st;
     submittedDonation := submittedDonation st; picker := picker st |}.

Definition with_picker (p : LocationPicker.State) (st : State) : State :=
  {| formData := formData st; coordinates := coordinates st;
     showSuccessModal := showSuccessModal st;
     submittedDonation := submittedDonation st; picker := p |}.

(** [setFormData(prev => ({ ...prev, [name]: value }))] *)
Definition handleInputChange (name : Input) (value : string) (st : State) : State :=
  let prev := formData st in
  with_formData
    {| form_donor_name := if name is donor_name then value else form_donor_name prev;
       form_food_type := if name is food_type then value else form_food_type prev;
       form_quantity := if name is quantity then value else form_quantity prev;
       form_pickup_location := form_pickup_location prev;
       form_notes := if name is notes then value else form_notes prev |}
    st.

(** [handleLocationSelect(location, coords?)] *)
Definition handleLocationSelect (location : string) (coords : option LatLng)
    (st : State) : State :=
  let prev := formData st in
  {| formData :=
       {| form_donor_name := form_donor_name prev;
          form_food_type := form_food_type prev;
          form_quantity := form_quantity prev;
          form_pickup_location := location;
          form_notes := form_notes prev |};
     coordinates := match coords with Some c => Some c | None => coordinates st end;
     showSuccessModal := showSuccessModal st;
     submittedDonation := submittedDonation st;
     picker := picker st |}.

(** [classifyFood()]: nothing without a food type. *)
Definition classifyFood (st : State) : State :=
  if truthy (form_food_type (formData st)) then
    handleInputChange food_type (classifyFoodType (form_food_type (formData st))) st
  else st.

(** The inputs marked [required]; the browser submits the form only when
    they are filled. *)
Definition required_filled (f : FormData) : bool :=
  truthy (form_donor_name f) && truthy (form_food_type f) && truthy (form_quantity f).

(** The form's [onSubmit]: [handleSubmit] with the state updates that follow
    the insert. *)
Definition onSubmit (user : option auth.User) (profile : option profiles.Row)
    (db : Database) (gen_random_uuid : uuid) (now : timestamptz) (st : State)
    : Database * State :=
  if required_filled (formData st) then
    match handleSubmit user (formData st) (coordinates st) db gen_random_uuid now with
    | (db', Some (success_modal data)) =>
        (db', {| formData := blank_form profile;
                 coordinates := None;
                 showSuccessModal := true;
                 submittedDonation := Some data;
                 picker := picker st |})
    | (db', _) => (db', st)
    end
  else (db, st).

(** What the donor can do on the page. *)
Inductive Action :=
  | input_change (name : Input) (value : string)
  | address_change (value : string)
  | click_suggestion (index : nat)
  | current_location (latitude longitude : Q)
  | blur
  | focus
  | classify
  | submit (gen_random_uuid : uuid) (now : timestamptz)
  | close_modal.

(** One action on the page, on the database as it is at that moment.  A
    suggestion can be clicked while the list is shown. *)
Definition step (user : option auth.User) (profile : option profiles.Row)
    (db : Database) (st : State) (a : Action) : Database * State :=
  match a with
  | input_change name value => (db, handleInputChange name value st)
  | address_change value =>
      (db, with_picker (LocationPicker.handleAddressChange value (picker st)) st)
  | click_suggestion index =>
      if LocationPicker.showSuggestions (picker st) then
        match LocationPicker.suggestions (picker st) !! index with
        | Some suggestion =>
            let '(p, (location, coords)) :=
              LocationPicker.selectSuggestion suggestion (picker st) in
            (db, handleLocationSelect location coords (with_picker p st))
        | None => (db, st)
        end
      else (db, st)
  | current_location latitude longitude =>
      let '(p, (location, coords)) :=
        LocationPicker.getCurrentLocation_success latitude longitude (picker st) in
      (db, handleLocationSelect location coords (with_picker p st))
  | blur => (db, with_picker (LocationPicker.onBlur (picker st)) st)
  | focus => (db, with_picker (LocationPicker.onFocus (picker st)) st)
  | classify => (db, classifyFood st)
  | submit gen_random_uuid now => onSubmit user profile db gen_random_uuid now st
  | close_modal =>
      (db, {| formData := formData st; coordinates := coordinates st;
              showSuccessModal := false;
              submittedDonation := submittedDonation st; picker := picker st |})
  end.

Definition run (user : option auth.User) (profile : option profiles.Row)
    (db : Database) (actions : list Action) : Database * State :=
  foldl (λ '(db, st) a, step user profile db st a) (db, initial profile) actions.
End DonateSurplus.

(** ** NotificationSystem: the bell *)

(** [notifications.filter(n => !n.read).length] *)
Definition unreadCount (notifications : list Notification.t) : nat :=
  List.length (filter (λ n, Notification.read n = false) notifications).

(** The text of the badge on the bell, when there is one:
    [unreadCount > 0 && (unreadCount > 9 ? '9+' : unreadCount)]. *)
Definition badge (notifications : list Notification.t) : option string :=
  if bool_decide (0 < unreadCount notifications)%nat then
    Some (if bool_decide (9 < unreadCount notifications)%nat
          then "9+" else pretty (unreadCount notifications))
  else None.

(** ** Layout: the navigation bar *)
Module Layout.
Record Item := { name : string; href : string; show : bool }.

Definition navigation (profile : option profiles.Row) : list Item :=
  filter (λ item, show item = true)
    [ {| name := "Dashboard"; href := "/"; show := true |};
      {| name := "Donate Food"; href := "/donate";
         show := bool_decide (profiles.user_type <$> profile = Some donor) |};
      {| name := "Incoming Requests"; href := "/requests";
         show := bool_decide (profiles.user_type <$> profile = Some shelter) |};
      {| name := "My Pickups"; href := "/pickups";
         show := bool_decide (profiles.user_type <$> profile = Some volunteer) |} ].
End Layout.

(** ** App: what is on the screen *)
Module App.
Inductive Page := Dashboard_page | DonateSurplus_page | IncomingRequests_page | MyPickups_page.

Inductive Screen :=
  | loading_screen
  | Auth_page
  | ProfileSetup_page
  | page (p : Page)
  | redirect (to : string)
  | no_match.

Definition protected (loading : bool) (user : option auth.User)
    (profile : option profiles.Row) (userType : UserType) (p : Page) : Screen :=
  match ProtectedRoute loading user profile (Some userType) with
  | spinner => loading_screen
  | Navigate to => redirect to
  | children => page p
  end.

(** The [path] of the routes, as written. *)
Definition paths : list string :=
  ["/"; "/donate"; "/requests"; "/pickups"; "/auth"].

Section Router.
(** Whether the [path] of a route matches a location is decided by
    react-router, which is not part of the repository (it ignores case and
    slashes at the end of the location, and decodes it): [matchPath path
    location] stands for its answer. *)
Variable matchPath : string → string → bool.

(** [<Routes>]: react-router ranks the routes that match, those with a
    segment before "/", and equal ones in the order written. *)
Definition Routes (loading : bool) (user : option auth.User)
    (profile : option profiles.Row) (location : string) : Screen :=
  if matchPath "/donate" location
  then protected loading user profile donor DonateSurplus_page
  else if matchPath "/requests" location
  then protected loading user profile shelter IncomingRequests_page
  else if matchPath "/pickups" location
  then protected loading user profile volunteer MyPickups_page
  else if matchPath "/auth" location then redirect "/"
  else if matchPath "/" location then page Dashboard_page
  else no_match.

Definition AppContent (loading : bool) (user : option auth.User)
    (profile : option profiles.Row) (location : string) : Screen :=
  if loading then loading_screen
  else match user, profile with
       | None, _ => Auth_page
       | Some _, None => ProfileSetup_page
       | Some _, Some _ => Routes loading user profile location
       end.
End Router.

(** What the statements below need of the matcher: among the paths of the
    routes, a path matches itself and no other. *)
Definition keeps_apart (matchPath : string → string → bool) : Prop :=
  ∀ path location, path ∈ paths → location ∈ paths →
    matchPath path location = bool_decide (path = location).
End App.

(** ** Dashboard: the statistics *)
Module Dashboard.
Record DashboardStats := {
  totalDonations : nat;
  activeDonations : nat;
  completedDonations : nat;
  userDonations : nat
}.

(** The first part of [fetchDashboardData], with the session of [user]. *)
Definition fetchDashboardData_stats (db : Database) (user : auth.User)
    (profile : option profiles.Row) : DashboardStats :=
  let allDonations := select_donations db (auth.id user) in
  {| totalDonations := List.length allDonations;
     activeDonations :=
       List.length (filter (λ d, donations.status d = pending
                                 ∨ donations.status d = accepted) allDonations);
     completedDonations :=
       List.length (filter (λ d, donations.status d = completed) allDonations);
     userDonations :=
       match profile with
       | Some profile =>
           List.length (filter (λ d, donations.donor_id d = profiles.id profile)
                          allDonations)
       | None => 0%nat
       end |}.

(** [getStatsForUserType()]: the three tiles, as name and value. *)
Definition getStatsForUserType (stats : DashboardStats)
    (profile : option profiles.Row) : list (string * string) :=
  [ (if bool_decide (profiles.user_type <$> profile = Some donor)
     then ("My Donations", pretty (userDonations stats))
     else ("Total Donations", pretty (totalDonations stats)));
    ("Active Donations", pretty (activeDonations stats));
    ("Completed", pretty (completedDonations stats)) ].
End Dashboard.

(** ** More vocabulary *)

(** The role recorded for an id in [profiles]. *)
Definition role_of (db : Database) (id : uuid) : option UserType :=
  profiles.user_type <$> profiles_table db !! id.

(** Rows are stored under their [id]. *)
Definition well_keyed (db : Database) : Prop :=
  (∀ k p, profiles_table db !! k = Some p → profiles.id p = k)
  ∧ (∀ k r, donations_table db !! k = Some r → donations.id r = k).

(** The bindings of a donation agree with its status. *)
Definition bindings_follow_status (r : donations.Row) : Prop :=
  (donations.shelter_id r = None ↔ donations.status r = pending)
  ∧ (is_Some (donations.volunteer_id r) ↔ donations.status r = completed)
  ∧ donations.status r ≠ cancelled.

(** The parties of a donation have profiles of the matching roles. *)
Definition parties_have_roles (db : Database) (r : donations.Row) : Prop :=
  role_of db (donations.donor_id r) = Some donor
  ∧ (∀ s, donations.shelter_id r = Some s → role_of db s = Some shelter)
  ∧ (∀ v, donations.volunteer_id r = Some v → role_of db v = Some volunteer).

(** What one step of the application does to the row stored under [k], with
    the role of the user who took the step. *)
Inductive page_step (db : Database) (k : uuid)
    : option donations.Row → donations.Row → Prop :=
  | page_kept r : page_step db k (Some r) r
  | page_accepted OLD user now :
      donations.status OLD = pending →
      has_role db user shelter →
      page_step db k (Some OLD)
        (donations.with_accepted_at now (donations.set (accept_values user) OLD))
  | page_completed OLD user now :
      donations.status OLD = accepted →
      has_role db user volunteer →
      page_step db k (Some OLD)
        (donations.with_completed_at now (donations.set (complete_values user) OLD))
  | page_inserted now user formData finalCoordinates :
      has_role db user donor →
      page_step db k None
        (inserted_donation k now user formData finalCoordinates).

(** The columns that only the insert writes. *)
Definition same_posting (r r' : donations.Row) : Prop :=
  donations.id r' = donations.id r
  ∧ donations.donor_name r' = donations.donor_name r
  ∧ donations.food_type r' = donations.food_type r
  ∧ donations.quantity r' = donations.quantity r
  ∧ donations.pickup_location r' = donations.pickup_location r
  ∧ donations.pickup_coordinates r' = donations.pickup_coordinates r
  ∧ donations.donor_id r' = donations.donor_id r
  ∧ donations.created_at r' = donations.created_at r
  ∧ donations.notes r' = donations.notes r.

(** An action on the Donate page that is neither a click on a suggestion
    nor a reading of the current location. *)
Definition no_selection (a : DonateSurplus.Action) : Prop :=
  match a with
  | DonateSurplus.click_suggestion _ | DonateSurplus.current_location _ _ => False
  | _ => True
  end.

(** ** More of the example run *)
Module Example2.
Import Example.

(** A second posting of Dora's. *)
Definition form2 : FormData :=
  {| form_donor_name := "Dora's Diner";
     form_food_type := "Bakery Items";
     form_quantity := "3 trays";
     form_pickup_location := "456 Oak Avenue, Los Angeles, CA 90210";
     form_notes := "ring twice" |}.

Definition listed2 : donations.Row :=
  inserted_donation "don-2" 15 Dora form2 (geocodeAddress (form_pickup_location form2)).

Definition Val : auth.User := {| auth.id := "u-val"; auth.email := None |}.

Definition with_Val : Database :=
  app_step taken (ProfileSetup_submit Val 25 "Val" volunteer (Some "555-0199")).

(** A donor on the Donate page who types an address and picks the second
    suggestion, and one who only types. *)
Definition picks : list DonateSurplus.Action :=
  [ DonateSurplus.input_change DonateSurplus.food_type "Bakery Items";
    DonateSurplus.input_change DonateSurplus.quantity "3 trays";
    DonateSurplus.address_change "oak";
    DonateSurplus.click_suggestion 0 ].

Definition types_only : list DonateSurplus.Action :=
  [ DonateSurplus.input_change DonateSurplus.food_type "Bakery Items";
    DonateSurplus.input_change DonateSurplus.quantity "3 trays";
    DonateSurplus.address_change "12 Rue de la Paix, Paris";
    DonateSurplus.blur ].

Definition unread (id : string) : Notification.t :=
  {| Notification.id := id; Notification.type := Notification.info;
     Notification.title := "New Donation Available"; Notification.message := "";
     Notification.timestamp := 0; Notification.read := false |}.

(** Sam, a shelter, posts a donation without the Donate page. *)
Definition posted_by_Sam : Database :=
  fst (handleSubmit (Some Sam) form2 None posted "don-9" 40).

Definition listed9 : donations.Row :=
  inserted_donation "don-9" 40 Sam form2 (geocodeAddress (form_pickup_location form2)).

(** [updateProfile({ id: 'u-sam', user_type: 'shelter' })] *)
Definition become_Sam : profiles.Update :=
  {| profiles.id' := Some "u-sam";
     profiles.email' := None;
     profiles.name' := None;
     profiles.user_type' := Some shelter;
     profiles.phone' := None;
     profiles.created_at' := None |}.

(** A matcher that ignores case. *)
Definition ignoring_case (path location : string) : bool :=
  bool_decide (toLowerCase path = toLowerCase location).
End Example2.

(** * Properties *)

(** ** The example run *)

Example example_run :
  profiles_table Example.posted !! "u-dora" = Some Example.Dora_profile
  ∧ profiles_table Example.posted !! "u-sam" = Some Example.Sam_profile
  ∧ profiles_table Example.posted !! "u-vic" = Some Example.Vic_profile
  ∧ donations_table Example.posted !! "don-1" = Some Example.listed
  ∧ donations_table Example.taken !! "don-1" = Some Example.claimed
  ∧ donations_table (app_run Example.all_events) !! "don-1" = Some Example.delivered.
Proof. repeat split; vm_compute; reflexivity. Qed.

(** ** Reading donations *)

Lemma uid_in_profiles_of_type_spec (ps : gmap uuid profiles.Row) (uid : uuid)
    (t : UserType) :
  uid_in_profiles_of_type ps uid t = true
  ↔ profiles.user_type <$> ps !! uid = Some t.
Proof.
  unfold uid_in_profiles_of_type.
  destruct (ps !! uid) as [p|]; simpl.
  - rewrite bool_decide_eq_true. split; congruence.
  - split; discriminate.
Qed.

(** C5 (as amended).  A caller may read a donation exactly when the caller is
    its donor, or the donation is pending (whatever the caller's role), or
    the caller has a shelter profile and is the shelter bound to the
    donation, or the caller has a volunteer profile and the donation is
    accepted or completed. *)
Theorem select_using_iff (ps : gmap uuid profiles.Row) (uid : uuid)
    (r : donations.Row) :
  let role := profiles.user_type <$> ps !! uid in
  select_using ps uid r = true
  ↔ uid = donations.donor_id r
    ∨ donations.status r = pending
    ∨ (role = Some shelter ∧ donations.shelter_id r = Some uid)
    ∨ (role = Some volunteer
       ∧ (donations.status r = accepted ∨ donations.status r = completed)).
Proof.
  intros role. unfold select_using, Donors_can_read_own_donations,
    Shelters_can_read_pending_donations, Volunteers_can_read_accepted_donations.
  rewrite !orb_true_iff, !andb_true_iff, !orb_true_iff, !bool_decide_eq_true.
  rewrite uid_in_profiles_of_type_spec. fold role.
  destruct (donations.shelter_id r) as [s|].
  - rewrite andb_true_iff, bool_decide_eq_true, uid_in_profiles_of_type_spec.
    fold role. intuition congruence.
  - intuition congruence.
Qed.

(** C5, the rule as specified fails: Vic has a volunteer profile and is not
    the donor, yet the pending donation of Dora is visible to Vic, which the
    specified rule denies. *)
Lemma volunteer_reads_pending_donation :
  profiles.user_type <$> profiles_table Example.posted !! "u-vic" = Some volunteer
  ∧ donations_table Example.posted !! "don-1" = Some Example.listed
  ∧ select_donation_eq_id Example.posted "u-vic" "don-1" = Some Example.listed
  ∧ select_using (profiles_table Example.posted) "u-vic" Example.listed = true
  ∧ ¬ specified_read_rule "u-vic" (Some volunteer) Example.listed.
Proof.
  repeat split; try (vm_compute; reflexivity).
  unfold specified_read_rule. vm_compute.
  intros [H|[[_ H]|[[H _]|[_ [H|H]]]]]; discriminate.
Qed.

(** ** Notifications *)

(** C7.  A change event renders a notification in exactly four cases: an
    insert seen by a shelter; a change of status to accepted seen by the
    donation's donor; a change of status to accepted seen by a volunteer; a
    change of status to completed seen by the donation's donor.  Every other
    combination renders nothing, and a session without a profile keeps its
    list as it is. *)
Theorem rendered_notification_cases (user : option auth.User)
    (profile : profiles.Row) (now : timestamptz) (payload : Payload) :
  (is_Some (rendered_notification user profile now payload)
   ↔ match payload with
     | INSERT _ => profiles.user_type profile = shelter
     | UPDATE old_status newRecord =>
         old_status ≠ Some (donations.status newRecord)
         ∧ ((donations.status newRecord = accepted
             ∧ Some (donations.donor_id newRecord) = auth.id <$> user)
            ∨ (donations.status newRecord = accepted
               ∧ profiles.user_type profile = volunteer)
            ∨ (donations.status newRecord = completed
               ∧ Some (donations.donor_id newRecord) = auth.id <$> user))
     | DELETE => False
     end)
  ∧ ∀ notifications,
      handleDonationChange user None now payload notifications = notifications.
Proof.
  split; [|reflexivity].
  destruct payload as [newRecord|old_status newRecord|]; simpl.
  - case_bool_decide; split; intros H'; try done; by destruct H'.
  - repeat (case_bool_decide; simpl);
      (split; [intros [? ?]; try discriminate; intuition congruence
              | intros ?; try (eexists; reflexivity); intuition congruence]).
  - split; [intros [? ?]; discriminate | done].
Qed.

(** What the sessions of Dora, Vic and Sam render for some events on Dora's
    donation.  An update that leaves the status as it was renders nothing. *)
Example rendered_notification_examples :
  Notification.title
    <$> rendered_notification (Some Example.Dora) Example.Dora_profile 21
          (UPDATE (Some pending) Example.claimed)
    = Some "Donation Accepted!"
  ∧ Notification.title
      <$> rendered_notification (Some Example.Dora) Example.Dora_profile 21
            (UPDATE (Some accepted) Example.claimed)
    = None
  ∧ Notification.title
      <$> rendered_notification (Some Example.Vic) Example.Vic_profile 21
            (UPDATE None Example.claimed)
    = Some "New Pickup Available"
  ∧ Notification.title
      <$> rendered_notification (Some Example.Dora) Example.Dora_profile 31
            (UPDATE (Some accepted) Example.delivered)
    = Some "Donation Completed!"
  ∧ Notification.title
      <$> rendered_notification (Some Example.Sam) Example.Sam_profile 11
            (INSERT Example.listed)
    = Some "New Donation Available"
  ∧ Notification.title
      <$> rendered_notification (Some Example.Dora) Example.Dora_profile 11
            (INSERT Example.listed)
    = None.
Proof. repeat split. Qed.

Lemma notifications_step_length (notifications : list Notification.t) (a : Action) :
  (List.length notifications ≤ 10)%nat →
  (List.length (notifications_step notifications a) ≤ 10)%nat.
Proof.
  intros Hlen. destruct a as [user profile now payload|id|id|]; simpl.
  - unfold handleDonationChange. destruct profile as [profile|]; [|done].
    destruct (rendered_notification user profile now payload); [|done].
    simpl. rewrite length_take. lia.
  - unfold markAsRead. by rewrite length_map.
  - unfold clearNotification.
    etrans; [apply length_filter|done].
  - lia.
Qed.

Lemma notifications_foldl_length (actions : list Action) :
  ∀ notifications, (List.length notifications ≤ 10)%nat →
    (List.length (foldl notifications_step notifications actions) ≤ 10)%nat.
Proof.
  induction actions as [|a actions IH]; intros notifications Hlen; simpl.
  - done.
  - apply IH. by apply notifications_step_length.
Qed.

Lemma take_9_of_10 {A} (l : list A) :
  List.length l = 10 → take 9 l = removelast l.
Proof. intros Hlen. rewrite removelast_firstn_len, Hlen. reflexivity. Qed.

(** C8.  The list of notifications never holds more than 10 entries.  A new
    notification is put in front of the first 9 entries of the list; when the
    list already holds 10, the last (oldest) entry is the one dropped and the
    list holds 10 again. *)
Theorem notifications_capped (actions : list Action) :
  let notifications := notifications_run actions in
  (List.length notifications ≤ 10)%nat
  ∧ ∀ user profile now payload notification,
      rendered_notification user profile now payload = Some notification →
      let notifications' :=
        handleDonationChange user (Some profile) now payload notifications in
      notifications' = notification :: take 9 notifications
      ∧ (List.length notifications' ≤ 10)%nat
      ∧ (List.length notifications = 10 →
         notifications' = notification :: removelast notifications
         ∧ List.length notifications' = 10).
Proof.
  intros notifications.
  assert (Hlen : (List.length notifications ≤ 10)%nat).
  { apply notifications_foldl_length. simpl. lia. }
  split; [done|].
  intros user profile now payload notification Hn notifications'.
  subst notifications'. unfold handleDonationChange. rewrite Hn.
  split; [done|]. split.
  - simpl. rewrite length_take. lia.
  - intros H10. rewrite take_9_of_10 by done. split; [done|].
    rewrite <- take_9_of_10 by done. simpl. rewrite length_take. lia.
Qed.

(** ** Geocoding *)

Lemma handleSubmit_success (user : auth.User) (formData : FormData)
    (coordinates : option LatLng) (db db' : Database) (gen_random_uuid : uuid)
    (now : timestamptz) (data : donations.Row) :
  handleSubmit (Some user) formData coordinates db gen_random_uuid now
    = (db', Some (success_modal data)) →
  ∃ finalCoordinates,
    finalCoordinates
      = match coordinates with
        | Some c => Some c
        | None =>
            if truthy (form_pickup_location formData)
            then geocodeAddress (form_pickup_location formData) else None
        end
    ∧ data = inserted_donation gen_random_uuid now user formData finalCoordinates
    ∧ donations_table db !! gen_random_uuid = None
    ∧ db' = with_donations db (<[gen_random_uuid := data]> (donations_table db)).
Proof.
  unfold handleSubmit, insert_donation_select_single.
  set (finalCoordinates := match coordinates with Some c => Some c | None => _ end).
  intros H. exists finalCoordinates. split; [done|].
  destruct (_ && _); [|by inversion H].
  simpl in H.
  destruct (donations_table db !! gen_random_uuid) eqn:Hfree; inversion H; subst.
  done.
Qed.

(** C10.  [geocodeAddress] returns coordinates for every address, never
    [null]: the coordinates of the first of the five cities, in the order of
    the table, whose name occurs in the address when case is ignored, and
    those of San Francisco when none does.  Hence every donation that
    [handleSubmit] stores with a non-empty pickup location has pickup
    coordinates. *)
Theorem geocodeAddress_never_null :
  (∀ address,
     let mentions city := includes (toLowerCase address) city in
     geocodeAddress address
       = Some (if mentions "new york" then {| lat := 40.7128; lng := -74.0060 |}
               else if mentions "los angeles" then {| lat := 34.0522; lng := -118.2437 |}
               else if mentions "chicago" then {| lat := 41.8781; lng := -87.6298 |}
               else if mentions "houston" then {| lat := 29.7604; lng := -95.3698 |}
               else if mentions "phoenix" then {| lat := 33.4484; lng := -112.0740 |}
               else {| lat := 37.7749; lng := -122.4194 |})%Q
     ∧ is_Some (geocodeAddress address))
  ∧ (∀ user formData coordinates db gen_random_uuid now db' data,
       handleSubmit (Some user) formData coordinates db gen_random_uuid now
         = (db', Some (success_modal data)) →
       form_pickup_location formData ≠ "" →
       donations_table db' !! donations.id data = Some data
       ∧ is_Some (donations.pickup_coordinates data)).
Proof.
  assert (Hgeo : ∀ address,
     let mentions city := includes (toLowerCase address) city in
     geocodeAddress address
       = Some (if mentions "new york" then {| lat := 40.7128; lng := -74.0060 |}
               else if mentions "los angeles" then {| lat := 34.0522; lng := -118.2437 |}
               else if mentions "chicago" then {| lat := 41.8781; lng := -87.6298 |}
               else if mentions "houston" then {| lat := 29.7604; lng := -95.3698 |}
               else if mentions "phoenix" then {| lat := 33.4484; lng := -112.0740 |}
               else {| lat := 37.7749; lng := -122.4194 |})%Q).
  { intros address mentions. unfold geocodeAddress, mockCoordinates.
    cbn [geocodeAddress_loop].
    change (toLowerCase "New York") with "new york".
    change (toLowerCase "Los Angeles") with "los angeles".
    change (toLowerCase "Chicago") with "chicago".
    change (toLowerCase "Houston") with "houston".
    change (toLowerCase "Phoenix") with "phoenix".
    fold (mentions "new york") (mentions "los angeles") (mentions "chicago")
      (mentions "houston") (mentions "phoenix").
    destruct (mentions "new york"); [done|].
    destruct (mentions "los angeles"); [done|].
    destruct (mentions "chicago"); [done|].
    destruct (mentions "houston"); [done|].
    destruct (mentions "phoenix"); done. }
  split.
  - intros address mentions. split; [apply Hgeo|].
    rewrite Hgeo. by eexists.
  - intros user formData coordinates db gen_random_uuid now db' data Hsubmit Hloc.
    apply handleSubmit_success in Hsubmit
      as (finalCoordinates & Hfinal & Hdata & Hfree & Hdb').
    split.
    + subst db'. simpl. replace (donations.id data) with gen_random_uuid.
      * apply lookup_insert_eq.
      * by subst data.
    + subst data. simpl. rewrite Hfinal.
      destruct coordinates as [c|]; [by eexists|].
      unfold truthy. rewrite bool_decide_eq_false_2 by done. simpl.
      rewrite Hgeo. by eexists.
Qed.

(** ** The lifecycle: accepting and completing *)

Lemma has_role_lookup (db : Database) (user : auth.User) (t : UserType) :
  has_role db user t →
  ∃ p, profiles_table db !! auth.id user = Some p
       ∧ profiles.user_type p = t
       ∧ fetchProfile db (auth.id user) (auth.id user) = Some p.
Proof.
  unfold has_role, fetchProfile.
  destruct (profiles_table db !! auth.id user) as [p|]; [|discriminate].
  destruct (Users_can_read_own_profile (auth.id user) p); [|discriminate].
  simpl. intros [= <-]. by exists p.
Qed.

Lemma has_role_in_profiles (db : Database) (user : auth.User) (t t' : UserType) :
  has_role db user t →
  uid_in_profiles_of_type (profiles_table db) (auth.id user) t'
    = bool_decide (t = t').
Proof.
  intros (p & Hp & <- & _)%has_role_lookup.
  unfold uid_in_profiles_of_type. by rewrite Hp.
Qed.

(** What the row-level update does for a caller with a shelter profile who
    sends the payload of [acceptDonation]. *)
Lemma update_row_accept_by_shelter (db : Database) (user : auth.User)
    (now : timestamptz) (OLD : donations.Row) :
  has_role db user shelter →
  update_row (profiles_table db) (auth.id user) now (accept_values user) OLD
    = if bool_decide (donations.status OLD = pending)
      then row_updated
             (donations.with_accepted_at now (donations.set (accept_values user) OLD))
      else row_skipped.
Proof.
  intros Hrole.
  unfold update_row, update_using, update_check, select_using,
    Shelters_can_update_donations_to_accepted_using,
    Shelters_can_update_donations_to_accepted_check,
    Volunteers_can_update_donations_to_completed_using,
    Volunteers_can_update_donations_to_completed_check,
    Donors_can_read_own_donations, Shelters_can_read_pending_donations,
    Volunteers_can_read_accepted_donations, update_donation_timestamps.
  rewrite !(has_role_in_profiles _ _ _ _ Hrole).
  destruct OLD as [? ? ? ? ? ? st ? ? ? ? ? ? ?]; simpl.
  destruct st; simpl; rewrite ?andb_false_r, ?orb_false_r; try done.
  rewrite (bool_decide_eq_true_2 (Some (auth.id user) = Some (auth.id user))) by done.
  rewrite (bool_decide_eq_true_2 (auth.id user = auth.id user)) by done.
  by rewrite !orb_true_r.
Qed.

(** The same for a caller with a volunteer profile who sends the payload of
    [completeDonation]. *)
Lemma update_row_complete_by_volunteer (db : Database) (user : auth.User)
    (now : timestamptz) (OLD : donations.Row) :
  has_role db user volunteer →
  update_row (profiles_table db) (auth.id user) now (complete_values user) OLD
    = if bool_decide (donations.status OLD = accepted)
      then row_updated
             (donations.with_completed_at now (donations.set (complete_values user) OLD))
      else row_skipped.
Proof.
  intros Hrole.
  unfold update_row, update_using, update_check, select_using,
    Shelters_can_update_donations_to_accepted_using,
    Shelters_can_update_donations_to_accepted_check,
    Volunteers_can_update_donations_to_completed_using,
    Volunteers_can_update_donations_to_completed_check,
    Donors_can_read_own_donations, Shelters_can_read_pending_donations,
    Volunteers_can_read_accepted_donations, update_donation_timestamps.
  rewrite !(has_role_in_profiles _ _ _ _ Hrole).
  destruct OLD as [? ? ? ? ? ? st ? ? ? ? ? ? ?]; simpl.
  destruct st; simpl; rewrite ?andb_false_r, ?orb_false_r; try done.
  by rewrite !orb_true_r.
Qed.

Lemma acceptDonation_by_shelter (db : Database) (user : auth.User)
    (now : timestamptz) (donationId : uuid) (donation : donations.Row) :
  has_role db user shelter →
  acceptDonation (Some user) (fetchProfile db (auth.id user) (auth.id user))
    db now donationId donation
  = (match donations_table db !! donationId with
     | Some OLD =>
         if bool_decide (donations.status OLD = pending)
         then with_donations db
                (<[donationId :=
                     donations.with_accepted_at now
                       (donations.set (accept_values user) OLD)]>
                   (donations_table db))
         else db
     | None => db
     end,
     Some (accepted_alert donation)).
Proof.
  intros Hrole.
  destruct (has_role_lookup _ _ _ Hrole) as (p & _ & _ & ->).
  unfold acceptDonation, update_donations_eq_id.
  destruct (donations_table db !! donationId) as [OLD|]; [|done].
  rewrite update_row_accept_by_shelter by done.
  by case_bool_decide.
Qed.

Lemma completeDonation_by_volunteer (db : Database) (user : auth.User)
    (now : timestamptz) (donationId : uuid) :
  has_role db user volunteer →
  completeDonation (Some user) db now donationId
  = (match donations_table db !! donationId with
     | Some OLD =>
         if bool_decide (donations.status OLD = accepted)
         then with_donations db
                (<[donationId :=
                     donations.with_completed_at now
                       (donations.set (complete_values user) OLD)]>
                   (donations_table db))
         else db
     | None => db
     end,
     Some completed_alert).
Proof.
  intros Hrole.
  unfold completeDonation, update_donations_eq_id.
  destruct (donations_table db !! donationId) as [OLD|]; [|done].
  rewrite update_row_complete_by_volunteer by done.
  by case_bool_decide.
Qed.

(** Without the routes: whoever sends one of the two payloads, a row that the
    update writes was pending or accepted before and has the status of the
    payload after, so no caller moves a status back.  The policies alone do
    not keep a pending donation from being completed in one step: a shelter
    passes the [USING] of the shelters' policy and the new row the [WITH
    CHECK] of the volunteers'.  Through the pages the volunteers' route
    does. *)
Lemma update_row_never_back (ps : gmap uuid profiles.Row) (uid : uuid)
    (now : timestamptz) (user : auth.User) (OLD NEW : donations.Row) :
  (update_row ps uid now (accept_values user) OLD = row_updated NEW →
   (donations.status OLD = pending ∨ donations.status OLD = accepted)
   ∧ donations.status NEW = accepted)
  ∧ (update_row ps uid now (complete_values user) OLD = row_updated NEW →
     (donations.status OLD = pending ∨ donations.status OLD = accepted)
     ∧ donations.status NEW = completed).
Proof.
  unfold update_row, update_using,
    Shelters_can_update_donations_to_accepted_using,
    Volunteers_can_update_donations_to_completed_using,
    update_donation_timestamps.
  destruct OLD as [? ? ? ? ? ? st ? ? ? ? ? ? ?]; simpl.
  split; destruct st; simpl;
    repeat match goal with
           | |- context [if ?b then _ else _] => destruct b; simpl
           end;
    intros [= <-]; simpl; auto.
Qed.

Lemma accept_calls_decided (db : Database) (donationId : uuid)
    (donation : donations.Row) (calls : list (auth.User * timestamptz)) :
  (∀ OLD, donations_table db !! donationId = Some OLD →
          donations.status OLD ≠ pending) →
  Forall (λ call, has_role db call.1 shelter) calls →
  accept_calls db donationId donation calls
    = (db, (λ _, Some (accepted_alert donation)) <$> calls).
Proof.
  intros Hdecided Hcalls.
  induction Hcalls as [|[user now] calls Hrole _ IH]; [done|].
  cbn [accept_calls]. simpl in Hrole.
  rewrite acceptDonation_by_shelter by done.
  destruct (donations_table db !! donationId) as [OLD|] eqn:Hrow.
  - rewrite bool_decide_eq_false_2 by auto. by rewrite IH.
  - by rewrite IH.
Qed.

(** C1 (as amended).  Of any number of shelters that call Accept on a
    pending donation, the one served first wins: its call leaves the donation
    accepted, bound to that shelter and stamped.  Every later call leaves the
    database exactly as the winner left it; the database reports no error to
    it, so its page shows the same alert as the winner's, not a failure. *)
Theorem accept_single_winner (db : Database) (donationId : uuid)
    (donation OLD : donations.Row) (user : auth.User) (now : timestamptz)
    (others : list (auth.User * timestamptz)) :
  donations_table db !! donationId = Some OLD →
  donations.status OLD = pending →
  has_role db user shelter →
  Forall (λ call, has_role db call.1 shelter) others →
  let NEW := donations.with_accepted_at now (donations.set (accept_values user) OLD) in
  let db1 := with_donations db (<[donationId := NEW]> (donations_table db)) in
  acceptDonation (Some user) (fetchProfile db (auth.id user) (auth.id user))
    db now donationId donation
    = (db1, Some (accepted_alert donation))
  ∧ donations_table db1 !! donationId = Some NEW
  ∧ donations.status NEW = accepted
  ∧ donations.shelter_id NEW = Some (auth.id user)
  ∧ donations.accepted_at NEW = Some now
  ∧ accept_calls db1 donationId donation others
    = (db1, (λ _, Some (accepted_alert donation)) <$> others)
  ∧ accept_calls db donationId donation ((user, now) :: others)
    = (db1, (λ _, Some (accepted_alert donation)) <$> ((user, now) :: others)).
Proof.
  intros Hrow Hpending Hrole Hothers NEW db1.
  assert (Hfirst : acceptDonation (Some user)
            (fetchProfile db (auth.id user) (auth.id user)) db now donationId donation
          = (db1, Some (accepted_alert donation))).
  { rewrite acceptDonation_by_shelter by done.
    rewrite Hrow. by rewrite bool_decide_eq_true_2. }
  assert (Hnew : donations_table db1 !! donationId = Some NEW).
  { apply lookup_insert_eq. }
  assert (Hrest : accept_calls db1 donationId donation others
          = (db1, (λ _, Some (accepted_alert donation)) <$> others)).
  { apply accept_calls_decided; [|done].
    intros OLD'. rewrite Hnew. by intros [= <-]. }
  repeat split; try done.
  cbn [accept_calls]. by rewrite Hfirst, Hrest.
Qed.

(** C1, the claim as stated fails: Sam has accepted Dora's donation; the
    Accept that Sue, another shelter, makes afterwards changes nothing and is
    answered with the alert of a successful Accept, not with a failure. *)
Lemma second_accept_is_not_refused :
  has_role Example.posted Example.Sam shelter
  ∧ has_role Example.taken Example.Sue shelter
  ∧ donations.status <$> donations_table Example.posted !! "don-1" = Some pending
  ∧ acceptDonation (Some Example.Sam) (fetchProfile Example.posted "u-sam" "u-sam")
      Example.posted 20 "don-1" Example.listed
    = (Example.taken, Some (accepted_alert Example.listed))
  ∧ donations.shelter_id <$> donations_table Example.taken !! "don-1"
    = Some (Some "u-sam")
  ∧ acceptDonation (Some Example.Sue) (fetchProfile Example.taken "u-sue" "u-sue")
      Example.taken 30 "don-1" Example.listed
    = (Example.taken, Some (accepted_alert Example.listed))
  ∧ accepted_alert Example.listed ≠ accept_failed_alert.
Proof.
  repeat split; try (vm_compute; reflexivity).
  vm_compute. discriminate.
Qed.

(** C2 (as amended).  When a volunteer calls Complete on a pending donation,
    the update finds no row that the volunteer may update: the database is
    left as it was and reports no error, so the page shows the alert of a
    successful Complete. *)
Theorem complete_pending_changes_nothing (db : Database) (donationId : uuid)
    (OLD : donations.Row) (user : auth.User) (now : timestamptz) :
  donations_table db !! donationId = Some OLD →
  donations.status OLD = pending →
  has_role db user volunteer →
  completeDonation (Some user) db now donationId = (db, Some completed_alert)
  ∧ app_step db (MyPickups_complete user now donationId) = db.
Proof.
  intros Hrow Hpending Hrole.
  assert (Hcall : completeDonation (Some user) db now donationId
                  = (db, Some completed_alert)).
  { rewrite completeDonation_by_volunteer by done.
    rewrite Hrow, Hpending. done. }
  split; [done|].
  destruct (has_role_lookup _ _ _ Hrole) as (p & _ & Hp & Hfetch).
  simpl. unfold behind_route. rewrite Hfetch. simpl.
  rewrite Hp. simpl. by rewrite Hcall.
Qed.

(** C2, the claim as stated fails: Vic, a volunteer, calls Complete on Dora's
    donation while it is pending; nothing changes and the call is answered
    with the alert of a successful Complete, not with a failure. *)
Lemma complete_pending_is_not_refused :
  has_role Example.posted Example.Vic volunteer
  ∧ donations.status <$> donations_table Example.posted !! "don-1" = Some pending
  ∧ completeDonation (Some Example.Vic) Example.posted 30 "don-1"
    = (Example.posted, Some completed_alert)
  ∧ completed_alert ≠ complete_failed_alert.
Proof.
  repeat split; try (vm_compute; reflexivity).
  vm_compute. discriminate.
Qed.

(** ** The steps of the application, row by row *)

Lemma behind_route_cases (db : Database) (user : auth.User) (t : UserType)
    (page : option profiles.Row → Database) :
  (has_role db user t
   ∧ behind_route db user t page = page (fetchProfile db (auth.id user) (auth.id user)))
  ∨ behind_route db user t page = db.
Proof.
  unfold behind_route, has_role, ProtectedRoute.
  destruct (fetchProfile db (auth.id user) (auth.id user)) as [p|]; [|by right].
  simpl. case_bool_decide as Hp; simpl; [|by right].
  left. by split.
Qed.

Lemma createMissingProfile_donations (user : option auth.User) (db : Database)
    (now : timestamptz) (name : string) (userType : UserType)
    (phone : option string) :
  donations_table (fst (createMissingProfile user db now name userType phone))
    = donations_table db.
Proof.
  unfold createMissingProfile, insert_profile_select_single.
  destruct user as [user|]; [|done].
  destruct (_ && _); [|done].
  simpl. by destruct (profiles_table db !! auth.id user).
Qed.

Lemma handleSubmit_donations (user : auth.User) (formData : FormData)
    (coordinates : option LatLng) (db : Database) (gen_random_uuid : uuid)
    (now : timestamptz) :
  let db' := fst (handleSubmit (Some user) formData coordinates db gen_random_uuid now) in
  db' = db
  ∨ ∃ finalCoordinates,
      donations_table db !! gen_random_uuid = None
      ∧ db' = with_donations db
                (<[gen_random_uuid :=
                     inserted_donation gen_random_uuid now user formData finalCoordinates]>
                   (donations_table db)).
Proof.
  unfold handleSubmit, insert_donation_select_single.
  set (finalCoordinates := match coordinates with Some c => Some c | None => _ end).
  destruct (_ && _); [|by left].
  simpl. destruct (donations_table db !! gen_random_uuid) eqn:Hfree; [by left|].
  right. by exists finalCoordinates.
Qed.

Lemma app_step_rows (db : Database) (e : Event) (donationId : uuid) :
  match donations_table db !! donationId with
  | Some r =>
      ∃ r', donations_table (app_step db e) !! donationId = Some r'
            ∧ row_step (Some r) r'
  | None =>
      ∀ r', donations_table (app_step db e) !! donationId = Some r' →
            row_step None r'
  end.
Proof.
  assert (Hkept : ∀ db', donations_table db' = donations_table db →
    match donations_table db !! donationId with
    | Some r => ∃ r', donations_table db' !! donationId = Some r' ∧ row_step (Some r) r'
    | None => ∀ r', donations_table db' !! donationId = Some r' → row_step None r'
    end).
  { intros db' ->. destruct (donations_table db !! donationId) as [r|] eqn:Hrow.
    - exists r. split; [done|constructor].
    - intros r'. discriminate. }
  destruct e as [user now name userType phone
                |user formData coordinates gen_random_uuid now
                |user now d donation
                |user now d]; cbn [app_step].
  - destruct (fetchProfile db (auth.id user) (auth.id user)); [by apply Hkept|].
    apply Hkept, createMissingProfile_donations.
  - destruct (behind_route_cases db user donor (λ _,
      fst (handleSubmit (Some user) formData coordinates db gen_random_uuid now)))
      as [[_ ->]| ->]; [|by apply Hkept].
    destruct (handleSubmit_donations user formData coordinates db gen_random_uuid now)
      as [->|(finalCoordinates & Hfree & ->)]; [by apply Hkept|].
    simpl. destruct (decide (gen_random_uuid = donationId)) as [->|Hne].
    + rewrite Hfree. intros r'. rewrite lookup_insert_eq. intros [= <-]. constructor.
    + rewrite lookup_insert_ne by done.
      destruct (donations_table db !! donationId) as [r|] eqn:Hrow.
      * exists r. split; [done|constructor].
      * intros r'. discriminate.
  - destruct (behind_route_cases db user shelter (λ profile,
      fst (acceptDonation (Some user) profile db now d donation)))
      as [[Hrole ->]| ->]; [|by apply Hkept].
    rewrite acceptDonation_by_shelter by done. cbn [fst].
    destruct (donations_table db !! d) as [OLD|] eqn:Hold; [|by apply Hkept].
    case_bool_decide as Hpending; [|by apply Hkept].
    simpl. destruct (decide (d = donationId)) as [->|Hne].
    + rewrite Hold, lookup_insert_eq. eexists. split; [done|by constructor].
    + rewrite lookup_insert_ne by done.
      destruct (donations_table db !! donationId) as [r|] eqn:Hrow.
      * exists r. split; [done|constructor].
      * intros r'. discriminate.
  - destruct (behind_route_cases db user volunteer (λ _,
      fst (completeDonation (Some user) db now d)))
      as [[Hrole ->]| ->]; [|by apply Hkept].
    rewrite completeDonation_by_volunteer by done. cbn [fst].
    destruct (donations_table db !! d) as [OLD|] eqn:Hold; [|by apply Hkept].
    case_bool_decide as Haccepted; [|by apply Hkept].
    simpl. destruct (decide (d = donationId)) as [->|Hne].
    + rewrite Hold, lookup_insert_eq. eexists. split; [done|by constructor].
    + rewrite lookup_insert_ne by done.
      destruct (donations_table db !! donationId) as [r|] eqn:Hrow.
      * exists r. split; [done|constructor].
      * intros r'. discriminate.
Qed.

(** X30.  Whatever step the application takes through its pages (a profile
    set up, a donation posted, an Accept from the shelters' page, a Complete
    from the volunteers' page, each behind its route), every stored donation
    is still stored afterwards and
    its status has not moved or has moved one step forward, from pending to
    accepted or from accepted to completed: never backwards, never from
    pending straight to completed. *)
Theorem status_moves_forward (db : Database) (e : Event) (donationId : uuid)
    (r : donations.Row) :
  donations_table db !! donationId = Some r →
  ∃ r', donations_table (app_step db e) !! donationId = Some r'
        ∧ forward (donations.status r) (donations.status r')
        ∧ ¬ (donations.status r = pending ∧ donations.status r' = completed)
        ∧ (donations.status r = accepted → donations.status r' ≠ pending)
        ∧ (donations.status r = completed → donations.status r' = completed).
Proof.
  intros Hrow. pose proof (app_step_rows db e donationId) as Hstep.
  rewrite Hrow in Hstep. destruct Hstep as (r' & Hr' & Hstep).
  exists r'. split; [done|].
  assert (Hforward : forward (donations.status r) (donations.status r')).
  { inversion Hstep; subst; unfold forward; simpl; auto. }
  split; [done|].
  unfold forward in Hforward.
  repeat split; intros; intuition congruence.
Qed.

(** C3, the code fails the claim.  Sam has a shelter profile and is the
    donor of the pending donation "don-9".  The update of [completeDonation],
    sent with Sam's session, passes the policies: the stored row satisfies
    the [USING] of "Shelters can update donations to accepted", the new row
    the [WITH CHECK] of "Volunteers can update donations to completed", and
    Sam may read both rows as their donor.  The status goes from pending
    straight to completed, which is no step along pending → accepted →
    completed. *)
Lemma pending_to_completed_in_one_step :
  let db := Example2.posted_by_Sam in
  let OLD := Example2.listed9 in
  let NEW := donations.set (complete_values Example.Sam) OLD in
  has_role db Example.Sam shelter
  ∧ donations_table db !! "don-9" = Some OLD
  ∧ donations.donor_id OLD = "u-sam"
  ∧ donations.status OLD = pending
  ∧ Shelters_can_update_donations_to_accepted_using (profiles_table db) "u-sam" OLD
    = true
  ∧ Volunteers_can_update_donations_to_completed_check NEW = true
  ∧ update_row (profiles_table db) "u-sam" 50 (complete_values Example.Sam) OLD
    = row_updated NEW
  ∧ completeDonation (Some Example.Sam) db 50 "don-9"
    = (with_donations db (<["don-9" := NEW]> (donations_table db)),
       Some completed_alert)
  ∧ donations.status NEW = completed
  ∧ ¬ forward (donations.status OLD) (donations.status NEW).
Proof.
  repeat split; try (vm_compute; reflexivity).
  intros [H|[[_ H]|[H _]]]; vm_compute in H; discriminate.
Qed.

Lemma row_step_timestamps (o : option donations.Row) (r' : donations.Row) :
  row_step o r' →
  (∀ r, o = Some r → timestamps_agree r) →
  timestamps_agree r'.
Proof.
  intros Hstep Hagree.
  inversion Hstep as [r|OLD user now Hpending|OLD user now Haccepted|]; subst.
  - by apply Hagree.
  - destruct (Hagree OLD eq_refl) as [Ha Hc].
    unfold timestamps_agree. simpl. split.
    + split; [auto|by eexists].
    + rewrite Hc, Hpending. split; intros; discriminate.
  - destruct (Hagree OLD eq_refl) as [Ha Hc].
    unfold timestamps_agree. simpl. split.
    + rewrite Ha. split; [auto|]. intros _. by left.
    + split; [auto|by eexists].
  - unfold timestamps_agree. simpl.
    split; (split; [intros [? ?]; discriminate|intros; intuition discriminate]).
Qed.

(** Through the pages the timestamps follow the status: in every database
    that the application can reach from the empty one (profiles set up,
    donations posted, Accepts and Completes from their pages, each behind its
    route), every donation has [accepted_at] set exactly when its status is
    accepted or completed, and [completed_at] set exactly when its status is
    completed. *)
Theorem timestamps_follow_status (events : list Event) (donationId : uuid)
    (r : donations.Row) :
  donations_table (app_run events) !! donationId = Some r →
  (is_Some (donations.accepted_at r)
     ↔ donations.status r = accepted ∨ donations.status r = completed)
  ∧ (is_Some (donations.completed_at r) ↔ donations.status r = completed).
Proof.
  change (donations_table (app_run events) !! donationId = Some r →
          timestamps_agree r).
  revert donationId r. unfold app_run.
  induction events as [|e events IH] using rev_ind; intros donationId r.
  - simpl. rewrite lookup_empty. discriminate.
  - rewrite foldl_app. simpl. intros Hrow.
    pose proof (app_step_rows (foldl app_step empty_database events) e donationId)
      as Hstep.
    destruct (donations_table (foldl app_step empty_database events) !! donationId)
      as [OLD|] eqn:Hold.
    + destruct Hstep as (r' & Hr' & Hstep).
      rewrite Hr' in Hrow. injection Hrow as <-.
      eapply row_step_timestamps; [done|].
      intros ? [= <-]. by eapply IH.
    + eapply row_step_timestamps; [by apply Hstep|]. intros ?. discriminate.
Qed.

(** C4, the code fails the claim.  Sam has a shelter profile and is the
    donor of the pending donation "don-9", whose timestamps are both null as
    its status asks.  The update of [completeDonation], sent with Sam's
    session, passes the policies, and the trigger, which stamps
    [completed_at] only on a row that was accepted, stamps nothing: the
    donation is stored as completed with [accepted_at] and [completed_at]
    null. *)
Lemma completed_without_timestamps :
  let db := Example2.posted_by_Sam in
  let db' := fst (completeDonation (Some Example.Sam) db 50 "don-9") in
  has_role db Example.Sam shelter
  ∧ donations_table db !! "don-9" = Some Example2.listed9
  ∧ timestamps_agree Example2.listed9
  ∧ ∃ r, donations_table db' !! "don-9" = Some r
         ∧ r = update_donation_timestamps 50 Example2.listed9
                 (donations.set (complete_values Example.Sam) Example2.listed9)
         ∧ donations.status r = completed
         ∧ donations.accepted_at r = None
         ∧ donations.completed_at r = None
         ∧ ¬ timestamps_agree r.
Proof.
  split; [vm_compute; reflexivity|]. split; [vm_compute; reflexivity|]. split.
  - split; split; try (intros [? H]; vm_compute in H; discriminate);
      intros H; vm_compute in H; intuition discriminate.
  - eexists. split; [vm_compute; reflexivity|].
    repeat split; try (vm_compute; reflexivity).
    intros [_ [_ H]]. destruct H as [? H]; [reflexivity|]. discriminate.
Qed.

(** ** Posting a donation *)

(** C6.  When a signed-in user posts a donation and the generated id is
    free, the insert succeeds and returns the new row; a read of that id by
    the same user right afterwards returns the same row; its status is
    pending and its [shelter_id], [accepted_at] and [completed_at] are
    null.  For a user with a donor profile this is the step that the
    Donate page takes. *)
Theorem create_then_read (db : Database) (user : auth.User) (formData : FormData)
    (coordinates : option LatLng) (gen_random_uuid : uuid) (now : timestamptz) :
  donations_table db !! gen_random_uuid = None →
  ∃ db' data,
    handleSubmit (Some user) formData coordinates db gen_random_uuid now
      = (db', Some (success_modal data))
    ∧ select_donation_eq_id db' (auth.id user) (donations.id data) = Some data
    ∧ donations.status data = pending
    ∧ donations.shelter_id data = None
    ∧ donations.accepted_at data = None
    ∧ donations.completed_at data = None
    ∧ (has_role db user donor →
       app_step db (DonateSurplus_submit user formData coordinates gen_random_uuid now)
         = db').
Proof.
  intros Hfree.
  set (finalCoordinates :=
         match coordinates with
         | Some c => Some c
         | None => if truthy (form_pickup_location formData)
                   then geocodeAddress (form_pickup_location formData) else None
         end).
  set (data := inserted_donation gen_random_uuid now user formData finalCoordinates).
  set (db' := with_donations db (<[gen_random_uuid := data]> (donations_table db))).
  assert (Hread : ∀ ps, select_using ps (auth.id user) data = true).
  { intros ps. unfold select_using, Donors_can_read_own_donations. simpl.
    by rewrite bool_decide_eq_true_2. }
  assert (Hsubmit : handleSubmit (Some user) formData coordinates db gen_random_uuid now
                    = (db', Some (success_modal data))).
  { unfold handleSubmit, insert_donation_select_single.
    fold finalCoordinates. fold data.
    rewrite Hread. unfold Donors_can_create_donations. simpl.
    rewrite bool_decide_eq_true_2 by done. simpl.
    by rewrite Hfree. }
  exists db', data. repeat split; try done.
  - unfold select_donation_eq_id. simpl.
    rewrite lookup_insert_eq. by rewrite Hread.
  - intros Hrole. cbn [app_step].
    destruct (has_role_lookup _ _ _ Hrole) as (p & _ & Hp & Hfetch).
    unfold behind_route, ProtectedRoute. rewrite Hfetch.
    cbn [fmap option_fmap option_map]. rewrite Hp.
    rewrite bool_decide_eq_true_2 by done. cbn [negb].
    by rewrite Hsubmit.
Qed.

(** ** Profiles *)

Lemma acceptDonation_profiles (user : option auth.User) (profile : option profiles.Row)
    (db : Database) (now : timestamptz) (donationId : uuid) (donation : donations.Row) :
  profiles_table (fst (acceptDonation user profile db now donationId donation))
    = profiles_table db.
Proof.
  unfold acceptDonation, update_donations_eq_id.
  destruct user as [user|], profile as [profile|]; try done.
  destruct (donations_table db !! donationId) as [OLD|]; [|done].
  by destruct (update_row _ _ _ _ _).
Qed.

Lemma completeDonation_profiles (user : option auth.User) (db : Database)
    (now : timestamptz) (donationId : uuid) :
  profiles_table (fst (completeDonation user db now donationId))
    = profiles_table db.
Proof.
  unfold completeDonation, update_donations_eq_id.
  destruct user as [user|]; [|done].
  destruct (donations_table db !! donationId) as [OLD|]; [|done].
  by destruct (update_row _ _ _ _ _).
Qed.

Lemma handleSubmit_profiles (user : option auth.User) (formData : FormData)
    (coordinates : option LatLng) (db : Database) (gen_random_uuid : uuid)
    (now : timestamptz) :
  profiles_table (fst (handleSubmit user formData coordinates db gen_random_uuid now))
    = profiles_table db.
Proof.
  unfold handleSubmit, insert_donation_select_single.
  destruct user as [user|]; [|done].
  destruct (_ && _); [|done].
  by destruct (donations_table db !! _).
Qed.

Lemma createMissingProfile_keeps (user : option auth.User) (db : Database)
    (now : timestamptz) (name : string) (userType : UserType)
    (phone : option string) (k : uuid) (p : profiles.Row) :
  profiles_table db !! k = Some p →
  profiles_table (fst (createMissingProfile user db now name userType phone)) !! k
    = Some p.
Proof.
  intros Hk. unfold createMissingProfile, insert_profile_select_single.
  destruct user as [user|]; [|done].
  destruct (_ && _); [|done].
  simpl. destruct (profiles_table db !! auth.id user) eqn:Hfree; [done|].
  simpl. rewrite lookup_insert_ne; [done|]. congruence.
Qed.

Lemma app_step_profiles (db : Database) (e : Event) (k : uuid) (p : profiles.Row) :
  profiles_table db !! k = Some p →
  profiles_table (app_step db e) !! k = Some p.
Proof.
  intros Hk.
  destruct e as [user now name userType phone
                |user formData coordinates gen_random_uuid now
                |user now d donation
                |user now d]; cbn [app_step].
  - destruct (fetchProfile db (auth.id user) (auth.id user)); [done|].
    by apply createMissingProfile_keeps.
  - destruct (behind_route_cases db user donor (λ _,
      fst (handleSubmit (Some user) formData coordinates db gen_random_uuid now)))
      as [[_ ->]| ->]; [|done].
    by rewrite handleSubmit_profiles.
  - destruct (behind_route_cases db user shelter (λ profile,
      fst (acceptDonation (Some user) profile db now d donation)))
      as [[_ ->]| ->]; [|done].
    by rewrite acceptDonation_profiles.
  - destruct (behind_route_cases db user volunteer (λ _,
      fst (completeDonation (Some user) db now d)))
      as [[_ ->]| ->]; [|done].
    by rewrite completeDonation_profiles.
Qed.

(** C9 (as amended).  The role of a profile is assigned when the profile is
    created: the profile that [createMissingProfile] stores has the role it
    was given.  No step of the application's pages changes the role of a
    stored profile.  [updateProfile] leaves every role as it is when its
    updates carry no [user_type].  When they carry one, the role of the
    caller's own profile becomes that one, provided the caller has a profile
    and the updates carry no [id] other than the caller's; otherwise, and
    for every other profile, the role stays as it is. *)
Theorem user_type_changes_only_by_update :
  (∀ user db now name userType phone db' p,
     createMissingProfile (Some user) db now name userType phone = (db', inr p) →
     profiles.user_type p = userType
     ∧ profiles.user_type <$> profiles_table db' !! auth.id user = Some userType)
  ∧ (∀ db e k p,
       profiles_table db !! k = Some p →
       profiles.user_type <$> profiles_table (app_step db e) !! k
         = Some (profiles.user_type p))
  ∧ (∀ user db updates k,
       profiles.user_type' updates = None →
       profiles.user_type <$> profiles_table (fst (updateProfile user db updates)) !! k
         = profiles.user_type <$> profiles_table db !! k)
  ∧ (∀ user db updates t k,
       profiles.user_type' updates = Some t →
       profiles.user_type
         <$> profiles_table (fst (updateProfile (Some user) db updates)) !! k
       = if bool_decide
              (k = auth.id user
               ∧ is_Some (fetchProfile db (auth.id user) (auth.id user))
               ∧ (profiles.id' updates = None
                  ∨ profiles.id' updates = Some (auth.id user)))
         then Some t
         else profiles.user_type <$> profiles_table db !! k).
Proof.
  split; [|split; [|split]].
  - intros user db now name userType phone db' p.
    unfold createMissingProfile, insert_profile_select_single. simpl.
    destruct (_ && _); [|intros [= <-]; discriminate].
    destruct (profiles_table db !! auth.id user); intros [= <- <-]; simpl.
    by rewrite lookup_insert_eq.
  - intros db e k p Hk. by rewrite (app_step_profiles db e k p Hk).
  - intros user db updates k Hnone.
    unfold updateProfile, update_profiles_eq_id.
    destruct user as [user|]; [|done].
    destruct (profiles_table db !! auth.id user) as [OLD|] eqn:Hold; [|done].
    destruct (_ && _); [|done].
    destruct (_ && _); [|done].
    simpl. destruct (decide (auth.id user = k)) as [<-|Hne].
    + rewrite lookup_insert_eq, Hold. simpl. by rewrite Hnone.
    + by rewrite lookup_insert_ne.
  - intros user db updates t k Hsome.
    unfold updateProfile, update_profiles_eq_id, fetchProfile,
      Users_can_update_own_profile_using, Users_can_update_own_profile_check,
      Users_can_read_own_profile.
    destruct (profiles_table db !! auth.id user) as [OLD|] eqn:Hold.
    2:{ rewrite bool_decide_eq_false_2; [done|]. intros (_ & [? ?] & _). done. }
    cbn [profiles.set profiles.id].
    destruct (decide (auth.id user = profiles.id OLD)) as [Hown|Hother].
    2:{ rewrite (bool_decide_eq_false_2 (auth.id user = profiles.id OLD)) by done.
        simpl. rewrite bool_decide_eq_false_2; [done|].
        intros (_ & [? ?] & _). done. }
    rewrite (bool_decide_eq_true_2 (auth.id user = profiles.id OLD)) by done.
    cbn [andb].
    destruct (profiles.id' updates) as [id|] eqn:Hid; cbn [default from_option].
    + destruct (decide (auth.id user = id)) as [<-|Hne].
      * rewrite (bool_decide_eq_true_2 (auth.id user = auth.id user)) by done.
        simpl. destruct (decide (k = auth.id user)) as [->|Hk].
        -- rewrite lookup_insert_eq. simpl. rewrite Hsome.
           rewrite bool_decide_eq_true_2; [done|]. split; [done|]. split; [by eexists|by right].
        -- rewrite lookup_insert_ne by done.
           rewrite bool_decide_eq_false_2; [done|]. by intros [? _].
      * rewrite (bool_decide_eq_false_2 (auth.id user = id)) by done. simpl.
        rewrite bool_decide_eq_false_2; [done|].
        intros (_ & _ & [?|?]); congruence.
    + rewrite (bool_decide_eq_true_2 (auth.id user = profiles.id OLD)) by done.
      simpl. destruct (decide (k = auth.id user)) as [->|Hk].
      * rewrite lookup_insert_eq. simpl. rewrite Hsome.
        rewrite bool_decide_eq_true_2; [done|]. split; [done|]. split; [by eexists|by left].
      * rewrite lookup_insert_ne by done.
        rewrite bool_decide_eq_false_2; [done|]. by intros [? _].
Qed.

(** C9, the claim as stated fails: Dora's profile was created with the role
    donor; [updateProfile({ user_type: 'shelter' })] succeeds and her stored
    profile, and the profile of her context, then have the role shelter. *)
Lemma updateProfile_changes_user_type :
  profiles.user_type <$> profiles_table Example.posted !! "u-dora" = Some donor
  ∧ profiles.user_type
      <$> profiles_table
            (fst (updateProfile (Some Example.Dora) Example.posted Example.become_shelter))
          !! "u-dora"
    = Some shelter
  ∧ (∃ p, snd (updateProfile (Some Example.Dora) Example.posted Example.become_shelter)
          = inr (Some p)
          ∧ profiles.user_type p = shelter).
Proof.
  repeat split; try (vm_compute; reflexivity).
  eexists. split; vm_compute; reflexivity.
Qed.

(** * The statements at work on the example run *)

(** C1 at work: Sam, Sue and Sam again call Accept on Dora's pending
    donation; Sam's first call wins. *)
Lemma accept_single_winner_witness :
  let NEW := donations.with_accepted_at 20
               (donations.set (accept_values Example.Sam) Example.listed) in
  let db1 := with_donations Example.posted
               (<["don-1" := NEW]> (donations_table Example.posted)) in
  donations.shelter_id NEW = Some "u-sam"
  ∧ accept_calls Example.posted "don-1" Example.listed
      [(Example.Sam, 20%Z); (Example.Sue, 30%Z); (Example.Sam, 40%Z)]
    = (db1, (λ _, Some (accepted_alert Example.listed))
              <$> [(Example.Sam, 20%Z); (Example.Sue, 30%Z); (Example.Sam, 40%Z)]).
Proof.
  assert (H1 : donations_table Example.posted !! "don-1" = Some Example.listed)
    by (vm_compute; reflexivity).
  assert (H2 : donations.status Example.listed = pending) by reflexivity.
  assert (H3 : has_role Example.posted Example.Sam shelter)
    by (vm_compute; reflexivity).
  assert (H4 : Forall (λ call, has_role Example.posted call.1 shelter)
                 [(Example.Sue, 30%Z); (Example.Sam, 40%Z)]).
  { repeat constructor; vm_compute; reflexivity. }
  pose proof (accept_single_winner Example.posted "don-1" Example.listed
                Example.listed Example.Sam 20 _ H1 H2 H3 H4) as H.
  split; apply H.
Defined.

(** C2 at work: Vic calls Complete on Dora's pending donation. *)
Lemma complete_pending_changes_nothing_witness :
  completeDonation (Some Example.Vic) Example.posted 30 "don-1"
    = (Example.posted, Some completed_alert)
  ∧ app_step Example.posted (MyPickups_complete Example.Vic 30 "don-1")
    = Example.posted.
Proof.
  apply (complete_pending_changes_nothing Example.posted "don-1" Example.listed
           Example.Vic 30).
  - vm_compute; reflexivity.
  - reflexivity.
  - vm_compute; reflexivity.
Defined.

(** X30 at work: Sam's Accept moves Dora's donation from pending forward. *)
Lemma status_moves_forward_witness :
  ∃ r', donations_table
          (app_step Example.posted
             (IncomingRequests_accept Example.Sam 20 "don-1" Example.listed))
          !! "don-1" = Some r'
        ∧ forward (donations.status Example.listed) (donations.status r')
        ∧ ¬ (donations.status Example.listed = pending
             ∧ donations.status r' = completed)
        ∧ (donations.status Example.listed = accepted → donations.status r' ≠ pending)
        ∧ (donations.status Example.listed = completed
           → donations.status r' = completed).
Proof.
  apply (status_moves_forward Example.posted
           (IncomingRequests_accept Example.Sam 20 "don-1" Example.listed)
           "don-1" Example.listed).
  vm_compute; reflexivity.
Defined.

(** The timestamps of the donation that was posted, accepted and
    delivered. *)
Lemma timestamps_follow_status_witness :
  (is_Some (donations.accepted_at Example.delivered)
     ↔ donations.status Example.delivered = accepted
       ∨ donations.status Example.delivered = completed)
  ∧ (is_Some (donations.completed_at Example.delivered)
     ↔ donations.status Example.delivered = completed).
Proof.
  apply (timestamps_follow_status Example.all_events "don-1" Example.delivered).
  vm_compute; reflexivity.
Defined.

(** C6 at work: Dora posts a second donation and reads it back. *)
Lemma create_then_read_witness :
  ∃ db' data,
    handleSubmit (Some Example.Dora) Example.form None Example.posted "don-2" 50
      = (db', Some (success_modal data))
    ∧ select_donation_eq_id db' "u-dora" (donations.id data) = Some data
    ∧ donations.status data = pending
    ∧ donations.shelter_id data = None
    ∧ donations.accepted_at data = None
    ∧ donations.completed_at data = None
    ∧ (has_role Example.posted Example.Dora donor →
       app_step Example.posted
         (DonateSurplus_submit Example.Dora Example.form None "don-2" 50)
         = db').
Proof.
  apply (create_then_read Example.posted Example.Dora Example.form None "don-2" 50).
  vm_compute; reflexivity.
Defined.

(** C8 at work: an eleventh notification arrives in a list of ten. *)
Lemma notifications_capped_witness :
  let notifications := notifications_run Example.ten_announced in
  let notifications' :=
    handleDonationChange (Some Example.Sam) (Some Example.Sam_profile) 101
      (INSERT Example.listed) notifications in
  List.length notifications = 10
  ∧ List.length notifications' = 10
  ∧ Notification.timestamp <$> notifications' = 101%Z :: replicate 9 100%Z.
Proof.
  intros notifications notifications'.
  assert (H10 : List.length notifications = 10) by (vm_compute; reflexivity).
  destruct (notifications_capped Example.ten_announced) as [_ H].
  destruct (H (Some Example.Sam) Example.Sam_profile 101%Z (INSERT Example.listed) _
              eq_refl) as (_ & _ & H').
  destruct (H' H10) as [Heq Hlen].
  split; [exact H10|]. split; [exact Hlen|].
  vm_compute; reflexivity.
Defined.

(** C9 at work: Val's role when the profile is set up; Dora's role after a
    page step, after an update of her name and phone, after an update that
    carries a role, and after one that carries a role and Sam's id. *)
Lemma user_type_changes_only_by_update_witness :
  (∃ db' p,
     createMissingProfile (Some Example2.Val) Example.taken 25 "Val" volunteer
       (Some "555-0199") = (db', inr p)
     ∧ profiles.user_type p = volunteer
     ∧ profiles.user_type <$> profiles_table db' !! "u-val" = Some volunteer)
  ∧ profiles.user_type
    <$> profiles_table
          (app_step Example.posted
             (IncomingRequests_accept Example.Sam 20 "don-1" Example.listed))
        !! "u-dora"
    = Some donor
  ∧ profiles.user_type
      <$> profiles_table
            (fst (updateProfile (Some Example.Dora) Example.posted Example.rename))
          !! "u-dora"
    = profiles.user_type <$> profiles_table Example.posted !! "u-dora"
  ∧ profiles.user_type
      <$> profiles_table
            (fst (updateProfile (Some Example.Dora) Example.posted Example.become_shelter))
          !! "u-dora"
    = Some shelter
  ∧ profiles.user_type
      <$> profiles_table
            (fst (updateProfile (Some Example.Dora) Example.posted
                    Example2.become_Sam))
          !! "u-dora"
    = Some donor.
Proof.
  destruct user_type_changes_only_by_update as (Hnew & Hstep & Hkeep & Hset).
  split; [|split; [|split; [|split]]].
  - destruct (createMissingProfile (Some Example2.Val) Example.taken 25 "Val"
                volunteer (Some "555-0199")) as [db' [e|p]] eqn:Hcreate;
      [vm_compute in Hcreate; discriminate|].
    exists db', p. split; [reflexivity|]. exact (Hnew _ _ _ _ _ _ _ _ Hcreate).
  - apply (Hstep Example.posted _ "u-dora" Example.Dora_profile).
    vm_compute; reflexivity.
  - apply (Hkeep (Some Example.Dora)). reflexivity.
  - rewrite (Hset Example.Dora Example.posted Example.become_shelter shelter "u-dora")
      by reflexivity.
    vm_compute; reflexivity.
  - rewrite (Hset Example.Dora Example.posted Example2.become_Sam shelter "u-dora")
      by reflexivity.
    vm_compute; reflexivity.
Defined.

(** C10 at work: an address in Chicago, and the donation Dora posts from
    it. *)
Lemma geocodeAddress_never_null_witness :
  geocodeAddress "789 Pine Road, Chicago, IL 60601"
    = Some {| lat := 41.8781; lng := -87.6298 |}%Q
  ∧ donations.pickup_coordinates <$> donations_table Example.posted !! "don-1"
    = Some (Some {| lat := 41.8781; lng := -87.6298 |}%Q).
Proof.
  destruct geocodeAddress_never_null as [Hgeo Hstored].
  split.
  - destruct (Hgeo "789 Pine Road, Chicago, IL 60601") as [Heq _].
    rewrite Heq. vm_compute; reflexivity.
  - destruct (Hstored Example.Dora Example.form None
                (app_run Example.sign_ups) "don-1" 10%Z Example.posted Example.listed)
      as [Hrow _].
    + vm_compute; reflexivity.
    + vm_compute. discriminate.
    + change (donations.id Example.listed) with "don-1" in Hrow.
      rewrite Hrow. vm_compute; reflexivity.
Defined.

(** * More properties *)

(** ** What the pages list *)

Lemma elem_of_select_donations (db : Database) (uid : uuid) (r : donations.Row) :
  r ∈ select_donations db uid
  ↔ (∃ k, donations_table db !! k = Some r)
    ∧ select_using (profiles_table db) uid r = true.
Proof.
  unfold select_donations. rewrite list_elem_of_filter, list_elem_of_fmap.
  split.
  - intros [Hsel ([k r'] & -> & Hin)]. split; [|done].
    exists k. by apply elem_of_map_to_list.
  - intros [[k Hk] Hsel]. split; [done|].
    exists (k, r). split; [done|]. by apply elem_of_map_to_list.
Qed.

Lemma select_using_pending (ps : gmap uuid profiles.Row) (uid : uuid)
    (r : donations.Row) :
  donations.status r = pending → select_using ps uid r = true.
Proof.
  intros Hpending. unfold select_using, Shelters_can_read_pending_donations.
  rewrite (bool_decide_eq_true_2 _ Hpending). simpl. by rewrite orb_true_r.
Qed.

Lemma select_using_cases (ps : gmap uuid profiles.Row) (uid : uuid)
    (r : donations.Row) :
  select_using ps uid r = true
  ↔ uid = donations.donor_id r
    ∨ donations.status r = pending
    ∨ (profiles.user_type <$> ps !! uid = Some shelter
       ∧ donations.shelter_id r = Some uid)
    ∨ (profiles.user_type <$> ps !! uid = Some volunteer
       ∧ (donations.status r = accepted ∨ donations.status r = completed)).
Proof.
  unfold select_using, Donors_can_read_own_donations,
    Shelters_can_read_pending_donations, Volunteers_can_read_accepted_donations.
  rewrite !orb_true_iff, !andb_true_iff, !orb_true_iff, !bool_decide_eq_true.
  rewrite uid_in_profiles_of_type_spec.
  destruct (donations.shelter_id r) as [s|].
  - rewrite andb_true_iff, bool_decide_eq_true, uid_in_profiles_of_type_spec.
    intuition congruence.
  - intuition congruence.
Qed.

#[global] Instance newest_first_total : Total newest_first.
Proof. intros r1 r2. unfold newest_first. lia. Qed.

#[global] Instance newest_first_trans : Transitive newest_first.
Proof. intros r1 r2 r3. unfold newest_first. lia. Qed.

Lemma filter_pending_visible (db : Database) (uid : uuid) (l : list donations.Row) :
  filter (λ r, donations.status r = pending)
    (filter (λ r, select_using (profiles_table db) uid r = true) l)
  = filter (λ r, donations.status r = pending) l.
Proof.
  induction l as [|r l IH]; [done|].
  rewrite !filter_cons.
  destruct (decide (donations.status r = pending)) as [Hp|Hp].
  - rewrite decide_True by by apply select_using_pending.
    rewrite filter_cons, decide_True by done. by rewrite IH.
  - destruct (decide (select_using (profiles_table db) uid r = true)); [|done].
    rewrite filter_cons, decide_False by done. done.
Qed.

Lemma elem_of_fetchPendingDonations (db : Database) (user : auth.User)
    (r : donations.Row) :
  r ∈ fetchPendingDonations db user
  ↔ (∃ k, donations_table db !! k = Some r) ∧ donations.status r = pending.
Proof.
  unfold fetchPendingDonations.
  rewrite merge_sort_Permutation, list_elem_of_filter, elem_of_select_donations.
  split; [tauto|]. intros [Hk Hp]. split; [done|]. split; [done|].
  by apply select_using_pending.
Qed.

Lemma elem_of_fetchAcceptedDonations (db : Database) (user : auth.User)
    (r : donations.Row) :
  r ∈ fetchAcceptedDonations db user
  ↔ (∃ k, donations_table db !! k = Some r)
    ∧ (donations.status r = accepted ∨ donations.status r = completed)
    ∧ (role_of db (auth.id user) = Some volunteer
       ∨ donations.donor_id r = auth.id user
       ∨ (role_of db (auth.id user) = Some shelter
          ∧ donations.shelter_id r = Some (auth.id user))).
Proof.
  unfold fetchAcceptedDonations, role_of.
  rewrite merge_sort_Permutation, list_elem_of_filter, elem_of_select_donations,
    select_using_cases.
  split.
  - intros (Hst & Hk & Hsel). split; [done|]. split; [done|].
    destruct Hsel as [->|[Hp|[[? ?]|[? _]]]]; auto.
    destruct Hst; congruence.
  - intros (Hk & Hst & Hwho). split; [done|]. split; [done|].
    destruct Hwho as [?|[<-|?]]; auto.
Qed.

(** X1.  The list of the Incoming Requests page holds exactly the stored
    donations that are pending, newest first; the policies hide none of
    them, so whoever fetches it gets the same list. *)
Theorem fetchPendingDonations_all_pending (db : Database) (user : auth.User) :
  (∀ r, r ∈ fetchPendingDonations db user
        ↔ (∃ k, donations_table db !! k = Some r) ∧ donations.status r = pending)
  ∧ StronglySorted newest_first (fetchPendingDonations db user)
  ∧ (∀ user', fetchPendingDonations db user' = fetchPendingDonations db user).
Proof.
  split; [|split].
  - intros r. apply elem_of_fetchPendingDonations.
  - apply StronglySorted_merge_sort; apply _.
  - intros user'. unfold fetchPendingDonations, select_donations.
    by rewrite !filter_pending_visible.
Qed.

(** X2.  The list of the My Pickups page holds, newest first, the stored
    donations that are accepted or completed and that the caller may read:
    all of them for a volunteer; for anyone else only those the caller
    donated or, as a shelter, is bound to. *)
Theorem fetchAcceptedDonations_visible (db : Database) (user : auth.User) :
  (∀ r, r ∈ fetchAcceptedDonations db user
        ↔ (∃ k, donations_table db !! k = Some r)
          ∧ (donations.status r = accepted ∨ donations.status r = completed)
          ∧ (role_of db (auth.id user) = Some volunteer
             ∨ donations.donor_id r = auth.id user
             ∨ (role_of db (auth.id user) = Some shelter
                ∧ donations.shelter_id r = Some (auth.id user))))
  ∧ StronglySorted newest_first (fetchAcceptedDonations db user).
Proof.
  split.
  - intros r. apply elem_of_fetchAcceptedDonations.
  - apply StronglySorted_merge_sort; apply _.
Qed.

(** X3.  Once a shelter's Accept has taken a pending donation, the donation
    is gone from the pending list of every user, whose other entries stay;
    it is in the pickup list of every volunteer and of the shelter that took
    it. *)
Theorem accepted_moves_between_lists (db : Database) (donationId : uuid)
    (donation OLD : donations.Row) (user : auth.User) (now : timestamptz) :
  donations_table db !! donationId = Some OLD →
  donations.status OLD = pending →
  has_role db user shelter →
  let db1 := fst (acceptDonation (Some user)
                    (fetchProfile db (auth.id user) (auth.id user))
                    db now donationId donation) in
  let NEW := donations.with_accepted_at now (donations.set (accept_values user) OLD) in
  (∀ user' r, r ∈ fetchPendingDonations db1 user'
              ↔ ∃ k, k ≠ donationId ∧ donations_table db !! k = Some r
                     ∧ donations.status r = pending)
  ∧ (∀ volunteer', has_role db volunteer' volunteer →
                   NEW ∈ fetchAcceptedDonations db1 volunteer')
  ∧ NEW ∈ fetchAcceptedDonations db1 user.
Proof.
  intros Hrow Hpending Hrole db1 NEW.
  assert (Hdb1 : db1 = with_donations db (<[donationId := NEW]> (donations_table db))).
  { unfold db1. rewrite acceptDonation_by_shelter by done.
    rewrite Hrow. by rewrite bool_decide_eq_true_2. }
  assert (Hroles : ∀ u t, has_role db u t → role_of db1 (auth.id u) = Some t).
  { intros u t (p & Hp & <- & _)%has_role_lookup.
    rewrite Hdb1. unfold role_of. simpl. by rewrite Hp. }
  assert (Hnew : donations_table db1 !! donationId = Some NEW).
  { rewrite Hdb1. apply lookup_insert_eq. }
  split; [|split].
  - intros user' r.
    rewrite elem_of_fetchPendingDonations.
    split.
    + intros [[k Hk] Hp]. exists k.
      destruct (decide (k = donationId)) as [->|Hne].
      * rewrite Hnew in Hk. injection Hk as <-. discriminate.
      * rewrite Hdb1 in Hk. simpl in Hk. rewrite lookup_insert_ne in Hk by done.
        done.
    + intros (k & Hne & Hk & Hp). split; [|done]. exists k.
      rewrite Hdb1. simpl. by rewrite lookup_insert_ne.
  - intros volunteer' Hv.
    rewrite elem_of_fetchAcceptedDonations.
    split; [by exists donationId|]. split; [by left|].
    left. by apply Hroles.
  - rewrite elem_of_fetchAcceptedDonations.
    split; [by exists donationId|]. split; [by left|].
    right. right. split; [by apply Hroles|done].
Qed.

(** ** The two updates, whoever sends them *)

Lemma uid_in_profiles_of_type_role (ps : gmap uuid profiles.Row) (uid : uuid)
    (t : UserType) :
  uid_in_profiles_of_type ps uid t
    = bool_decide (profiles.user_type <$> ps !! uid = Some t).
Proof.
  unfold uid_in_profiles_of_type. destruct (ps !! uid) as [p|]; simpl.
  - apply bool_decide_ext. split; congruence.
  - first [done | symmetry; by apply bool_decide_eq_false_2].
Qed.

Ltac settle_role H :=
  first [ rewrite !(bool_decide_eq_true_2 _ H)
        | rewrite !(bool_decide_eq_false_2 _ H) ].

(** The update of [acceptDonation] for any caller: it writes a pending row
    for a shelter and an accepted row for a volunteer, and skips every other
    row; it is never rejected. *)
Lemma update_row_accept (ps : gmap uuid profiles.Row) (user : auth.User)
    (now : timestamptz) (OLD : donations.Row) :
  let role := profiles.user_type <$> ps !! auth.id user in
  update_row ps (auth.id user) now (accept_values user) OLD
  = if bool_decide (donations.status OLD = pending ∧ role = Some shelter)
    then row_updated
           (donations.with_accepted_at now (donations.set (accept_values user) OLD))
    else if bool_decide (donations.status OLD = accepted ∧ role = Some volunteer)
    then row_updated (donations.set (accept_values user) OLD)
    else row_skipped.
Proof.
  intros role.
  unfold update_row, update_using, update_check, select_using,
    Shelters_can_update_donations_to_accepted_using,
    Shelters_can_update_donations_to_accepted_check,
    Volunteers_can_update_donations_to_completed_using,
    Volunteers_can_update_donations_to_completed_check,
    Donors_can_read_own_donations, Shelters_can_read_pending_donations,
    Volunteers_can_read_accepted_donations, update_donation_timestamps.
  rewrite !uid_in_profiles_of_type_role. fold role.
  destruct OLD as [? ? ? ? ? ? st ? ? ? ? ? ? ?]; simpl.
  destruct (decide (role = Some shelter)) as [Hs|Hs];
    destruct (decide (role = Some volunteer)) as [Hv|Hv];
    try (rewrite Hs in Hv; discriminate);
    settle_role Hs; settle_role Hv;
    destruct st; simpl;
    repeat (case_bool_decide; simpl);
    rewrite ?orb_true_r; simpl; try done; try (exfalso; intuition congruence).
Qed.

(** The update of [completeDonation] for any caller. *)
Lemma update_row_complete (ps : gmap uuid profiles.Row) (user : auth.User)
    (now : timestamptz) (OLD : donations.Row) :
  let role := profiles.user_type <$> ps !! auth.id user in
  update_row ps (auth.id user) now (complete_values user) OLD
  = if bool_decide (donations.status OLD = accepted ∧ role = Some volunteer)
    then row_updated
           (donations.with_completed_at now (donations.set (complete_values user) OLD))
    else if bool_decide (donations.status OLD = pending ∧ role = Some shelter)
    then if bool_decide (auth.id user = donations.donor_id OLD
                         ∨ donations.shelter_id OLD = Some (auth.id user))
         then row_updated (donations.set (complete_values user) OLD)
         else row_rejected
    else row_skipped.
Proof.
  intros role.
  unfold update_row, update_using, update_check, select_using,
    Shelters_can_update_donations_to_accepted_using,
    Shelters_can_update_donations_to_accepted_check,
    Volunteers_can_update_donations_to_completed_using,
    Volunteers_can_update_donations_to_completed_check,
    Donors_can_read_own_donations, Shelters_can_read_pending_donations,
    Volunteers_can_read_accepted_donations, update_donation_timestamps.
  rewrite !uid_in_profiles_of_type_role. fold role.
  destruct OLD as [? ? ? ? ? ? st sh ? ? ? ? ? ?]; simpl.
  destruct (decide (role = Some shelter)) as [Hs|Hs];
    destruct (decide (role = Some volunteer)) as [Hv|Hv];
    try (rewrite Hs in Hv; discriminate);
    settle_role Hs; settle_role Hv;
    destruct st, sh as [s|]; simpl;
    repeat (case_bool_decide; simpl);
    rewrite ?orb_true_r, ?orb_false_r, ?andb_true_r, ?andb_false_r; simpl;
    try done; try (exfalso; intuition congruence).
Qed.

(** X4.  The update that [acceptDonation] sends is never rejected by the
    policies: for every database and every signed-in caller with a profile
    the alert is that of a successful Accept.  The call changes the database
    only where it finds the donation pending and the caller a shelter, or
    accepted and the caller a volunteer. *)
Theorem acceptDonation_never_rejected (db : Database) (user : auth.User)
    (profile : profiles.Row) (now : timestamptz) (donationId : uuid)
    (donation : donations.Row) :
  let result := acceptDonation (Some user) (Some profile) db now donationId donation in
  snd result = Some (accepted_alert donation)
  ∧ (fst result ≠ db →
     ∃ OLD, donations_table db !! donationId = Some OLD
            ∧ ((donations.status OLD = pending
                ∧ role_of db (auth.id user) = Some shelter)
               ∨ (donations.status OLD = accepted
                  ∧ role_of db (auth.id user) = Some volunteer))).
Proof.
  unfold acceptDonation, update_donations_eq_id, role_of.
  destruct (donations_table db !! donationId) as [OLD|] eqn:Hrow; [|done].
  rewrite update_row_accept.
  repeat case_bool_decide; simpl; (split; [done|]); intros Hne; try done;
    exists OLD; (split; [done|]); tauto.
Qed.

(** X5.  Without the shelters' route, the policies let a volunteer send the
    update of [acceptDonation] to an accepted donation: the donation stays
    accepted with its [accepted_at], and its [shelter_id] becomes the
    volunteer's id. *)
Theorem accept_by_volunteer_rebinds (db : Database) (donationId : uuid)
    (donation OLD : donations.Row) (user : auth.User) (now : timestamptz) :
  donations_table db !! donationId = Some OLD →
  donations.status OLD = accepted →
  has_role db user volunteer →
  let NEW := donations.set (accept_values user) OLD in
  acceptDonation (Some user) (fetchProfile db (auth.id user) (auth.id user))
    db now donationId donation
  = (with_donations db (<[donationId := NEW]> (donations_table db)),
     Some (accepted_alert donation))
  ∧ donations.status NEW = accepted
  ∧ donations.shelter_id NEW = Some (auth.id user)
  ∧ donations.accepted_at NEW = donations.accepted_at OLD.
Proof.
  intros Hrow Haccepted Hrole NEW.
  destruct (has_role_lookup _ _ _ Hrole) as (p & Hp & Hv & ->).
  split; [|by rewrite <- Haccepted].
  unfold acceptDonation, update_donations_eq_id. rewrite Hrow, update_row_accept.
  rewrite Hp. simpl. rewrite Hv, Haccepted. done.
Qed.

Lemma alerts_differ : completed_alert ≠ complete_failed_alert.
Proof. discriminate. Qed.

Lemma update_row_complete_rejected (ps : gmap uuid profiles.Row)
    (user : auth.User) (now : timestamptz) (OLD : donations.Row) :
  update_row ps (auth.id user) now (complete_values user) OLD = row_rejected
  ↔ donations.status OLD = pending
    ∧ profiles.user_type <$> ps !! auth.id user = Some shelter
    ∧ auth.id user ≠ donations.donor_id OLD
    ∧ donations.shelter_id OLD ≠ Some (auth.id user).
Proof.
  rewrite update_row_complete.
  repeat case_bool_decide; split; try discriminate; try tauto.
  intros (Hp & _). destruct H as [H _]. congruence.
Qed.

(** X6.  [completeDonation] shows its failure alert in exactly one
    situation: the donation is pending and the caller has a shelter profile
    and is neither its donor nor bound to it.  The database is then
    unchanged.  In every other situation the alert is that of a successful
    Complete. *)
Theorem completeDonation_rejected_iff (db : Database) (user : auth.User)
    (now : timestamptz) (donationId : uuid) :
  let result := completeDonation (Some user) db now donationId in
  (snd result = Some complete_failed_alert
   ↔ ∃ OLD, donations_table db !! donationId = Some OLD
            ∧ donations.status OLD = pending
            ∧ role_of db (auth.id user) = Some shelter
            ∧ auth.id user ≠ donations.donor_id OLD
            ∧ donations.shelter_id OLD ≠ Some (auth.id user))
  ∧ (snd result = Some complete_failed_alert → fst result = db)
  ∧ (snd result = Some complete_failed_alert ∨ snd result = Some completed_alert).
Proof.
  pose proof alerts_differ as Hdiff.
  unfold completeDonation, update_donations_eq_id, role_of.
  destruct (donations_table db !! donationId) as [OLD|] eqn:Hrow.
  - pose proof (update_row_complete_rejected (profiles_table db) user now OLD)
      as Hrejected.
    destruct (update_row (profiles_table db) (auth.id user) now
                (complete_values user) OLD) as [|NEW|]; simpl.
    + split; [|split; [done|by right]]. split.
      * by intros [= ?].
      * intros (OLD' & HO & Hcond). injection HO as <-.
        apply Hrejected in Hcond. discriminate.
    + split; [|split; [|by right]].
      * split.
        -- by intros [= ?].
        -- intros (OLD' & HO & Hcond). injection HO as <-.
           apply Hrejected in Hcond. discriminate.
      * by intros [= ?].
    + split; [|split; [done|by left]]. split; [|done].
      intros _. exists OLD. split; [done|]. by apply Hrejected.
  - simpl. split; [|split; [done|by right]]. split.
    + by intros [= ?].
    + intros (OLD' & ? & _). discriminate.
Qed.

(** X7.  Without the volunteers' route, the policies let a shelter that is
    the donor of a pending donation send the update of [completeDonation]:
    the donation becomes completed in one step, and the trigger stamps
    neither [accepted_at] nor [completed_at]. *)
Theorem complete_by_donor_shelter (db : Database) (donationId : uuid)
    (OLD : donations.Row) (user : auth.User) (now : timestamptz) :
  donations_table db !! donationId = Some OLD →
  donations.status OLD = pending →
  has_role db user shelter →
  donations.donor_id OLD = auth.id user →
  let NEW := donations.set (complete_values user) OLD in
  completeDonation (Some user) db now donationId
  = (with_donations db (<[donationId := NEW]> (donations_table db)),
     Some completed_alert)
  ∧ donations.status NEW = completed
  ∧ donations.accepted_at NEW = donations.accepted_at OLD
  ∧ donations.completed_at NEW = donations.completed_at OLD.
Proof.
  intros Hrow Hpending Hrole Hdonor NEW.
  destruct (has_role_lookup _ _ _ Hrole) as (p & Hp & Hs & _).
  split; [|done].
  unfold completeDonation, update_donations_eq_id. rewrite Hrow, update_row_complete.
  rewrite Hp. simpl. rewrite Hs, Hpending, Hdonor.
  rewrite bool_decide_eq_false_2 by (intros [? ?]; discriminate).
  rewrite bool_decide_eq_true_2 by done.
  rewrite bool_decide_eq_true_2 by (left; done). done.
Qed.

Lemma complete_calls_decided (db : Database) (donationId : uuid)
    (calls : list (auth.User * timestamptz)) :
  (∀ OLD, donations_table db !! donationId = Some OLD →
          donations.status OLD ≠ accepted) →
  Forall (λ call, has_role db call.1 volunteer) calls →
  complete_calls db donationId calls = (db, (λ _, Some completed_alert) <$> calls).
Proof.
  intros Hdecided Hcalls.
  induction Hcalls as [|[user now] calls Hrole _ IH]; [done|].
  cbn [complete_calls]. simpl in Hrole.
  rewrite completeDonation_by_volunteer by done.
  destruct (donations_table db !! donationId) as [OLD|] eqn:Hrow.
  - rewrite bool_decide_eq_false_2 by auto. by rewrite IH.
  - by rewrite IH.
Qed.

(** X8.  Of any number of volunteers that call Complete on an accepted
    donation, the one served first wins: the donation becomes completed, is
    stamped, carries that volunteer's id and keeps its shelter and
    [accepted_at].  Every later call leaves the database as the winner left
    it and is answered with the same alert. *)
Theorem complete_single_winner (db : Database) (donationId : uuid)
    (OLD : donations.Row) (user : auth.User) (now : timestamptz)
    (others : list (auth.User * timestamptz)) :
  donations_table db !! donationId = Some OLD →
  donations.status OLD = accepted →
  has_role db user volunteer →
  Forall (λ call, has_role db call.1 volunteer) others →
  let NEW := donations.with_completed_at now
               (donations.set (complete_values user) OLD) in
  let db1 := with_donations db (<[donationId := NEW]> (donations_table db)) in
  complete_calls db donationId ((user, now) :: others)
    = (db1, (λ _, Some completed_alert) <$> ((user, now) :: others))
  ∧ donations.status NEW = completed
  ∧ donations.volunteer_id NEW = Some (auth.id user)
  ∧ donations.completed_at NEW = Some now
  ∧ donations.shelter_id NEW = donations.shelter_id OLD
  ∧ donations.accepted_at NEW = donations.accepted_at OLD.
Proof.
  intros Hrow Haccepted Hrole Hothers NEW db1.
  split; [|done].
  cbn [complete_calls]. rewrite completeDonation_by_volunteer by done.
  rewrite Hrow, bool_decide_eq_true_2 by done. fold NEW. fold db1.
  rewrite (complete_calls_decided db1 donationId others); [done| |done].
  intros OLD'. unfold db1. simpl. rewrite lookup_insert_eq. by intros [= <-].
Qed.

(** ** What the steps of the application keep *)

Lemma app_step_pages (db : Database) (e : Event) (k : uuid) :
  match donations_table db !! k with
  | Some r =>
      ∃ r', donations_table (app_step db e) !! k = Some r'
            ∧ page_step db k (Some r) r'
  | None =>
      ∀ r', donations_table (app_step db e) !! k = Some r' → page_step db k None r'
  end.
Proof.
  assert (Hkept : ∀ db', donations_table db' = donations_table db →
    match donations_table db !! k with
    | Some r => ∃ r', donations_table db' !! k = Some r' ∧ page_step db k (Some r) r'
    | None => ∀ r', donations_table db' !! k = Some r' → page_step db k None r'
    end).
  { intros db' ->. destruct (donations_table db !! k) as [r|] eqn:Hrow.
    - exists r. split; [done|constructor].
    - intros r'. discriminate. }
  assert (Hother : ∀ k' NEW, k' ≠ k →
    match donations_table db !! k with
    | Some r =>
        ∃ r', <[k' := NEW]> (donations_table db) !! k = Some r'
              ∧ page_step db k (Some r) r'
    | None =>
        ∀ r', <[k' := NEW]> (donations_table db) !! k = Some r' → page_step db k None r'
    end).
  { intros k' NEW Hne. rewrite lookup_insert_ne by done.
    destruct (donations_table db !! k) as [r|] eqn:Hrow.
    - exists r. split; [done|constructor].
    - intros r'. discriminate. }
  destruct e as [user now name userType phone
                |user formData coordinates gen_random_uuid now
                |user now d donation
                |user now d]; cbn [app_step].
  - destruct (fetchProfile db (auth.id user) (auth.id user)); [by apply Hkept|].
    apply Hkept, createMissingProfile_donations.
  - destruct (behind_route_cases db user donor (λ _,
      fst (handleSubmit (Some user) formData coordinates db gen_random_uuid now)))
      as [[Hrole ->]| ->]; [|by apply Hkept].
    destruct (handleSubmit_donations user formData coordinates db gen_random_uuid now)
      as [->|(finalCoordinates & Hfree & ->)]; [by apply Hkept|].
    simpl. destruct (decide (gen_random_uuid = k)) as [->|Hne]; [|by apply Hother].
    rewrite Hfree. intros r'. rewrite lookup_insert_eq. intros [= <-].
    by constructor.
  - destruct (behind_route_cases db user shelter (λ profile,
      fst (acceptDonation (Some user) profile db now d donation)))
      as [[Hrole ->]| ->]; [|by apply Hkept].
    rewrite acceptDonation_by_shelter by done. cbn [fst].
    destruct (donations_table db !! d) as [OLD|] eqn:Hold; [|by apply Hkept].
    case_bool_decide as Hpending; [|by apply Hkept].
    simpl. destruct (decide (d = k)) as [->|Hne]; [|by apply Hother].
    rewrite Hold, lookup_insert_eq. eexists. split; [done|by constructor].
  - destruct (behind_route_cases db user volunteer (λ _,
      fst (completeDonation (Some user) db now d)))
      as [[Hrole ->]| ->]; [|by apply Hkept].
    rewrite completeDonation_by_volunteer by done. cbn [fst].
    destruct (donations_table db !! d) as [OLD|] eqn:Hold; [|by apply Hkept].
    case_bool_decide as Haccepted; [|by apply Hkept].
    simpl. destruct (decide (d = k)) as [->|Hne]; [|by apply Hother].
    rewrite Hold, lookup_insert_eq. eexists. split; [done|by constructor].
Qed.

Lemma app_step_profiles_new (db : Database) (e : Event) (k : uuid)
    (p : profiles.Row) :
  profiles_table (app_step db e) !! k = Some p →
  profiles_table db !! k = Some p
  ∨ (profiles_table db !! k = None ∧ profiles.id p = k).
Proof.
  destruct e as [user now name userType phone
                |user formData coordinates gen_random_uuid now
                |user now d donation
                |user now d]; cbn [app_step].
  - destruct (fetchProfile db (auth.id user) (auth.id user)); [by left|].
    unfold createMissingProfile, insert_profile_select_single.
    destruct (_ && _); [|by left]. simpl.
    destruct (profiles_table db !! auth.id user) eqn:Hfree; [by left|].
    simpl. destruct (decide (auth.id user = k)) as [<-|Hne].
    + rewrite lookup_insert_eq. intros [= <-]. by right.
    + rewrite lookup_insert_ne by done. by left.
  - destruct (behind_route_cases db user donor (λ _,
      fst (handleSubmit (Some user) formData coordinates db gen_random_uuid now)))
      as [[_ ->]| ->]; [|by left].
    rewrite handleSubmit_profiles. by left.
  - destruct (behind_route_cases db user shelter (λ profile,
      fst (acceptDonation (Some user) profile db now d donation)))
      as [[_ ->]| ->]; [|by left].
    rewrite acceptDonation_profiles. by left.
  - destruct (behind_route_cases db user volunteer (λ _,
      fst (completeDonation (Some user) db now d)))
      as [[_ ->]| ->]; [|by left].
    rewrite completeDonation_profiles. by left.
Qed.

Lemma has_role_role_of (db : Database) (user : auth.User) (t : UserType) :
  has_role db user t → role_of db (auth.id user) = Some t.
Proof.
  intros (p & Hp & <- & _)%has_role_lookup. unfold role_of. by rewrite Hp.
Qed.

Lemma role_of_app_step (db : Database) (e : Event) (id : uuid) (t : UserType) :
  role_of db id = Some t → role_of (app_step db e) id = Some t.
Proof.
  unfold role_of. destruct (profiles_table db !! id) as [p|] eqn:Hp; [|done].
  by rewrite (app_step_profiles db e id p Hp).
Qed.

Lemma bindings_follow_status_app_run (events : list Event) (k : uuid)
    (r : donations.Row) :
  donations_table (app_run events) !! k = Some r → bindings_follow_status r.
Proof.
  revert k r. unfold app_run.
  induction events as [|e events IH] using rev_ind; intros k r.
  - simpl. rewrite lookup_empty. discriminate.
  - rewrite foldl_app. simpl. intros Hrow.
    pose proof (app_step_pages (foldl app_step empty_database events) e k) as Hstep.
    assert (Hcases : ∃ o, page_step (foldl app_step empty_database events) k o r
                          ∧ ∀ OLD, o = Some OLD → bindings_follow_status OLD).
    { destruct (donations_table (foldl app_step empty_database events) !! k)
        as [OLD|] eqn:Hold.
      - destruct Hstep as (r' & Hr' & Hstep). rewrite Hr' in Hrow.
        injection Hrow as <-. exists (Some OLD). split; [done|].
        intros ? [= <-]. by eapply IH.
      - exists None. split; [by apply Hstep|]. intros ?. discriminate. }
    destruct Hcases as (o & Hstep' & Hold).
    inversion Hstep' as [r0|OLD user now Hp _|OLD user now Ha _|]; subst.
    + by apply Hold.
    + destruct (Hold OLD eq_refl) as (Hs & Hv & Hc).
      unfold bindings_follow_status. simpl.
      repeat split; try discriminate; try done;
        intros H'; apply Hv in H'; congruence.
    + destruct (Hold OLD eq_refl) as (Hs & Hv & Hc).
      unfold bindings_follow_status. simpl.
      repeat split; try discriminate; try done; try (by eexists);
        intros H'; apply Hs in H'; congruence.
    + unfold bindings_follow_status. simpl.
      repeat split; try discriminate; try done; by intros [? ?].
Qed.

(** X9.  In every database that the application can reach, a donation has no
    shelter exactly while it is pending, has a volunteer exactly when it is
    completed, and is never cancelled. *)
Theorem bindings_follow_status_reachable (events : list Event) (k : uuid)
    (r : donations.Row) :
  donations_table (app_run events) !! k = Some r →
  (donations.shelter_id r = None ↔ donations.status r = pending)
  ∧ (is_Some (donations.volunteer_id r) ↔ donations.status r = completed)
  ∧ donations.status r ≠ cancelled.
Proof. apply bindings_follow_status_app_run. Qed.

Lemma well_keyed_app_run (events : list Event) :
  well_keyed (app_run events)
  ∧ ∀ k r, donations_table (app_run events) !! k = Some r →
           parties_have_roles (app_run events) r.
Proof.
  unfold app_run.
  induction events as [|e events IH] using rev_ind.
  - split; [split|]; intros ? ?; simpl; rewrite lookup_empty; discriminate.
  - rewrite foldl_app. simpl.
    set (db := foldl app_step empty_database events) in *.
    destruct IH as [[Hprofiles Hdonations] Hparties].
    assert (Hkeep : ∀ r, parties_have_roles db r →
                         parties_have_roles (app_step db e) r).
    { intros r (Hd & Hs & Hv). repeat split.
      - by apply role_of_app_step.
      - intros s Hs'. by apply role_of_app_step, Hs.
      - intros v Hv'. by apply role_of_app_step, Hv. }
    assert (Hrows : ∀ k r, donations_table (app_step db e) !! k = Some r →
                           donations.id r = k ∧ parties_have_roles (app_step db e) r).
    { intros k r Hrow. pose proof (app_step_pages db e k) as Hstep.
      destruct (donations_table db !! k) as [OLD|] eqn:Hold.
      - destruct Hstep as (r' & Hr' & Hstep). rewrite Hr' in Hrow.
        injection Hrow as <-.
        pose proof (Hdonations k OLD Hold) as Hid.
        destruct (Hparties k OLD Hold) as (Hd & Hs & Hv).
        inversion Hstep as [r0|OLD0 user now Hp Hrole|OLD0 user now Ha Hrole|]; subst.
        + split; [done|]. by apply Hkeep.
        + split; [done|]. apply Hkeep. repeat split; simpl; [done| |done].
          intros s [= <-]. by apply has_role_role_of.
        + split; [done|]. apply Hkeep. repeat split; simpl; [done|done|].
          intros v [= <-]. by apply has_role_role_of.
      - specialize (Hstep r Hrow).
        inversion Hstep as [| | |now user formData finalCoordinates Hrole]; subst.
        split; [done|]. apply Hkeep. repeat split; simpl.
        + by apply has_role_role_of.
        + intros ?. discriminate.
        + intros ?. discriminate. }
    split; [split|].
    + intros k p Hp.
      destruct (app_step_profiles_new db e k p Hp) as [Hold|[_ Hid]]; [|done].
      by apply Hprofiles.
    + intros k r Hrow. by apply (Hrows k r).
    + intros k r Hrow. by apply (Hrows k r).
Qed.

(** X10.  In every database that the application can reach, rows are stored
    under their own [id], the donor of every donation has a donor profile,
    its shelter, if any, a shelter profile, and its volunteer, if any, a
    volunteer profile. *)
Theorem parties_have_roles_reachable (events : list Event) :
  well_keyed (app_run events)
  ∧ ∀ k r, donations_table (app_run events) !! k = Some r →
           parties_have_roles (app_run events) r.
Proof. apply well_keyed_app_run. Qed.

(** X11.  No step of the application rewrites what was posted: the id, the
    donor and the donor's name, the food, the quantity, the pickup location
    and coordinates, the notes and [created_at] of a stored donation stay as
    they are.  Once a donation is no longer pending its shelter and
    [accepted_at] stay as they are, and a completed donation does not change
    at all. *)
Theorem steps_keep_the_posting (db : Database) (e : Event) (k : uuid)
    (r : donations.Row) :
  donations_table db !! k = Some r →
  ∃ r', donations_table (app_step db e) !! k = Some r'
        ∧ same_posting r r'
        ∧ (donations.status r ≠ pending →
           donations.shelter_id r' = donations.shelter_id r
           ∧ donations.accepted_at r' = donations.accepted_at r)
        ∧ (donations.status r = completed → r' = r).
Proof.
  intros Hrow. pose proof (app_step_pages db e k) as Hstep.
  rewrite Hrow in Hstep. destruct Hstep as (r' & Hr' & Hstep).
  exists r'. split; [done|].
  inversion Hstep as [r0|OLD user now Hp _|OLD user now Ha _|]; subst.
  - by repeat split.
  - repeat split; congruence.
  - repeat split; congruence.
Qed.

(** ** Profiles through the context *)

(** X12.  When a signed-in user without a profile sets one up, the insert
    succeeds and the context holds the new profile: the user's id, the
    session's email or the empty text, the name and role as given, the phone
    or null when it is missing or empty.  [fetchProfile] then returns that
    profile; every other profile and every donation is untouched. *)
Theorem createMissingProfile_then_fetch (db : Database) (user : auth.User)
    (now : timestamptz) (name : string) (userType : UserType)
    (phone : option string) :
  profiles_table db !! auth.id user = None →
  ∃ db' p,
    createMissingProfile (Some user) db now name userType phone = (db', inr p)
    ∧ fetchProfile db' (auth.id user) (auth.id user) = Some p
    ∧ has_role db' user userType
    ∧ profiles.id p = auth.id user
    ∧ profiles.email p = default "" (auth.email user)
    ∧ profiles.name p = name
    ∧ profiles.phone p
      = match phone with
        | Some number => if bool_decide (number = "") then None else Some number
        | None => None
        end
    ∧ (∀ k, k ≠ auth.id user → profiles_table db' !! k = profiles_table db !! k)
    ∧ donations_table db' = donations_table db.
Proof.
  intros Hfree.
  unfold createMissingProfile, insert_profile_select_single,
    Users_can_create_own_profile, Users_can_read_own_profile.
  simpl. rewrite bool_decide_eq_true_2 by done. simpl. rewrite Hfree.
  eexists _, _. split; [reflexivity|].
  unfold has_role, fetchProfile. simpl. rewrite lookup_insert_eq.
  unfold Users_can_read_own_profile. simpl.
  rewrite bool_decide_eq_true_2 by done.
  repeat split; try done; try (by destruct phone).
  intros k Hne. by rewrite lookup_insert_ne.
Qed.

(** X13.  Setting up a profile fails and leaves the database as it is when
    nobody is signed in, and when the user already has a profile: the insert
    then violates the primary key. *)
Theorem createMissingProfile_failures (db : Database) (now : timestamptz)
    (name : string) (userType : UserType) (phone : option string) :
  createMissingProfile None db now name userType phone = (db, inl No_user_logged_in)
  ∧ ∀ user, is_Some (profiles_table db !! auth.id user) →
      createMissingProfile (Some user) db now name userType phone
      = (db, inl (Failed_to_create_profile unique_violation)).
Proof.
  split; [done|]. intros user [p Hp].
  unfold createMissingProfile, insert_profile_select_single,
    Users_can_create_own_profile, Users_can_read_own_profile.
  simpl. rewrite bool_decide_eq_true_2 by done. simpl. by rewrite Hp.
Qed.

(** X14.  [updateProfile] touches nothing but the caller's own profile: every
    other profile and every donation stays as it is.  An update that carries
    another id than the caller's is rejected by the policy and changes
    nothing; for a caller without a profile the update finds no row, no
    error is raised and the context's profile is null. *)
Theorem updateProfile_own_row_only (user : auth.User) (db : Database)
    (updates : profiles.Update) :
  (∀ k, k ≠ auth.id user →
        profiles_table (fst (updateProfile (Some user) db updates)) !! k
        = profiles_table db !! k)
  ∧ donations_table (fst (updateProfile (Some user) db updates)) = donations_table db
  ∧ (∀ id, profiles.id' updates = Some id → id ≠ auth.id user →
           is_Some (fetchProfile db (auth.id user) (auth.id user)) →
           updateProfile (Some user) db updates = (db, inl (thrown rls_violation)))
  ∧ (profiles_table db !! auth.id user = None →
     updateProfile (Some user) db updates = (db, inr None)).
Proof.
  unfold updateProfile, update_profiles_eq_id, fetchProfile,
    Users_can_update_own_profile_using, Users_can_update_own_profile_check,
    Users_can_read_own_profile.
  destruct (profiles_table db !! auth.id user) as [OLD|] eqn:Hold.
  - repeat split.
    + intros k Hne. repeat case_bool_decide; simpl; try done.
      by rewrite lookup_insert_ne.
    + repeat case_bool_decide; simpl; done.
    + intros id Hid Hne [p Hp].
      case_bool_decide as Hown; [|done]. simpl.
      rewrite bool_decide_eq_false_2; [done|].
      simpl. rewrite Hid. simpl. congruence.
    + discriminate.
  - repeat split; try done. simpl. by rewrite Hold.
Qed.

(** X15.  When the caller has a profile and the updates carry no other id,
    [updateProfile] succeeds, stores the profile with each carried field
    replaced (a carried null phone clears the phone) and every other field
    kept, and the context then holds exactly the stored profile. *)
Theorem updateProfile_then_context (user : auth.User) (db : Database)
    (updates : profiles.Update) (OLD : profiles.Row) :
  fetchProfile db (auth.id user) (auth.id user) = Some OLD →
  profiles.id' updates = None ∨ profiles.id' updates = Some (auth.id user) →
  let NEW := profiles.set updates OLD in
  updateProfile (Some user) db updates
  = (with_profiles db (<[auth.id user := NEW]> (profiles_table db)), inr (Some NEW))
  ∧ profiles.id NEW = auth.id user
  ∧ profiles.name NEW = default (profiles.name OLD) (profiles.name' updates)
  ∧ profiles.email NEW = default (profiles.email OLD) (profiles.email' updates)
  ∧ profiles.phone NEW = default (profiles.phone OLD) (profiles.phone' updates)
  ∧ profiles.user_type NEW
    = default (profiles.user_type OLD) (profiles.user_type' updates).
Proof.
  intros Hfetch Hid NEW.
  unfold fetchProfile, Users_can_read_own_profile in Hfetch.
  destruct (profiles_table db !! auth.id user) as [OLD'|] eqn:Hold; [|done].
  case_bool_decide as Hown; [|done]. injection Hfetch as ->.
  assert (Hnew : profiles.id NEW = auth.id user).
  { unfold NEW. simpl. destruct Hid as [-> | ->]; simpl; congruence. }
  split; [|done].
  unfold updateProfile, update_profiles_eq_id, fetchProfile,
    Users_can_update_own_profile_using, Users_can_update_own_profile_check,
    Users_can_read_own_profile.
  rewrite Hold. fold NEW.
  rewrite (bool_decide_eq_true_2 (auth.id user = profiles.id OLD)) by done.
  rewrite (bool_decide_eq_true_2 (auth.id user = profiles.id NEW)) by done.
  simpl. rewrite lookup_insert_eq.
  by rewrite (bool_decide_eq_true_2 (auth.id user = profiles.id NEW)).
Qed.

(** ** The Donate page *)

Lemma classifyFoodType_range (rawFoodInput : string) :
  classifyFoodType rawFoodInput
  ∈ [ "Prepared Meals"; "Bakery Items"; "Dairy Products"; "Fresh Produce";
      "Packaged Foods"; "Beverages"; "Other Food Items" ].
Proof.
  unfold classifyFoodType.
  repeat match goal with
         | |- context [if ?b then _ else _] => destruct b
         end; set_solver.
Qed.

(** X16.  Whatever text it is given, [classifyFoodType] answers with one of
    the options of the food type select, and never with "Canned Goods" or
    "Frozen Items".  So the AI Classify button keeps the select on one of its
    options. *)
Theorem classifyFoodType_is_an_option (rawFoodInput : string) :
  classifyFoodType rawFoodInput ∈ DonateSurplus.foodTypeOptions
  ∧ classifyFoodType rawFoodInput ≠ "Canned Goods"
  ∧ classifyFoodType rawFoodInput ≠ "Frozen Items".
Proof.
  pose proof (classifyFoodType_range rawFoodInput) as Hin.
  repeat (apply elem_of_cons in Hin as [-> | Hin];
          [split; [unfold DonateSurplus.foodTypeOptions; set_solver
                  |split; discriminate]|]).
  by apply elem_of_nil in Hin.
Qed.

(** X17.  Pressing AI Classify on an option of the select keeps six of the
    options and replaces the other three: "Canned Goods" by "Packaged
    Foods", "Bakery Items" and "Frozen Items" by "Other Food Items".  For any
    text, classifying changes nothing from the third time on. *)
Theorem classifyFoodType_on_options :
  (∀ option, option ∈ DonateSurplus.foodTypeOptions →
     classifyFoodType option
     = if bool_decide (option = "Canned Goods") then "Packaged Foods"
       else if bool_decide (option = "Bakery Items" ∨ option = "Frozen Items")
       then "Other Food Items"
       else option)
  ∧ ∀ rawFoodInput,
      classifyFoodType (classifyFoodType (classifyFoodType rawFoodInput))
      = classifyFoodType (classifyFoodType rawFoodInput).
Proof.
  split.
  - intros option Hin. unfold DonateSurplus.foodTypeOptions in Hin.
    repeat (apply elem_of_cons in Hin as [-> | Hin]; [vm_compute; reflexivity|]).
    by apply elem_of_nil in Hin.
  - intros rawFoodInput.
    pose proof (classifyFoodType_range rawFoodInput) as Hin.
    repeat (apply elem_of_cons in Hin as [-> | Hin]; [vm_compute; reflexivity|]).
    by apply elem_of_nil in Hin.
Qed.

Lemma handleSubmit_fresh (user : auth.User) (formData : FormData)
    (coordinates : option LatLng) (db : Database) (gen_random_uuid : uuid)
    (now : timestamptz) :
  donations_table db !! gen_random_uuid = None →
  let finalCoordinates :=
    match coordinates with
    | Some c => Some c
    | None => if truthy (form_pickup_location formData)
              then geocodeAddress (form_pickup_location formData) else None
    end in
  let data := inserted_donation gen_random_uuid now user formData finalCoordinates in
  handleSubmit (Some user) formData coordinates db gen_random_uuid now
  = (with_donations db (<[gen_random_uuid := data]> (donations_table db)),
     Some (success_modal data)).
Proof.
  intros Hfree finalCoordinates data.
  unfold handleSubmit, insert_donation_select_single.
  fold finalCoordinates. fold data.
  unfold Donors_can_create_donations, select_using, Donors_can_read_own_donations.
  simpl. rewrite bool_decide_eq_true_2 by done. simpl. by rewrite Hfree.
Qed.

Lemma mockSuggestions_not_empty (suggestion : string) :
  suggestion ∈ LocationPicker.mockSuggestions → suggestion ≠ "".
Proof.
  unfold LocationPicker.mockSuggestions. intros Hin.
  repeat (apply elem_of_cons in Hin as [-> | Hin]; [discriminate|]).
  by apply elem_of_nil in Hin.
Qed.

(** The state of the page that its actions keep: there are coordinates
    exactly when the form has a pickup location, and the picker only
    suggests addresses of its list. *)
Lemma DonateSurplus_step_keeps (user : option auth.User)
    (profile : option profiles.Row) (db : Database) (st : DonateSurplus.State)
    (a : DonateSurplus.Action) :
  (is_Some (DonateSurplus.coordinates st)
     ↔ form_pickup_location (DonateSurplus.formData st) ≠ "")
  ∧ LocationPicker.suggestions (DonateSurplus.picker st)
      ⊆ LocationPicker.mockSuggestions →
  let st' := snd (DonateSurplus.step user profile db st a) in
  (is_Some (DonateSurplus.coordinates st')
     ↔ form_pickup_location (DonateSurplus.formData st') ≠ "")
  ∧ LocationPicker.suggestions (DonateSurplus.picker st')
      ⊆ LocationPicker.mockSuggestions.
Proof.
  intros [Hcoords Hsuggestions].
  destruct a as [name value|value|index|latitude longitude| | | |gen_random_uuid now|];
    simpl.
  - by destruct name.
  - split; [done|]. unfold LocationPicker.handleAddressChange.
    case_bool_decide; simpl; [|done].
    etrans; [apply subseteq_take|]. intros s [_ Hin]%list_elem_of_filter. done.
  - destruct (LocationPicker.showSuggestions (DonateSurplus.picker st)); [|done].
    destruct (LocationPicker.suggestions (DonateSurplus.picker st) !! index)
      as [suggestion|] eqn:Hindex; [|done].
    simpl. split; [|done]. split; [|by eexists].
    intros _. apply mockSuggestions_not_empty, Hsuggestions.
    by eapply list_elem_of_lookup_2.
  - split; [|done]. split; [discriminate|by eexists].
  - done.
  - unfold LocationPicker.onFocus. by case_bool_decide.
  - unfold DonateSurplus.classifyFood.
    by destruct (truthy (form_food_type (DonateSurplus.formData st))).
  - unfold DonateSurplus.onSubmit.
    destruct (DonateSurplus.required_filled (DonateSurplus.formData st)); [|done].
    destruct (handleSubmit user (DonateSurplus.formData st)
                (DonateSurplus.coordinates st) db gen_random_uuid now)
      as [db' [[data|]|]]; simpl; try done;
      try (split; [split; [by intros [? ?]|done]|done]).
  - done.
Qed.

Lemma DonateSurplus_run_keeps (user : option auth.User)
    (profile : option profiles.Row) (actions : list DonateSurplus.Action) :
  ∀ db st,
    (is_Some (DonateSurplus.coordinates st)
       ↔ form_pickup_location (DonateSurplus.formData st) ≠ "")
    ∧ LocationPicker.suggestions (DonateSurplus.picker st)
        ⊆ LocationPicker.mockSuggestions →
    let st' :=
      snd (foldl (λ '(db, st) a, DonateSurplus.step user profile db st a)
             (db, st) actions) in
    (is_Some (DonateSurplus.coordinates st')
       ↔ form_pickup_location (DonateSurplus.formData st') ≠ "")
    ∧ LocationPicker.suggestions (DonateSurplus.picker st')
        ⊆ LocationPicker.mockSuggestions.
Proof.
  induction actions as [|a actions IH]; intros db st Hinv; [done|].
  simpl. destruct (DonateSurplus.step user profile db st a) as [db1 st1] eqn:Hstep.
  apply IH.
  pose proof (DonateSurplus_step_keeps user profile db st a Hinv) as Hkeeps.
  by rewrite Hstep in Hkeeps.
Qed.

(** X18.  On the Donate page there are coordinates exactly when the form has
    a pickup location, whatever the donor has done so far.  Hence the insert
    stores the coordinates that the page holds, and [handleSubmit] never
    reaches its call of [geocodeAddress]. *)
Theorem DonateSurplus_never_geocodes (user : auth.User)
    (profile : option profiles.Row) (db : Database)
    (actions : list DonateSurplus.Action) :
  let st := snd (DonateSurplus.run (Some user) profile db actions) in
  (is_Some (DonateSurplus.coordinates st)
     ↔ form_pickup_location (DonateSurplus.formData st) ≠ "")
  ∧ ∀ db1 gen_random_uuid now db2 data,
      handleSubmit (Some user) (DonateSurplus.formData st)
        (DonateSurplus.coordinates st) db1 gen_random_uuid now
        = (db2, Some (success_modal data)) →
      donations.pickup_coordinates data = DonateSurplus.coordinates st
      ∧ (donations.pickup_coordinates data = None
         ↔ donations.pickup_location data = "").
Proof.
  intros st.
  assert (Hinv : is_Some (DonateSurplus.coordinates st)
                 ↔ form_pickup_location (DonateSurplus.formData st) ≠ "").
  { apply (DonateSurplus_run_keeps (Some user) profile actions db
             (DonateSurplus.initial profile)).
    simpl. split; [|by intros ? ?%elem_of_nil]. split; [by intros [? ?]|done]. }
  split; [done|].
  intros db1 gen_random_uuid now db2 data Hsubmit.
  apply handleSubmit_success in Hsubmit as (final & Hfinal & -> & _ & _).
  simpl.
  assert (Hsame : final = DonateSurplus.coordinates st).
  { rewrite Hfinal. destruct (DonateSurplus.coordinates st) as [c|] eqn:Hc; [done|].
    unfold truthy. rewrite bool_decide_eq_true_2; [done|].
    destruct (decide (form_pickup_location (DonateSurplus.formData st) = ""))
      as [|Hne]; [done|]. apply Hinv in Hne. by destruct Hne. }
  split; [done|]. rewrite Hsame. split.
  - intros Hnone. destruct (decide (form_pickup_location (DonateSurplus.formData st) = ""))
      as [|Hne]; [done|]. apply Hinv in Hne. rewrite Hnone in Hne. by destruct Hne.
  - intros Hempty. destruct (DonateSurplus.coordinates st) as [c|] eqn:Hc; [|done].
    assert (is_Some (Some c)) as Hsome by (by eexists).
    apply Hinv in Hsome. done.
Qed.

(** X19.  Whichever suggestion the donor clicks, the page holds that address
    with the coordinates of New York.  A submit that follows (required
    fields filled, generated id free) stores the donation with that address
    and those coordinates, whatever city the address names, then clears the
    form and the coordinates while the picker goes on showing the
    address. *)
Theorem suggestion_is_stored_in_New_York (user : auth.User)
    (profile : option profiles.Row) (db : Database) (st : DonateSurplus.State)
    (index : nat) (suggestion : string) (gen_random_uuid : uuid)
    (now : timestamptz) :
  LocationPicker.showSuggestions (DonateSurplus.picker st) = true →
  LocationPicker.suggestions (DonateSurplus.picker st) !! index = Some suggestion →
  DonateSurplus.required_filled (DonateSurplus.formData st) = true →
  donations_table db !! gen_random_uuid = None →
  let New_York := {| lat := 40.7128; lng := -74.0060 |}%Q in
  let st1 := snd (DonateSurplus.step (Some user) profile db st
                    (DonateSurplus.click_suggestion index)) in
  let '(db2, st2) := DonateSurplus.step (Some user) profile db st1
                       (DonateSurplus.submit gen_random_uuid now) in
  form_pickup_location (DonateSurplus.formData st1) = suggestion
  ∧ DonateSurplus.coordinates st1 = Some New_York
  ∧ (∃ data, donations_table db2 !! gen_random_uuid = Some data
             ∧ DonateSurplus.submittedDonation st2 = Some data
             ∧ donations.pickup_location data = suggestion
             ∧ donations.pickup_coordinates data = Some New_York)
  ∧ DonateSurplus.formData st2 = DonateSurplus.blank_form profile
  ∧ DonateSurplus.coordinates st2 = None
  ∧ LocationPicker.address (DonateSurplus.picker st2) = suggestion.
Proof.
  intros Hshow Hindex Hfilled Hfree New_York st1.
  assert (Hst1 : st1 = DonateSurplus.handleLocationSelect suggestion (Some New_York)
                         (DonateSurplus.with_picker
                            (fst (LocationPicker.selectSuggestion suggestion
                                    (DonateSurplus.picker st))) st)).
  { unfold st1. simpl. by rewrite Hshow, Hindex. }
  assert (Hfilled1 : DonateSurplus.required_filled (DonateSurplus.formData st1) = true).
  { by rewrite Hst1. }
  cbn [DonateSurplus.step]. unfold DonateSurplus.onSubmit.
  rewrite Hfilled1, handleSubmit_fresh by done.
  rewrite Hst1. simpl. rewrite lookup_insert_eq.
  repeat split; try done. by eexists.
Qed.

(** X20.  As long as the donor neither clicks a suggestion nor reads the
    current location, the form has no pickup location and the page no
    coordinates, whatever is typed into the picker.  A submit then stores the
    donation with an empty pickup location and without coordinates. *)
Theorem typed_address_is_not_stored (user : auth.User)
    (profile : option profiles.Row) (db : Database)
    (actions : list DonateSurplus.Action) :
  Forall no_selection actions →
  let st := snd (DonateSurplus.run (Some user) profile db actions) in
  form_pickup_location (DonateSurplus.formData st) = ""
  ∧ DonateSurplus.coordinates st = None
  ∧ ∀ db1 gen_random_uuid now,
      donations_table db1 !! gen_random_uuid = None →
      DonateSurplus.required_filled (DonateSurplus.formData st) = true →
      ∃ data,
        donations_table
          (fst (DonateSurplus.step (Some user) profile db1 st
                  (DonateSurplus.submit gen_random_uuid now)))
          !! gen_random_uuid = Some data
        ∧ donations.pickup_location data = ""
        ∧ donations.pickup_coordinates data = None.
Proof.
  intros Hactions st.
  assert (Hkeeps : ∀ db0 st0,
            form_pickup_location (DonateSurplus.formData st0) = ""
            ∧ DonateSurplus.coordinates st0 = None →
            let st' := snd (foldl (λ '(db, st) a,
                                     DonateSurplus.step (Some user) profile db st a)
                              (db0, st0) actions) in
            form_pickup_location (DonateSurplus.formData st') = ""
            ∧ DonateSurplus.coordinates st' = None).
  { induction Hactions as [|a actions Ha _ IH]; intros db0 st0 Hinv; [done|].
    simpl.
    destruct (DonateSurplus.step (Some user) profile db0 st0 a) as [db1 st1] eqn:Hstep.
    apply IH. destruct Hinv as [Hloc Hcoords].
    destruct a as [name value|value|index|latitude longitude| | |
                  |gen_random_uuid now|]; simpl in Hstep.
    - injection Hstep as <- <-. by destruct name.
    - by injection Hstep as <- <-.
    - destruct Ha.
    - destruct Ha.
    - by injection Hstep as <- <-.
    - by injection Hstep as <- <-.
    - injection Hstep as <- <-. unfold DonateSurplus.classifyFood.
      by destruct (truthy (form_food_type (DonateSurplus.formData st0))).
    - unfold DonateSurplus.onSubmit in Hstep.
      destruct (DonateSurplus.required_filled (DonateSurplus.formData st0));
        [|by injection Hstep as <- <-].
      destruct (handleSubmit (Some user) (DonateSurplus.formData st0)
                  (DonateSurplus.coordinates st0) db0 gen_random_uuid now)
        as [db' [[data|]|]]; by injection Hstep as <- <-.
    - by injection Hstep as <- <-. }
  destruct (Hkeeps db (DonateSurplus.initial profile)) as [Hloc Hcoords]; [done|].
  fold (DonateSurplus.run (Some user) profile db actions) in Hloc, Hcoords.
  fold st in Hloc, Hcoords.
  split; [done|]. split; [done|].
  intros db1 gen_random_uuid now Hfree Hfilled.
  cbn [DonateSurplus.step]. unfold DonateSurplus.onSubmit.
  rewrite Hfilled, handleSubmit_fresh by done.
  simpl. rewrite lookup_insert_eq. eexists. split; [done|].
  simpl. rewrite Hloc, Hcoords. done.
Qed.

(** ** The bell *)

Lemma markAsRead_cons (id : string) (n : Notification.t)
    (notifications : list Notification.t) :
  markAsRead id (n :: notifications)
  = (if bool_decide (Notification.id n = id) then Notification.mark_read n else n)
      :: markAsRead id notifications.
Proof. reflexivity. Qed.

Lemma unreadCount_cons (n : Notification.t) (notifications : list Notification.t) :
  unreadCount (n :: notifications)
  = ((if Notification.read n then 0 else 1) + unreadCount notifications)%nat.
Proof.
  unfold unreadCount. rewrite filter_cons.
  destruct (decide (Notification.read n = false)) as [->|Hread]; [done|].
  by destruct (Notification.read n).
Qed.

Lemma clearNotification_cons (id : string) (n : Notification.t)
    (notifications : list Notification.t) :
  clearNotification id (n :: notifications)
  = if bool_decide (Notification.id n = id) then clearNotification id notifications
    else n :: clearNotification id notifications.
Proof.
  unfold clearNotification. rewrite filter_cons.
  case_bool_decide; [by rewrite decide_False by tauto|by rewrite decide_True].
Qed.

(** X21.  [markAsRead] keeps the list's length, order and ids and marks
    every entry that carries the id, however many there are: afterwards no
    unread entry has that id and entries with other ids are as before.  The
    unread count becomes the one that clearing the id would give, and a
    second call changes nothing. *)
Theorem markAsRead_marks_every_copy (id : string)
    (notifications : list Notification.t) :
  let marked := markAsRead id notifications in
  List.length marked = List.length notifications
  ∧ Notification.id <$> marked = Notification.id <$> notifications
  ∧ (∀ n, n ∈ marked → Notification.id n = id → Notification.read n = true)
  ∧ (∀ i n, notifications !! i = Some n → Notification.id n ≠ id →
            marked !! i = Some n)
  ∧ unreadCount marked = unreadCount (clearNotification id notifications)
  ∧ (unreadCount marked ≤ unreadCount notifications)%nat
  ∧ markAsRead id marked = marked.
Proof.
  cbv zeta.
  induction notifications as [|n l IH].
  - repeat split; try done. by intros ? ?%elem_of_nil.
  - destruct IH as (Hlen & Hids & Hread & Hother & Hcount & Hle & Hidem).
    rewrite markAsRead_cons, clearNotification_cons.
    repeat split.
    + simpl. by rewrite Hlen.
    + rewrite !fmap_cons, Hids. f_equal. by case_bool_decide.
    + intros n' [->|Hin]%elem_of_cons Hid; [|by apply Hread].
      by case_bool_decide.
    + intros [|i] n' Hn' Hid; simpl in *; [|by apply Hother].
      injection Hn' as ->. by rewrite bool_decide_eq_false_2.
    + case_bool_decide as Hid.
      * rewrite unreadCount_cons. simpl. by rewrite Hcount.
      * rewrite !unreadCount_cons. by rewrite Hcount.
    + rewrite !unreadCount_cons. case_bool_decide as Hid; simpl.
      * destruct (Notification.read n); lia.
      * lia.
    + rewrite markAsRead_cons, Hidem. f_equal.
      destruct (decide (Notification.id n = id)) as [Hid|Hid].
      * rewrite (bool_decide_eq_true_2 _ Hid). simpl.
        by rewrite (bool_decide_eq_true_2 _ Hid).
      * by rewrite !(bool_decide_eq_false_2 _ Hid).
Qed.

Lemma unreadCount_le_length (notifications : list Notification.t) :
  (unreadCount notifications ≤ List.length notifications)%nat.
Proof. apply length_filter. Qed.

(** X22.  On the bell of a mounted NotificationSystem the unread count never
    exceeds 10.  There is no badge exactly when nothing is unread; the badge
    reads "9+" exactly when ten notifications are unread, and otherwise shows
    the count, which is between 1 and 9. *)
Theorem badge_of_the_bell (actions : list Action) :
  let notifications := notifications_run actions in
  (unreadCount notifications ≤ 10)%nat
  ∧ (badge notifications = None ↔ unreadCount notifications = 0%nat)
  ∧ (badge notifications = Some "9+" ↔ unreadCount notifications = 10%nat)
  ∧ (badge notifications ≠ None → badge notifications ≠ Some "9+" →
     badge notifications = Some (pretty (unreadCount notifications))
     ∧ (1 ≤ unreadCount notifications ≤ 9)%nat).
Proof.
  intros notifications.
  assert (Hlen : (List.length notifications ≤ 10)%nat).
  { apply notifications_foldl_length. simpl. lia. }
  pose proof (unreadCount_le_length notifications) as Hle.
  assert (Hcount : (unreadCount notifications ≤ 10)%nat) by lia.
  split; [done|]. unfold badge.
  assert (Hdigits : ∀ n, (1 ≤ n ≤ 9)%nat → pretty n ≠ "9+").
  { intros n Hn.
    assert (n = 1 ∨ n = 2 ∨ n = 3 ∨ n = 4 ∨ n = 5 ∨ n = 6 ∨ n = 7 ∨ n = 8 ∨ n = 9)%nat
      as Hcases by lia.
    repeat (destruct Hcases as [->|Hcases]; [by vm_compute|]).
    subst. by vm_compute. }
  repeat case_bool_decide; repeat split; try done; try lia;
    try (intros ?; lia); try (intros [= ?]; lia).
  intros [= Heq]. exfalso. eapply (Hdigits (unreadCount notifications)); [lia|done].
Qed.

(** ** Navigation and routes *)

(** X23.  For a signed-in user with a profile, the navigation bar shows two
    links, the Dashboard and the page of the user's role.  With a router
    that, among the paths of the routes, matches a path to itself and to no
    other, every link of the bar leads to a page of the application, and the
    locations of the pages of the two other roles redirect to the
    Dashboard. *)
Theorem navigation_matches_routes (matchPath : string → string → bool)
    (user : auth.User) (profile : profiles.Row) :
  App.keeps_apart matchPath →
  List.length (Layout.navigation (Some profile)) = 2%nat
  ∧ (∀ location,
       location ∈ Layout.href <$> Layout.navigation (Some profile) →
       ∃ p, App.AppContent matchPath false (Some user) (Some profile) location
            = App.page p)
  ∧ (∀ location,
       location ∈ ["/donate"; "/requests"; "/pickups"] →
       location ∉ Layout.href <$> Layout.navigation (Some profile) →
       App.AppContent matchPath false (Some user) (Some profile) location
       = App.redirect "/").
Proof.
  intros Hmatch.
  assert (Hroutes : ∀ profile' location, location ∈ App.paths →
    App.Routes matchPath false (Some user) profile' location
    = App.Routes (λ path location', bool_decide (path = location'))
        false (Some user) profile' location).
  { intros profile' location Hlocation. unfold App.Routes.
    rewrite !Hmatch by (assumption || (unfold App.paths; repeat constructor)).
    done. }
  unfold Layout.navigation, App.AppContent.
  destruct profile as [? ? ? role ? ?]; simpl.
  destruct role; simpl; (split; [done|split]); intros location.
  all: rewrite ?elem_of_cons, ?elem_of_nil.
  all: try (intros [->|[->|[]]];
            (rewrite Hroutes by (unfold App.paths; repeat constructor));
            eexists; reflexivity).
  all: intros [->|[->|[->|[]]]] Hnot;
       (rewrite Hroutes by (unfold App.paths; repeat constructor));
       try reflexivity; exfalso; apply Hnot; tauto.
Qed.

(** ** Time since the Accept *)

(** X24.  [getTimeSinceAccepted] shows nothing for a donation without
    [accepted_at]; "Just accepted" when less than an hour has passed, also
    when [accepted_at] lies in the future; the full hours, from 1 to 23,
    below a day; and from then on the full days, which is the hours divided
    by 24 and rounded down. *)
Theorem getTimeSinceAccepted_ranges (now accepted_at : Z) :
  let passed := (now - accepted_at)%Z in
  getTimeSinceAccepted now None = ""
  ∧ ((passed < 3600000)%Z →
     getTimeSinceAccepted now (Some accepted_at) = "Just accepted")
  ∧ ((3600000 ≤ passed < 86400000)%Z →
     getTimeSinceAccepted now (Some accepted_at)
       = pretty (passed `div` 3600000)%Z ++ "h ago"
     ∧ (1 ≤ passed `div` 3600000 ≤ 23)%Z)
  ∧ ((86400000 ≤ passed)%Z →
     getTimeSinceAccepted now (Some accepted_at)
       = pretty (passed `div` 86400000)%Z ++ "d ago"
     ∧ (1 ≤ passed `div` 86400000)%Z).
Proof.
  intros passed. unfold getTimeSinceAccepted. fold passed.
  change (1000 * 60 * 60)%Z with 3600000%Z.
  assert (Hdays : ((passed `div` 3600000) `div` 24 = passed `div` 86400000)%Z).
  { rewrite Z.div_div by lia. done. }
  repeat split.
  - intros Hlt. rewrite bool_decide_eq_true_2; [done|].
    apply Z.div_lt_upper_bound; lia.
  - rewrite bool_decide_eq_false_2 by (apply Z.le_ngt, Z.div_le_lower_bound; lia).
    rewrite bool_decide_eq_true_2; [done|]. apply Z.div_lt_upper_bound; lia.
  - apply Z.div_le_lower_bound; lia.
  - assert (passed `div` 3600000 < 24)%Z by (apply Z.div_lt_upper_bound; lia). lia.
  - rewrite bool_decide_eq_false_2 by (apply Z.le_ngt, Z.div_le_lower_bound; lia).
    rewrite bool_decide_eq_false_2 by (apply Z.le_ngt, Z.div_le_lower_bound; lia).
    by rewrite Hdays.
  - apply Z.div_le_lower_bound; lia.
Qed.

(** ** The Dashboard *)

Lemma length_by_status (l : list donations.Row) :
  Forall (λ d, donations.status d ≠ cancelled) l →
  List.length l
  = (List.length (filter (λ d, donations.status d = pending
                               ∨ donations.status d = accepted) l)
     + List.length (filter (λ d, donations.status d = completed) l))%nat.
Proof.
  induction 1 as [|d l Hd _ IH]; [done|].
  rewrite !filter_cons. simpl. rewrite IH.
  destruct (donations.status d) eqn:Hst; try done;
    repeat (case_decide; simpl); try lia; exfalso; intuition congruence.
Qed.

Lemma filter_own_visible (db : Database) (uid : uuid) (l : list donations.Row) :
  filter (λ d, donations.donor_id d = uid)
    (filter (λ r, select_using (profiles_table db) uid r = true) l)
  = filter (λ d, donations.donor_id d = uid) l.
Proof.
  induction l as [|r l IH]; [done|].
  rewrite !filter_cons.
  destruct (decide (donations.donor_id r = uid)) as [Hown|Hown].
  - rewrite decide_True.
    + rewrite filter_cons, decide_True by done. by rewrite IH.
    + unfold select_using, Donors_can_read_own_donations.
      by rewrite bool_decide_eq_true_2.
  - destruct (decide (select_using (profiles_table db) uid r = true)); [|done].
    by rewrite filter_cons, decide_False.
Qed.

(** X25.  On the Dashboard of a signed-in user, in every database that the
    application can reach, the total is the sum of the active and the
    completed donations that the user may read, and the donor's tile "My
    Donations" counts every stored donation of the user: the policies hide
    none of them. *)
Theorem dashboard_counts (events : list Event) (user : auth.User)
    (profile : profiles.Row) :
  profiles.id profile = auth.id user →
  let db := app_run events in
  let stats := Dashboard.fetchDashboardData_stats db user (Some profile) in
  Dashboard.totalDonations stats
  = (Dashboard.activeDonations stats + Dashboard.completedDonations stats)%nat
  ∧ Dashboard.userDonations stats
    = List.length (filter (λ d, donations.donor_id d = auth.id user)
                     ((map_to_list (donations_table db)).*2))
  ∧ (Dashboard.userDonations stats ≤ Dashboard.totalDonations stats)%nat.
Proof.
  intros Hid db stats. unfold stats, Dashboard.fetchDashboardData_stats. simpl.
  rewrite Hid.
  assert (Hown : filter (λ d, donations.donor_id d = auth.id user)
                   (select_donations db (auth.id user))
                 = filter (λ d, donations.donor_id d = auth.id user)
                     ((map_to_list (donations_table db)).*2)).
  { apply filter_own_visible. }
  repeat split.
  - apply length_by_status. apply Forall_forall. intros d Hd.
    apply elem_of_select_donations in Hd as [[k Hk] _].
    by apply (bindings_follow_status_app_run events k d).
  - by rewrite Hown.
  - apply length_filter.
Qed.

(** ** What the policies refuse *)

(** X26.  In every database that the application can reach, a session reads
    its own profile and no other: [fetchProfile] for another user's id
    returns nothing, and for the own id the stored profile. *)
Theorem fetchProfile_own_only (events : list Event) (uid userId : uuid) :
  (uid ≠ userId → fetchProfile (app_run events) uid userId = None)
  ∧ fetchProfile (app_run events) uid uid = profiles_table (app_run events) !! uid.
Proof.
  destruct (well_keyed_app_run events) as [[Hkeys _] _].
  unfold fetchProfile, Users_can_read_own_profile. split.
  - intros Hne.
    destruct (profiles_table (app_run events) !! userId) as [p|] eqn:Hp; [|done].
    rewrite bool_decide_eq_false_2; [done|]. rewrite (Hkeys userId p Hp). done.
  - destruct (profiles_table (app_run events) !! uid) as [p|] eqn:Hp; [|done].
    rewrite bool_decide_eq_true_2; [done|]. by rewrite (Hkeys uid p Hp).
Qed.

(** X27.  Nobody can insert a donation in another user's name: the policy
    rejects the row and the database stays as it is.  The insert of the
    Donate page, which carries the user's own id, is never rejected by the
    policies; it fails only when the generated id is taken, and then changes
    nothing. *)
Theorem insert_only_in_own_name (db : Database) (user : auth.User)
    (formData : FormData) (coordinates : option LatLng)
    (gen_random_uuid : uuid) (now : timestamptz) :
  (∀ NEW, donations.donor_id NEW ≠ auth.id user →
          insert_donation_select_single db (auth.id user) NEW = (db, inl rls_violation))
  ∧ (snd (handleSubmit (Some user) formData coordinates db gen_random_uuid now)
       = Some submit_failed_alert
     ↔ is_Some (donations_table db !! gen_random_uuid))
  ∧ (is_Some (donations_table db !! gen_random_uuid) →
     fst (handleSubmit (Some user) formData coordinates db gen_random_uuid now) = db).
Proof.
  split; [|split].
  - intros NEW Hne. unfold insert_donation_select_single, Donors_can_create_donations.
    rewrite bool_decide_eq_false_2 by congruence. done.
  - destruct (donations_table db !! gen_random_uuid) as [r|] eqn:Hrow.
    + split; [by eexists|]. intros _.
      unfold handleSubmit, insert_donation_select_single,
        Donors_can_create_donations, select_using, Donors_can_read_own_donations.
      simpl. rewrite bool_decide_eq_true_2 by done. simpl. by rewrite Hrow.
    + rewrite handleSubmit_fresh by done. simpl.
      split; [discriminate|]. by intros [? ?].
  - intros [r Hrow].
    unfold handleSubmit, insert_donation_select_single,
      Donors_can_create_donations, select_using, Donors_can_read_own_donations.
    simpl. rewrite bool_decide_eq_true_2 by done. simpl. by rewrite Hrow.
Qed.

(** ** The sections of My Pickups *)

Lemma StronglySorted_filter_list {A} (R : relation A) (P : A → Prop)
    `{∀ x, Decision (P x)} (l : list A) :
  StronglySorted R l → StronglySorted R (filter P l).
Proof.
  induction 1 as [|x l Hl IH Hx]; [constructor|].
  rewrite filter_cons. case_decide; [|done].
  constructor; [done|]. apply Forall_forall. intros y [_ Hy]%list_elem_of_filter.
  rewrite Forall_forall in Hx. by apply Hx.
Qed.

(** X28.  Once a volunteer's Complete has taken an accepted donation, every
    volunteer who fetches the list finds it among the completed donations,
    and no donation stored under its id is left in "Ready for Pickup". *)
Theorem completed_moves_between_sections (db : Database) (donationId : uuid)
    (OLD : donations.Row) (user : auth.User) (now : timestamptz) :
  donations_table db !! donationId = Some OLD →
  donations.status OLD = accepted →
  has_role db user volunteer →
  let db1 := fst (completeDonation (Some user) db now donationId) in
  let NEW := donations.with_completed_at now
               (donations.set (complete_values user) OLD) in
  ∀ volunteer', has_role db volunteer' volunteer →
    NEW ∈ fetchAcceptedDonations db1 volunteer'
    ∧ donations.status NEW = completed
    ∧ ∀ r, r ∈ acceptedDonations (fetchAcceptedDonations db1 volunteer') →
           donations_table db1 !! donationId ≠ Some r.
Proof.
  intros Hrow Haccepted Hrole db1 NEW volunteer' Hv.
  assert (Hdb1 : db1 = with_donations db (<[donationId := NEW]> (donations_table db))).
  { unfold db1. rewrite completeDonation_by_volunteer by done.
    rewrite Hrow. by rewrite bool_decide_eq_true_2. }
  assert (Hnew : donations_table db1 !! donationId = Some NEW).
  { rewrite Hdb1. apply lookup_insert_eq. }
  split; [|split; [done|]].
  - rewrite elem_of_fetchAcceptedDonations.
    split; [by exists donationId|]. split; [by right|]. left.
    rewrite Hdb1. apply (has_role_role_of db volunteer' volunteer Hv).
  - intros r [Hst _]%list_elem_of_filter. rewrite Hnew. intros [= <-].
    discriminate.
Qed.

(** X29.  "Recently Completed" shows at most six donations, all completed
    and from the fetched list, newest first; a completed donation of the
    list that it leaves out is not newer than any that it shows. *)
Theorem recentlyCompleted_newest_six (db : Database) (user : auth.User) :
  let fetched := fetchAcceptedDonations db user in
  let shown := recentlyCompleted fetched in
  (List.length shown ≤ 6)%nat
  ∧ StronglySorted newest_first shown
  ∧ (∀ r, r ∈ shown → r ∈ fetched ∧ donations.status r = completed)
  ∧ (∀ i r, filter (λ d, donations.status d = completed) fetched !! i = Some r →
            (6 ≤ i)%nat →
            ∀ r', r' ∈ shown → newest_first r' r).
Proof.
  intros fetched shown. unfold shown, recentlyCompleted.
  set (completed' := filter (λ d, donations.status d = completed) fetched).
  assert (Hsorted : StronglySorted newest_first completed').
  { apply StronglySorted_filter_list.
    apply StronglySorted_merge_sort; apply _. }
  rewrite <- (take_drop 6 completed') in Hsorted.
  apply StronglySorted_app in Hsorted as (Hacross & Htake & _).
  repeat split.
  - rewrite length_take. lia.
  - done.
  - apply subseteq_take in H. by apply list_elem_of_filter in H as [_ ?].
  - apply subseteq_take in H. by apply list_elem_of_filter in H as [? _].
  - intros i r Hi Hge r' Hr'. apply Hacross; [done|].
    apply list_elem_of_lookup. exists (i - 6)%nat.
    rewrite lookup_drop. by replace (6 + (i - 6))%nat with i by lia.
Qed.

(** * The further statements at work on the example run *)

(** X3 at work: after Sam's Accept, Dora's donation is in no pending list
    and in the pickup lists of the volunteers and of Sam. *)
Lemma accepted_moves_between_lists_witness :
  let db1 := fst (acceptDonation (Some Example.Sam)
                    (fetchProfile Example.posted "u-sam" "u-sam")
                    Example.posted 20 "don-1" Example.listed) in
  (∀ user' r, r ∈ fetchPendingDonations db1 user'
              ↔ ∃ k, k ≠ "don-1" ∧ donations_table Example.posted !! k = Some r
                     ∧ donations.status r = pending)
  ∧ (∀ volunteer', has_role Example.posted volunteer' volunteer →
                   Example.claimed ∈ fetchAcceptedDonations db1 volunteer')
  ∧ Example.claimed ∈ fetchAcceptedDonations db1 Example.Sam.
Proof.
  apply (accepted_moves_between_lists Example.posted "don-1" Example.listed
           Example.listed Example.Sam 20).
  - vm_compute; reflexivity.
  - reflexivity.
  - vm_compute; reflexivity.
Defined.

(** X4 at work: Dora, a donor, sends the update of Accept; she sees the
    success alert and the database is as it was. *)
Lemma acceptDonation_never_rejected_witness :
  snd (acceptDonation (Some Example.Dora) (Some Example.Dora_profile)
         Example.posted 20 "don-1" Example.listed)
  = Some (accepted_alert Example.listed)
  ∧ ¬ (fst (acceptDonation (Some Example.Dora) (Some Example.Dora_profile)
              Example.posted 20 "don-1" Example.listed) ≠ Example.posted).
Proof.
  destruct (acceptDonation_never_rejected Example.posted Example.Dora
              Example.Dora_profile 20 "don-1" Example.listed) as [Halert Hchange].
  split; [exact Halert|].
  intros Hne. destruct (Hchange Hne) as (OLD & _ & [[_ Hrole]|[_ Hrole]]);
    vm_compute in Hrole; discriminate.
Defined.

(** X5 at work: Vic, a volunteer, sends the update of Accept to the donation
    that Sam has accepted. *)
Lemma accept_by_volunteer_rebinds_witness :
  let NEW := donations.set (accept_values Example.Vic) Example.claimed in
  acceptDonation (Some Example.Vic) (fetchProfile Example.taken "u-vic" "u-vic")
    Example.taken 25 "don-1" Example.listed
  = (with_donations Example.taken (<["don-1" := NEW]> (donations_table Example.taken)),
     Some (accepted_alert Example.listed))
  ∧ donations.status NEW = accepted
  ∧ donations.shelter_id NEW = Some "u-vic"
  ∧ donations.accepted_at NEW = Some 20%Z.
Proof.
  apply (accept_by_volunteer_rebinds Example.taken "don-1" Example.listed
           Example.claimed Example.Vic 25).
  - vm_compute; reflexivity.
  - reflexivity.
  - vm_compute; reflexivity.
Defined.

(** X6 at work: Sue, a shelter, calls Complete on Dora's pending donation,
    sees the failure alert and leaves the database as it was. *)
Lemma completeDonation_rejected_iff_witness :
  snd (completeDonation (Some Example.Sue) Example.posted 30 "don-1")
  = Some complete_failed_alert
  ∧ fst (completeDonation (Some Example.Sue) Example.posted 30 "don-1")
    = Example.posted.
Proof.
  destruct (completeDonation_rejected_iff Example.posted Example.Sue 30 "don-1")
    as (Hiff & Hsame & _).
  assert (Halert : snd (completeDonation (Some Example.Sue) Example.posted 30 "don-1")
                   = Some complete_failed_alert).
  { apply Hiff. exists Example.listed.
    repeat split; try (vm_compute; reflexivity); vm_compute; discriminate. }
  split; [exact Halert|exact (Hsame Halert)].
Defined.

(** X7 at work: Sam, a shelter, has posted a donation and completes it. *)
Lemma complete_by_donor_shelter_witness :
  let NEW := donations.set (complete_values Example.Sam) Example2.listed9 in
  completeDonation (Some Example.Sam) Example2.posted_by_Sam 50 "don-9"
  = (with_donations Example2.posted_by_Sam
       (<["don-9" := NEW]> (donations_table Example2.posted_by_Sam)),
     Some completed_alert)
  ∧ donations.status NEW = completed
  ∧ donations.accepted_at NEW = None
  ∧ donations.completed_at NEW = None.
Proof.
  apply (complete_by_donor_shelter Example2.posted_by_Sam "don-9" Example2.listed9
           Example.Sam 50).
  - vm_compute; reflexivity.
  - reflexivity.
  - vm_compute; reflexivity.
  - reflexivity.
Defined.

(** X8 at work: Vic, Val and Vic again call Complete on the donation that
    Sam has accepted; Vic's first call wins. *)
Lemma complete_single_winner_witness :
  let NEW := donations.with_completed_at 30
               (donations.set (complete_values Example.Vic) Example.claimed) in
  let db1 := with_donations Example2.with_Val
               (<["don-1" := NEW]> (donations_table Example2.with_Val)) in
  complete_calls Example2.with_Val "don-1"
    [(Example.Vic, 30%Z); (Example2.Val, 35%Z); (Example.Vic, 40%Z)]
  = (db1, (λ _, Some completed_alert)
            <$> [(Example.Vic, 30%Z); (Example2.Val, 35%Z); (Example.Vic, 40%Z)])
  ∧ donations.volunteer_id NEW = Some "u-vic"
  ∧ donations.completed_at NEW = Some 30%Z.
Proof.
  assert (H1 : donations_table Example2.with_Val !! "don-1" = Some Example.claimed)
    by (vm_compute; reflexivity).
  assert (H2 : donations.status Example.claimed = accepted) by reflexivity.
  assert (H3 : has_role Example2.with_Val Example.Vic volunteer)
    by (vm_compute; reflexivity).
  assert (H4 : Forall (λ call, has_role Example2.with_Val call.1 volunteer)
                 [(Example2.Val, 35%Z); (Example.Vic, 40%Z)]).
  { repeat constructor; vm_compute; reflexivity. }
  pose proof (complete_single_winner Example2.with_Val "don-1" Example.claimed
                Example.Vic 30 _ H1 H2 H3 H4) as H.
  repeat split; apply H.
Defined.

(** X9 at work: the donation that was posted, accepted and delivered. *)
Lemma bindings_follow_status_reachable_witness :
  (donations.shelter_id Example.delivered = None
     ↔ donations.status Example.delivered = pending)
  ∧ (is_Some (donations.volunteer_id Example.delivered)
     ↔ donations.status Example.delivered = completed)
  ∧ donations.status Example.delivered ≠ cancelled.
Proof.
  apply (bindings_follow_status_reachable Example.all_events "don-1" Example.delivered).
  vm_compute; reflexivity.
Defined.

(** X10 at work: the parties of the delivered donation. *)
Lemma parties_have_roles_reachable_witness :
  parties_have_roles (app_run Example.all_events) Example.delivered.
Proof.
  apply (proj2 (parties_have_roles_reachable Example.all_events) "don-1").
  vm_compute; reflexivity.
Defined.

(** X11 at work: Vic's Complete on the donation that Sam has accepted. *)
Lemma steps_keep_the_posting_witness :
  ∃ r', donations_table
          (app_step Example.taken (MyPickups_complete Example.Vic 30 "don-1"))
          !! "don-1" = Some r'
        ∧ same_posting Example.claimed r'
        ∧ (donations.status Example.claimed ≠ pending →
           donations.shelter_id r' = donations.shelter_id Example.claimed
           ∧ donations.accepted_at r' = donations.accepted_at Example.claimed)
        ∧ (donations.status Example.claimed = completed → r' = Example.claimed).
Proof.
  apply (steps_keep_the_posting Example.taken
           (MyPickups_complete Example.Vic 30 "don-1") "don-1" Example.claimed).
  vm_compute; reflexivity.
Defined.

(** X12 at work: Val sets up a volunteer profile. *)
Lemma createMissingProfile_then_fetch_witness :
  ∃ db' p,
    createMissingProfile (Some Example2.Val) Example.taken 25 "Val" volunteer
      (Some "555-0199") = (db', inr p)
    ∧ fetchProfile db' "u-val" "u-val" = Some p
    ∧ has_role db' Example2.Val volunteer
    ∧ profiles.email p = ""
    ∧ profiles.phone p = Some "555-0199".
Proof.
  destruct (createMissingProfile_then_fetch Example.taken Example2.Val 25 "Val"
              volunteer (Some "555-0199"))
    as (db' & p & Hcreate & Hfetch & Hrole & _ & Hemail & _ & Hphone & _).
  - vm_compute; reflexivity.
  - exists db', p. repeat split; assumption.
Defined.

(** X13 at work: Dora, who has a profile, sets one up again. *)
Lemma createMissingProfile_failures_witness :
  createMissingProfile (Some Example.Dora) Example.posted 50 "Dora" shelter None
  = (Example.posted, inl (Failed_to_create_profile unique_violation)).
Proof.
  apply (proj2 (createMissingProfile_failures Example.posted 50 "Dora" shelter None)
           Example.Dora).
  exists Example.Dora_profile. vm_compute; reflexivity.
Defined.

(** X14 at work: Dora's update of her role leaves Sam's profile alone. *)
Lemma updateProfile_own_row_only_witness :
  profiles_table
    (fst (updateProfile (Some Example.Dora) Example.posted Example.become_shelter))
    !! "u-sam"
  = profiles_table Example.posted !! "u-sam".
Proof.
  apply (proj1 (updateProfile_own_row_only Example.Dora Example.posted
                  Example.become_shelter) "u-sam").
  vm_compute; discriminate.
Defined.

(** X15 at work: Dora changes her name and clears her phone. *)
Lemma updateProfile_then_context_witness :
  let NEW := profiles.set Example.rename Example.Dora_profile in
  updateProfile (Some Example.Dora) Example.posted Example.rename
  = (with_profiles Example.posted (<["u-dora" := NEW]> (profiles_table Example.posted)),
     inr (Some NEW))
  ∧ profiles.id NEW = "u-dora"
  ∧ profiles.name NEW = "Dora D."
  ∧ profiles.email NEW = "dora@example.org"
  ∧ profiles.phone NEW = None
  ∧ profiles.user_type NEW = donor.
Proof.
  apply (updateProfile_then_context Example.Dora Example.posted Example.rename
           Example.Dora_profile).
  - vm_compute; reflexivity.
  - left; reflexivity.
Defined.

(** X17 at work: AI Classify on the option "Frozen Items". *)
Lemma classifyFoodType_on_options_witness :
  classifyFoodType "Frozen Items" = "Other Food Items".
Proof.
  rewrite (proj1 classifyFoodType_on_options "Frozen Items").
  - reflexivity.
  - vm_compute. repeat constructor.
Defined.

(** X18 at work: Dora picks a suggestion and submits. *)
Lemma DonateSurplus_never_geocodes_witness :
  let st := snd (DonateSurplus.run (Some Example.Dora) (Some Example.Dora_profile)
                   Example.posted Example2.picks) in
  ∃ db2 data,
    handleSubmit (Some Example.Dora) (DonateSurplus.formData st)
      (DonateSurplus.coordinates st) Example.posted "don-2" 50
    = (db2, Some (success_modal data))
    ∧ donations.pickup_coordinates data = DonateSurplus.coordinates st
    ∧ (donations.pickup_coordinates data = None
       ↔ donations.pickup_location data = "").
Proof.
  intros st.
  destruct (handleSubmit (Some Example.Dora) (DonateSurplus.formData st)
              (DonateSurplus.coordinates st) Example.posted "don-2" 50)
    as [db2 [[data| ]|]] eqn:Hsubmit;
    [|vm_compute in Hsubmit; discriminate..].
  exists db2, data. split; [reflexivity|].
  exact (proj2 (DonateSurplus_never_geocodes Example.Dora (Some Example.Dora_profile)
                  Example.posted Example2.picks)
           Example.posted "don-2" 50%Z db2 data Hsubmit).
Defined.

(** X19 at work: Dora types "oak", clicks the address in Los Angeles and
    submits. *)
Lemma suggestion_is_stored_in_New_York_witness :
  let st := snd (DonateSurplus.run (Some Example.Dora) (Some Example.Dora_profile)
                   Example.posted (take 3 Example2.picks)) in
  let st1 := snd (DonateSurplus.step (Some Example.Dora) (Some Example.Dora_profile)
                    Example.posted st (DonateSurplus.click_suggestion 0)) in
  form_pickup_location (DonateSurplus.formData st1)
  = "456 Oak Avenue, Los Angeles, CA 90210"
  ∧ DonateSurplus.coordinates st1 = Some {| lat := 40.7128; lng := -74.0060 |}%Q.
Proof.
  intros st st1.
  assert (H1 : LocationPicker.showSuggestions (DonateSurplus.picker st) = true)
    by (vm_compute; reflexivity).
  assert (H2 : LocationPicker.suggestions (DonateSurplus.picker st) !! 0%nat
               = Some "456 Oak Avenue, Los Angeles, CA 90210")
    by (vm_compute; reflexivity).
  assert (H3 : DonateSurplus.required_filled (DonateSurplus.formData st) = true)
    by (vm_compute; reflexivity).
  assert (H4 : donations_table Example.posted !! "don-2" = None)
    by (vm_compute; reflexivity).
  pose proof (suggestion_is_stored_in_New_York Example.Dora
                (Some Example.Dora_profile) Example.posted st 0
                "456 Oak Avenue, Los Angeles, CA 90210" "don-2" 50 H1 H2 H3 H4) as H.
  cbv zeta in H. fold st1 in H.
  destruct (DonateSurplus.step (Some Example.Dora) (Some Example.Dora_profile)
              Example.posted st1 (DonateSurplus.submit "don-2" 50)) as [db2 st2].
  split; apply H.
Defined.

(** X20 at work: Dora types an address in Paris and leaves the field. *)
Lemma typed_address_is_not_stored_witness :
  let st := snd (DonateSurplus.run (Some Example.Dora) (Some Example.Dora_profile)
                   Example.posted Example2.types_only) in
  LocationPicker.address (DonateSurplus.picker st) = "12 Rue de la Paix, Paris"
  ∧ form_pickup_location (DonateSurplus.formData st) = ""
  ∧ DonateSurplus.coordinates st = None.
Proof.
  intros st.
  assert (Hactions : Forall no_selection Example2.types_only).
  { repeat constructor. }
  pose proof (typed_address_is_not_stored Example.Dora (Some Example.Dora_profile)
                Example.posted Example2.types_only Hactions) as H.
  split; [vm_compute; reflexivity|]. split; apply H.
Defined.

(** X21 at work: a notification that is listed twice. *)
Lemma markAsRead_marks_every_copy_witness :
  markAsRead "a" [Example2.unread "a"; Example2.unread "b"; Example2.unread "a"]
    !! 1%nat
  = Some (Example2.unread "b").
Proof.
  apply (markAsRead_marks_every_copy "a"
           [Example2.unread "a"; Example2.unread "b"; Example2.unread "a"]).
  - reflexivity.
  - vm_compute; discriminate.
Defined.

(** X22 at work: ten unread notifications. *)
Lemma badge_of_the_bell_witness :
  badge (notifications_run Example.ten_announced) = Some "9+".
Proof.
  apply (badge_of_the_bell Example.ten_announced). vm_compute; reflexivity.
Defined.

(** X23 at work: with a router that ignores case, Dora, a donor, opens the
    shelters' page. *)
Lemma navigation_matches_routes_witness :
  App.AppContent Example2.ignoring_case false (Some Example.Dora)
    (Some Example.Dora_profile) "/requests"
  = App.redirect "/".
Proof.
  assert (Hmatch : App.keeps_apart Example2.ignoring_case).
  { intros path location Hpath Hlocation. unfold App.paths in *.
    repeat (apply elem_of_cons in Hpath as [->|Hpath]);
      try (by apply elem_of_nil in Hpath);
      repeat (apply elem_of_cons in Hlocation as [->|Hlocation]);
      try (by apply elem_of_nil in Hlocation);
      vm_compute; reflexivity. }
  apply (navigation_matches_routes Example2.ignoring_case Example.Dora
           Example.Dora_profile Hmatch).
  - vm_compute. repeat constructor.
  - vm_compute. intros H. repeat (apply elem_of_cons in H as [H|H]; [discriminate|]).
    by apply elem_of_nil in H.
Defined.

(** X24 at work: a donation accepted 49 hours ago. *)
Lemma getTimeSinceAccepted_ranges_witness :
  getTimeSinceAccepted 176400000 (Some 0%Z) = "2d ago".
Proof.
  destruct (getTimeSinceAccepted_ranges 176400000 0) as (_ & _ & _ & Hdays).
  destruct Hdays as [Heq _]; [lia|]. rewrite Heq. vm_compute; reflexivity.
Defined.

(** X25 at work: Dora's Dashboard after the delivery. *)
Lemma dashboard_counts_witness :
  let stats := Dashboard.fetchDashboardData_stats (app_run Example.all_events)
                 Example.Dora (Some Example.Dora_profile) in
  Dashboard.totalDonations stats
  = (Dashboard.activeDonations stats + Dashboard.completedDonations stats)%nat
  ∧ Dashboard.userDonations stats
    = List.length (filter (λ d, donations.donor_id d = "u-dora")
                     ((map_to_list (donations_table (app_run Example.all_events))).*2))
  ∧ (Dashboard.userDonations stats ≤ Dashboard.totalDonations stats)%nat.
Proof.
  apply (dashboard_counts Example.all_events Example.Dora Example.Dora_profile).
  reflexivity.
Defined.

(** X26 at work: Sam's session asks for Dora's profile. *)
Lemma fetchProfile_own_only_witness :
  fetchProfile (app_run Example.all_events) "u-sam" "u-dora" = None.
Proof.
  apply (fetchProfile_own_only Example.all_events "u-sam" "u-dora").
  vm_compute; discriminate.
Defined.

(** X27 at work: Sam's session inserts a donation in Dora's name, and Dora
    submits under an id that is taken. *)
Lemma insert_only_in_own_name_witness :
  insert_donation_select_single Example.posted "u-sam" Example2.listed2
  = (Example.posted, inl rls_violation)
  ∧ fst (handleSubmit (Some Example.Dora) Example2.form2 None Example.posted "don-1" 50)
    = Example.posted.
Proof.
  split.
  - apply (proj1 (insert_only_in_own_name Example.posted Example.Sam Example.form
                    None "don-1" 50) Example2.listed2).
    vm_compute; discriminate.
  - apply (insert_only_in_own_name Example.posted Example.Dora Example2.form2
             None "don-1" 50).
    exists Example.listed. vm_compute; reflexivity.
Defined.

(** X28 at work: after Vic's Complete, Val finds the donation completed. *)
Lemma completed_moves_between_sections_witness :
  let db1 := fst (completeDonation (Some Example.Vic) Example2.with_Val 30 "don-1") in
  Example.delivered ∈ fetchAcceptedDonations db1 Example2.Val
  ∧ donations.status Example.delivered = completed
  ∧ ∀ r, r ∈ acceptedDonations (fetchAcceptedDonations db1 Example2.Val) →
         donations_table db1 !! "don-1" ≠ Some r.
Proof.
  apply (completed_moves_between_sections Example2.with_Val "don-1" Example.claimed
           Example.Vic 30).
  - vm_compute; reflexivity.
  - reflexivity.
  - vm_compute; reflexivity.
  - vm_compute; reflexivity.
Defined.

(** X29 at work: what Vic sees under "Recently Completed" after the
    delivery. *)
Lemma recentlyCompleted_newest_six_witness :
  Example.delivered
    ∈ fetchAcceptedDonations (app_run Example.all_events) Example.Vic
  ∧ donations.status Example.delivered = completed.
Proof.
  apply (recentlyCompleted_newest_six (app_run Example.all_events) Example.Vic).
  vm_compute. repeat constructor.
Defined.
